(** * howe-lab-to-nwb, Bouabid/Vu 2026 conversion scripts

    A shallow embedding of the three orchestration scripts

    - [bouabid_vu_2026_convert_single_wavelength_session.py]
    - [bouabid_vu_2026_convert_dual_wavelength_session.py]
    - [bouabid_vu_2026_convert_all_dual_wavelength_sessions.py]

    Python dictionaries are [gmap]s keyed by strings, Python values are the
    inductive [pyval], exceptions are the inductive [exception], and the
    scripts run in a small state-and-error monad over a [world] made of the
    output filesystem and a log of the calls made into the conversion
    framework.  Everything the scripts import from outside these three files
    (pandas, pymatreader, neuroconv, nwbinspector, the package's own [utils])
    is a field of the record [Collaborators]. *)

From stdpp Require Import gmap strings list fin_maps pretty sorting.
From Stdlib Require Import ZArith Ascii.

Set Warnings "-register-all".

Local Open Scope Z_scope.

(* ===================================================================== *)
(** * Python values *)
(* ===================================================================== *)

(** [PInt] is a number whose value is an integer, a Python int or a numpy
    scalar of any dtype that holds one (Python compares and hashes them
    alike); [PFloat m e] is the binary64 float [m * 2^e], used for
    timestamps, which the scripts only pass on. *)
Inductive pyval :=
| PNone
| PBool (b : bool)
| PInt (z : Z)
| PFloat (m e : Z)
| PStr (s : string)
| PDatetime (stamp : Z) (tzinfo : option string)
| PList (l : list pyval)
| PDict (d : gmap string pyval).

(** A [pathlib.Path] is its sequence of components, and [p / name] adds
    [name] as one component.  Paths are compared as sequences: what
    pathlib does with a name that has separators in it or is anchored, and
    the normalisation pathlib and the file system apply when they compare
    paths (repeated separators, letter case on Windows), are not modelled.
    The statements below are about the paths as the scripts join them. *)
Abbreviation path := (list string).

(** [p / name] *)
Definition path_join (p : path) (name : string) : path := p ++ [name].
Infix "/:" := path_join (at level 40, left associativity).

(** [p.parent] *)
Definition path_parent (p : path) : path := removelast p.

(** [p.name] *)
Definition path_name (p : path) : string := List.last p EmptyString.

(** [str(p)] *)
Fixpoint path_str (p : path) : string :=
  match p with
  | [] => "."
  | [c] => c
  | c :: p' => c +:+ "/" +:+ path_str p'
  end.

Inductive exception :=
| ValueError (msg : string)
| KeyError (key : pyval)
| IndexError
| TypeError
| AttributeError
| CollaboratorError (msg : string).

(** Python's class hierarchy: [KeyError] and [IndexError] are the two
    built-in subclasses of [LookupError]. *)
Definition is_LookupError (e : exception) : bool :=
  match e with
  | KeyError _ | IndexError => true
  | _ => false
  end.

Inductive outcome (A : Type) :=
| Return (a : A)
| Raise (e : exception).
Arguments Return {A} a.
Arguments Raise {A} e.

(** [d[k]] on a dict *)
Definition getitem {V} (d : gmap string V) (k : string) : outcome V :=
  match d !! k with
  | Some v => Return v
  | None => Raise (KeyError (PStr k))
  end.

(** [v[k]] on a value that has to be a dict *)
Definition pv_getitem (v : pyval) (k : string) : outcome pyval :=
  match v with
  | PDict d => getitem d k
  | _ => Raise TypeError
  end.

(** [v[i]] on a value that has to be an array *)
Definition pv_index (v : pyval) (i : nat) : outcome pyval :=
  match v with
  | PList l => match l !! i with
               | Some x => Return x
               | None => Raise IndexError
               end
  | _ => Raise TypeError
  end.

(** A number used as a frame index: an integer, or a float that holds an
    integer (a MATLAB double).  The model has windows of integers only, and
    computes them on [Z]: that is what the scripts compute for integer
    bounds below [2^53], where float64 arithmetic is exact.  On fractional
    bounds [np.arange] goes on with floats ([np.arange(0.5, 4)] is
    [[0.5, 1.5, 2.5, 3.5]]); the model stops there, with a [TypeError] the
    scripts do not raise.  The statements about windows are about integer
    pairs below the bound. *)
Definition pv_int (v : pyval) : outcome Z :=
  match v with
  | PInt z => Return z
  | PBool b => Return (if b then 1 else 0)
  | PFloat m e =>
      if 0 <=? e then Return (m * 2 ^ e)
      else if m mod 2 ^ (- e) =? 0 then Return (m / 2 ^ (- e))
      else Raise TypeError
  | _ => Raise TypeError
  end.

(** [dt.replace(tzinfo=tz)] *)
Definition replace_tzinfo (v : pyval) (tz : string) : outcome pyval :=
  match v with
  | PDatetime stamp _ => Return (PDatetime stamp (Some tz))
  | _ => Raise AttributeError
  end.

(** Truth value of a Python object, as used by [if fiber["included"]]. *)
Definition truthy (v : pyval) : bool :=
  match v with
  | PNone => false
  | PBool b => b
  | PInt z => negb (z =? 0)
  | PFloat m _ => negb (m =? 0)
  | PStr s => negb (bool_decide (s = EmptyString))
  | PDatetime _ _ => true
  | PList l => match l with [] => false | _ => true end
  | PDict d => match map_to_list d with [] => false | _ => true end
  end.

(** [np.arange(start, stop)] on integers: [start, start+1, ..., stop-1],
    empty when [stop <= start]. *)
Definition np_arange (start stop : Z) : list Z := seqZ start (stop - start).

(** [list(enumerate(l))] *)
Definition enumerate {A} (l : list A) : list (nat * A) := imap (λ i x, (i, x)) l.

(** [s.replace(c, empty)] for a one-character [c] *)
Fixpoint str_remove_char (c : Ascii.ascii) (s : string) : string :=
  match s with
  | EmptyString => EmptyString
  | String x s' =>
      if bool_decide (x = c) then str_remove_char c s'
      else String x (str_remove_char c s')
  end.

(* ===================================================================== *)
(** * The session table *)
(* ===================================================================== *)

(** A cell of the [Mouse] column: the sheet may hold text or a number, the
    driver normalises it with [astype(str)] and [str(...)]. *)
Inductive cell :=
| CStr (s : string)
| CInt (z : Z).

Definition str_of_cell (c : cell) : string :=
  match c with
  | CStr s => s
  | CInt z => pretty z
  end.

(** One row of the "Sessions" sheet, one field per column the driver reads. *)
Record session_row := {
  Mouse : cell;
  Experiment_Directory : string;
  Raw_Imaging_File_green : string;
  Raw_Imaging_File_red : string;
  Processed_Data_File : string;
  Processed_Photometry_Field_green : string;
  Processed_Photometry_Field_red : string;
  Processed_Behavior_Field_green : string;
  Processed_Behavior_Field_red : string;
  Processed_Index_Field_green : string;
  Processed_Index_Field_red : string;
  LED_Excitation_Wavelength_green : Z;
  LED_Excitation_Wavelength_red : Z;
  Relevant_Injected_Sensor_green : string;
  Relevant_Injected_Sensor_red : string;
  Raw_Behavior_File : string;
}.

(** One row of the "Mice" sheet: column name to cell. *)
Abbreviation mice_row := (gmap string cell).

(** [DataFrame.astype(str)] on the "Mice" sheet *)
Definition astype_str (t : list (gmap string cell)) : list (gmap string cell) :=
  (λ row : gmap string cell, (λ c, CStr (str_of_cell c)) <$> row) <$> t.

(** [data_table[data_table["Mouse"].astype(str).isin(subject_ids)]] *)
Definition filter_by_subject (subject_ids : list string)
    (data_table : list session_row) : list session_row :=
  List.filter (λ r, bool_decide (str_of_cell (Mouse r) ∈ subject_ids)) data_table.

(** Order of the group keys: pandas sorts each key column, numbers before
    text in a column of mixed cells, text by code point. *)
Definition cell_compare (a b : cell) : comparison :=
  match a, b with
  | CInt x, CInt y => Z.compare x y
  | CInt _, CStr _ => Lt
  | CStr _, CInt _ => Gt
  | CStr x, CStr y => String.compare x y
  end.

Definition key_compare (a b : cell * string) : comparison :=
  match cell_compare a.1 b.1 with
  | Eq => String.compare a.2 b.2
  | c => c
  end.

Fixpoint group_insert (k : cell * string) (r : session_row)
    (gs : list ((cell * string) * list session_row))
    : list ((cell * string) * list session_row) :=
  match gs with
  | [] => [(k, [r])]
  | (k', rs) :: gs' =>
      match key_compare k k' with
      | Eq => (k', rs ++ [r]) :: gs'
      | Lt => (k, [r]) :: gs
      | Gt => (k', rs) :: group_insert k r gs'
      end
  end.

(** [table.groupby(["Mouse", "Experiment Directory"])], as the sequence of
    [((subject_id, exp_dir), table)] pairs the loop iterates over.  Every
    [session_row] has both key cells; a row of the sheet with a missing key
    cell, which pandas leaves out of every group, is not a [session_row],
    so nothing is stated here about which rows of the sheet get a group. *)
Definition groupby (t : list session_row)
    : list ((cell * string) * list session_row) :=
  fold_left (λ gs r, group_insert (Mouse r, Experiment_Directory r) r gs) t [].

(** [table[column].values[0]] *)
Definition values0 {A} (table : list session_row) (column : session_row → A)
    : outcome A :=
  match table with
  | r :: _ => Return (column r)
  | [] => Raise IndexError
  end.

(* ===================================================================== *)
(** * Arguments, handles, calls and the world *)
(* ===================================================================== *)

(** What one assembler call asks the converter to put into the file. *)
Record stream_set := {
  ss_source_data : gmap string (gmap string pyval);
  ss_conversion_options : gmap string (gmap string pyval);
  ss_metadata : gmap string pyval;
  ss_aligned_starting_time : pyval;
}.

(** The in-memory [pynwb.NWBFile]: the stream sets added so far, in order. *)
Abbreviation NWBFile := (list stream_set).

(** Keyword arguments of [single_wavelength_session_to_nwb]. *)
Module SingleArgs.
Record t := {
  raw_imaging_file_path : path;
  processed_data_file_path : path;
  fiber_photometry_field : string;
  index_field : string;
  fiber_locations_file_path : path;
  excitation_wavelength_in_nm : Z;
  indicator : string;
  ttl_file_path : path;
  ttl_stream_name : string;
  behavior_field : option string;
  frame_indices : option (list Z);
  nwbfile_path : option path;
  nwbfile : option NWBFile;
  sampling_frequency : pyval;
  subject_metadata : option (gmap string pyval);
  aligned_starting_time : pyval;
  excitation_mode : string;
  stub_test : bool;
}.
End SingleArgs.

(** Keyword arguments of [dual_wavelength_session_to_nwb]. *)
Module DualArgs.
Record t := {
  raw_imaging_file_paths : list path;
  processed_data_file_path : path;
  fiber_photometry_fields : list string;
  behavior_fields : list string;
  index_fields : list string;
  fiber_locations_file_path : path;
  excitation_wavelengths_in_nm : list Z;
  indicators : list string;
  ttl_file_path : path;
  ttl_stream_names : list string;
  nwbfile_path : path;
  sampling_frequency : pyval;
  subject_metadata : option (gmap string pyval);
  stub_test : bool;
}.
End DualArgs.

(** Calls that leave the three scripts, and entries into the two assemblers. *)
Inductive event :=
| Call_dual_wavelength_session_to_nwb (a : DualArgs.t)
| Call_single_wavelength_session_to_nwb (a : SingleArgs.t)
| Call_create_nwbfile (s : stream_set)
| Call_add_to_nwbfile (nwbfile : NWBFile) (s : stream_set)
| Call_configure_and_write_nwbfile (nwbfile : NWBFile) (output_filepath : path)
| Call_inspect_nwbfile (nwbfile_path : path)
| Call_save_report (report_file_path : path) (formatted_messages : list string)
| Tqdm_init (desc : string) (total : nat)
| Tqdm_set_description (desc : string)
| Tqdm_update.

Inductive file_content :=
| NwbContent (nwbfile : NWBFile)
| ReportContent (formatted_messages : list string)
| OtherContent (bytes : string).

Record world := {
  files : gmap path file_content;
  calls : list event;
}.

(** Calls that write to the filesystem. *)
Definition is_write (ev : event) : bool :=
  match ev with
  | Call_configure_and_write_nwbfile _ _ | Call_save_report _ _ => true
  | _ => false
  end.

(** Calls the single-wavelength assembler makes, its own entry included. *)
Definition is_assembler_call (ev : event) : bool :=
  match ev with
  | Call_single_wavelength_session_to_nwb _
  | Call_create_nwbfile _
  | Call_add_to_nwbfile _ _
  | Call_configure_and_write_nwbfile _ _ => true
  | _ => false
  end.

(** Calls that do conversion work. *)
Definition is_conversion (ev : event) : bool :=
  match ev with
  | Call_dual_wavelength_session_to_nwb _
  | Call_single_wavelength_session_to_nwb _
  | Call_create_nwbfile _
  | Call_add_to_nwbfile _ _
  | Call_configure_and_write_nwbfile _ _ => true
  | _ => false
  end.

(** Everything imported from outside the three scripts.  Readers are
    functions of their arguments (the inputs do not change during a run);
    the three writers say whether they fail. *)
Record Collaborators := {
  (* pandas *)
  read_excel : path → outcome (list session_row * list mice_row);
  (* howe_lab_to_nwb.bouabid_vu_2026.utils._data_utils *)
  _get_subject_metadata_from_dataframe :
    cell → list mice_row → outcome (gmap string pyval);
  _get_indicator_from_aav_string : string → outcome string;
  (* pymatreader *)
  read_mat : path → option string → outcome (gmap string pyval);
  (* howe_lab_to_nwb.bouabid_vu_2026.utils *)
  get_fiber_locations : path → outcome (list (gmap string pyval));
  update_fiber_photometry_metadata :
    gmap string pyval → string → Z → string → outcome (gmap string pyval);
  update_ophys_metadata :
    gmap string pyval → string → Z → string → string → outcome (gmap string pyval);
  (* BouabidVu2026NWBConverter(source_data=...) and its methods *)
  converter_init : gmap string (gmap string pyval) → outcome unit;
  converter_get_metadata :
    gmap string (gmap string pyval) → outcome (gmap string pyval);
  converter_create_nwbfile : stream_set → outcome unit;
  converter_add_to_nwbfile : NWBFile → stream_set → outcome unit;
  (* neuroconv *)
  load_dict_from_file : path → outcome (gmap string pyval);
  dict_deep_update : gmap string pyval → gmap string pyval → gmap string pyval;
  configure_and_write_nwbfile : NWBFile → path → outcome unit;
  (* nwbinspector *)
  inspect_nwbfile : path → option file_content → outcome (list string);
  format_messages : list string → list string → list string;
  save_report : path → list string → outcome unit;
  (* Path(__file__).parent *)
  module_dir : path;
}.

(** The state-and-error monad of the scripts. *)
Definition M (A : Type) : Type := world → outcome A * world.

Definition ret {A} (a : A) : M A := λ w, (Return a, w).
Definition raise {A} (e : exception) : M A := λ w, (Raise e, w).
Definition lift {A} (o : outcome A) : M A := λ w, (o, w).
Definition bind {A B} (m : M A) (k : A → M B) : M B :=
  λ w, match m w with
       | (Return a, w') => k a w'
       | (Raise e, w') => (Raise e, w')
       end.
Definition emit (ev : event) : M unit :=
  λ w, (Return (), {| files := files w; calls := calls w ++ [ev] |}).
Definition path_exists (p : path) : M bool :=
  λ w, (Return (bool_decide (is_Some (files w !! p))), w).
Definition write_file (p : path) (c : file_content) : M unit :=
  λ w, (Return (), {| files := <[p := c]> (files w); calls := calls w |}).
Definition read_file (p : path) : M (option file_content) :=
  λ w, (Return (files w !! p), w).

(** Sequencing inside [outcome], for the code that only reads. *)
Definition obind {A B} (o : outcome A) (k : A → outcome B) : outcome B :=
  match o with
  | Return a => k a
  | Raise e => Raise e
  end.

Notation "x <- o ; k" := (obind o (λ x, k))
  (at level 20, o at level 100, k at level 200, only parsing).
Notation "x <~ m ; k" := (bind m (λ x, k))
  (at level 20, m at level 100, k at level 200, only parsing).
Notation "'run' m ; k" := (bind m (λ _, k))
  (at level 20, m at level 100, k at level 200, only parsing).

(** [for x in xs: body(x)] *)
Fixpoint for_each {A} (xs : list A) (body : A → M unit) : M unit :=
  match xs with
  | [] => ret ()
  | x :: xs' => run body x; for_each xs' body
  end.

(** [l[i]] on a Python list *)
Definition list_index {A} (l : list A) (i : nat) : outcome A :=
  match l !! i with
  | Some x => Return x
  | None => Raise IndexError
  end.

(** [d.update(k1=v1, ...)] on a value that has to be a dict *)
Definition pv_update (v : pyval) (kvs : list (string * pyval)) : outcome pyval :=
  match v with
  | PDict d => Return (PDict (fold_left (λ d kv, <[kv.1 := kv.2]> d) kvs d))
  | _ => Raise AttributeError
  end.

(** [repr] of a list of strings, as an f-string prints it (no escaping). *)
Definition repr_str_list (l : list string) : string :=
  "[" +:+ String.concat ", " ((λ s, "'" +:+ s +:+ "'") <$> l) +:+ "]".

(* ===================================================================== *)
(** * bouabid_vu_2026_convert_single_wavelength_session.py *)
(* ===================================================================== *)

Section Scripts.

Variable C : Collaborators.

(** Lines 171-176: the wavelength table. *)
Definition excitation_wavelength_to_photon_series_name : gmap Z string :=
  {[ 470 := "Green"%string;
     405 := "GreenIsosbestic"%string;
     415 := "GreenIsosbestic"%string;
     570 := "Red"%string ]}.

(** Line 119: [[fiber_ind for fiber_ind, fiber in enumerate(...) if fiber["included"]]] *)
Fixpoint accepted_indices (l : list (nat * gmap string pyval)) : outcome (list nat) :=
  match l with
  | [] => Return []
  | (fiber_ind, fiber) :: l' =>
      included <- getitem fiber "included";
      rest <- accepted_indices l';
      Return (if truthy included then fiber_ind :: rest else rest)
  end.

(** Lines 82-134: [source_data] and [conversion_options]. *)
Definition single_source_data (a : SingleArgs.t)
    : outcome (gmap string (gmap string pyval) * gmap string (gmap string pyval)) :=
  let frame_indices := SingleArgs.frame_indices a in
  let stub_test := PBool (SingleArgs.stub_test a) in
  let source_data : gmap string (gmap string pyval) := ∅ in
  let conversion_options : gmap string (gmap string pyval) := ∅ in
  (* Add raw imaging data *)
  frame_indices <- read_mat C (SingleArgs.processed_data_file_path a)
                     (Some (SingleArgs.index_field a));
  index_pair <- getitem frame_indices (SingleArgs.index_field a);
  start <- (x <- pv_index index_pair 0; pv_int x);
  stop <- (x <- pv_index index_pair 1; pv_int x);
  let frame_indices := np_arange (start - 1) stop in
  let imaging_source_data : gmap string pyval :=
    {[ "file_path" := PStr (path_str (SingleArgs.raw_imaging_file_path a));
       "frame_indices" := PList (fmap (M:=list) PInt frame_indices) ]} in
  let imaging_source_data :=
    match SingleArgs.sampling_frequency a with
    | PNone => imaging_source_data
    | sampling_frequency =>
        <["sampling_frequency" := sampling_frequency]> imaging_source_data
    end in
  let source_data := <["Imaging" := imaging_source_data]> source_data in
  let conversion_options :=
    <["Imaging" := {[ "stub_test" := stub_test;
                      "photon_series_type" := PStr "OnePhotonSeries";
                      "photon_series_index" := PInt 0 ]}]> conversion_options in
  (* Add raw fiber photometry *)
  let source_data :=
    <["FiberPhotometry" :=
        {[ "file_path" := PStr (path_str (SingleArgs.processed_data_file_path a));
           "data_field" := PStr (SingleArgs.fiber_photometry_field a);
           "ttl_file_path" := PStr (path_str (SingleArgs.ttl_file_path a));
           "ttl_stream_name" := PStr (SingleArgs.ttl_stream_name a) ]}]> source_data in
  let conversion_options :=
    <["FiberPhotometry" := {[ "stub_test" := stub_test ]}]> conversion_options in
  (* Add fiber locations *)
  fiber_locations_metadata <-
    get_fiber_locations C (SingleArgs.fiber_locations_file_path a);
  let conversion_options :=
    <["FiberPhotometry" :=
        {[ "stub_test" := stub_test;
           "fiber_locations_metadata" := PList (fmap (M:=list) PDict fiber_locations_metadata) ]}]>
      conversion_options in
  (* Add ROI segmentation *)
  accepted_list <- accepted_indices (enumerate fiber_locations_metadata);
  let roi_source_data : gmap string pyval :=
    {[ "file_path" := PStr (path_str (SingleArgs.processed_data_file_path a));
       "data_field" := PStr (SingleArgs.fiber_photometry_field a);
       "sampling_frequency" := SingleArgs.sampling_frequency a;
       "accepted_list" := PList (fmap (M:=list) (λ i : nat, PInt (Z.of_nat i)) accepted_list) ]} in
  let source_data := <["Segmentation" := roi_source_data]> source_data in
  let conversion_options :=
    <["Segmentation" := {[ "stub_test" := stub_test ]}]> conversion_options in
  (* Add behavior *)
  match SingleArgs.behavior_field a with
  | Some behavior_field =>
      let source_data :=
        <["Behavior" :=
            {[ "file_path" := PStr (path_str (SingleArgs.processed_data_file_path a));
               "data_field" := PStr behavior_field ]}]> source_data in
      let conversion_options :=
        <["Behavior" := {[ "stub_test" := stub_test ]}]> conversion_options in
      Return (source_data, conversion_options)
  | None => Return (source_data, conversion_options)
  end.

(** Lines 137-169: the converter and the metadata layers that do not depend
    on the wavelength; also loads the fiber photometry defaults. *)
Definition single_default_metadata (a : SingleArgs.t)
    (source_data : gmap string (gmap string pyval))
    : outcome (gmap string pyval * gmap string pyval) :=
  (* based on data organization *)
  let session_id := path_name (path_parent (SingleArgs.processed_data_file_path a)) in
  _ <- converter_init C source_data;
  (* Add datetime to conversion *)
  metadata <- converter_get_metadata C source_data;
  nwbfile_metadata <- getitem metadata "NWBFile";
  session_start_time <- pv_getitem nwbfile_metadata "session_start_time";
  let tzinfo := "US/Eastern"%string in
  session_start_time <- replace_tzinfo session_start_time tzinfo;
  nwbfile_metadata <- pv_update nwbfile_metadata
                        [("session_start_time"%string, session_start_time);
                         ("session_id"%string, PStr session_id)];
  let metadata := <["NWBFile" := nwbfile_metadata]> metadata in
  (* Update default metadata with the editable in the corresponding yaml file *)
  editable_metadata <-
    load_dict_from_file C
      (module_dir C /: "metadata" /: "bouabid_vu_2026_general_metadata.yaml");
  let metadata := dict_deep_update C metadata editable_metadata in
  metadata <-
    match SingleArgs.subject_metadata a with
    | Some subject_metadata =>
        let metadata := dict_deep_update C metadata subject_metadata in
        subject <- getitem metadata "Subject";
        date_of_birth <- pv_getitem subject "date_of_birth";
        date_of_birth <- replace_tzinfo date_of_birth tzinfo;
        subject <- pv_update subject [("date_of_birth"%string, date_of_birth)];
        Return (<["Subject" := subject]> metadata)
    | None => Return metadata
    end;
  ophys_metadata <-
    load_dict_from_file C
      (module_dir C /: "metadata" /: "bouabid_vu_2026_ophys_metadata.yaml");
  let metadata := dict_deep_update C metadata ophys_metadata in
  (* Load the default metadata for fiber photometry *)
  fiber_photometry_metadata <-
    load_dict_from_file C
      (module_dir C /: "metadata" /: "bouabid_vu_2026_fiber_photometry_metadata.yaml");
  Return (metadata, fiber_photometry_metadata).

(** Lines 171-195: the series names looked up from the wavelength, and the
    two metadata updates that use them. *)
Definition single_wavelength_metadata (a : SingleArgs.t)
    (metadata fiber_photometry_metadata : gmap string pyval)
    : outcome (gmap string pyval) :=
  name_suffix <-
    match excitation_wavelength_to_photon_series_name
            !! SingleArgs.excitation_wavelength_in_nm a with
    | Some name => Return name
    | None => Raise (KeyError (PInt (SingleArgs.excitation_wavelength_in_nm a)))
    end;
  let fiber_photometry_response_series_name :=
    "FiberPhotometryResponseSeries" +:+ name_suffix in
  updated_fiber_photometry_metadata <-
    update_fiber_photometry_metadata C fiber_photometry_metadata
      fiber_photometry_response_series_name
      (SingleArgs.excitation_wavelength_in_nm a) (SingleArgs.indicator a);
  let metadata := dict_deep_update C metadata updated_fiber_photometry_metadata in
  update_ophys_metadata C metadata ("OnePhotonSeries" +:+ name_suffix)
    (SingleArgs.excitation_wavelength_in_nm a) (SingleArgs.excitation_mode a)
    (SingleArgs.indicator a).

(** Lines 137-195 together. *)
Definition single_metadata (a : SingleArgs.t)
    (source_data : gmap string (gmap string pyval)) : outcome (gmap string pyval) :=
  defaults <- single_default_metadata a source_data;
  single_wavelength_metadata a defaults.1 defaults.2.

(** The whole function; lines 197-210 create or extend the handle and write
    it out when a path was given. *)
Definition single_wavelength_session_to_nwb (a : SingleArgs.t) : M (option NWBFile) :=
  run emit (Call_single_wavelength_session_to_nwb a);
  configuration <~ lift (single_source_data a);
  let source_data := configuration.1 in
  let conversion_options := configuration.2 in
  metadata <~ lift (single_metadata a source_data);
  nwbfile <~
    match SingleArgs.nwbfile a with
    | None =>
        let s := {| ss_source_data := source_data;
                    ss_conversion_options := conversion_options;
                    ss_metadata := metadata;
                    ss_aligned_starting_time := PNone |} in
        run emit (Call_create_nwbfile s);
        run lift (converter_create_nwbfile C s);
        ret [s]
    | Some nwbfile =>
        let s := {| ss_source_data := source_data;
                    ss_conversion_options := conversion_options;
                    ss_metadata := metadata;
                    ss_aligned_starting_time := SingleArgs.aligned_starting_time a |} in
        run emit (Call_add_to_nwbfile nwbfile s);
        run lift (converter_add_to_nwbfile C nwbfile s);
        ret (nwbfile ++ [s])
    end;
  match SingleArgs.nwbfile_path a with
  | None => ret (Some nwbfile)
  | Some nwbfile_path =>
      run emit (Call_configure_and_write_nwbfile nwbfile nwbfile_path);
      run lift (configure_and_write_nwbfile C nwbfile nwbfile_path);
      run write_file nwbfile_path (NwbContent nwbfile);
      ret None
  end.

(* ===================================================================== *)
(** * bouabid_vu_2026_convert_dual_wavelength_session.py *)
(* ===================================================================== *)

(** Lines 75-81: the two frame windows and starting times. *)
Definition dual_frame_alignment (a : DualArgs.t)
    : outcome ((list Z * pyval) * (list Z * pyval)) :=
  processed_data <- read_mat C (DualArgs.processed_data_file_path a) None;
  first_behavior_data <-
    (f <- list_index (DualArgs.behavior_fields a) 0; getitem processed_data f);
  first_start <-
    (f <- list_index (DualArgs.index_fields a) 0;
     index_pair <- getitem processed_data f;
     x <- pv_index index_pair 0; pv_int x);
  first_stop <-
    (f <- list_index (DualArgs.index_fields a) 0;
     index_pair <- getitem processed_data f;
     x <- pv_index index_pair 1; pv_int x);
  let first_frame_indices := np_arange (first_start - 1) first_stop in
  first_frame_starting_time <-
    (t <- pv_getitem first_behavior_data "timestamp"; pv_index t 0);
  second_behavior_data <-
    (f <- list_index (DualArgs.behavior_fields a) 1; getitem processed_data f);
  second_start <-
    (f <- list_index (DualArgs.index_fields a) 1;
     index_pair <- getitem processed_data f;
     x <- pv_index index_pair 0; pv_int x);
  second_stop <-
    (f <- list_index (DualArgs.index_fields a) 1;
     index_pair <- getitem processed_data f;
     x <- pv_index index_pair 1; pv_int x);
  let second_frame_indices := np_arange (second_start - 1) second_stop in
  second_frame_starting_time <-
    (t <- pv_getitem second_behavior_data "timestamp"; pv_index t 0);
  Return ((first_frame_indices, first_frame_starting_time),
          (second_frame_indices, second_frame_starting_time)).

(** Lines 84-101: the keyword arguments of the first call. *)
Definition first_call_args (a : DualArgs.t)
    (first_frame_indices : list Z) (first_frame_starting_time : pyval)
    : outcome SingleArgs.t :=
  raw_imaging_file_path <- list_index (DualArgs.raw_imaging_file_paths a) 0;
  fiber_photometry_field <- list_index (DualArgs.fiber_photometry_fields a) 0;
  behavior_field <- list_index (DualArgs.behavior_fields a) 0;
  index_field <- list_index (DualArgs.index_fields a) 0;
  excitation_wavelength_in_nm <- list_index (DualArgs.excitation_wavelengths_in_nm a) 0;
  indicator <- list_index (DualArgs.indicators a) 0;
  ttl_stream_name <- list_index (DualArgs.ttl_stream_names a) 0;
  Return {|
    SingleArgs.raw_imaging_file_path := raw_imaging_file_path;
    SingleArgs.frame_indices := Some first_frame_indices;
    SingleArgs.aligned_starting_time := first_frame_starting_time;
    SingleArgs.processed_data_file_path := DualArgs.processed_data_file_path a;
    SingleArgs.fiber_photometry_field := fiber_photometry_field;
    SingleArgs.behavior_field := Some behavior_field;
    SingleArgs.index_field := index_field;
    SingleArgs.fiber_locations_file_path := DualArgs.fiber_locations_file_path a;
    SingleArgs.excitation_wavelength_in_nm := excitation_wavelength_in_nm;
    SingleArgs.indicator := indicator;
    SingleArgs.ttl_file_path := DualArgs.ttl_file_path a;
    SingleArgs.ttl_stream_name := ttl_stream_name;
    SingleArgs.sampling_frequency := DualArgs.sampling_frequency a;
    SingleArgs.subject_metadata := DualArgs.subject_metadata a;
    SingleArgs.excitation_mode := "dual-wavelength";
    SingleArgs.stub_test := DualArgs.stub_test a;
    (* defaults *)
    SingleArgs.nwbfile_path := None;
    SingleArgs.nwbfile := None;
  |}.

(** Lines 105-123: the keyword arguments of the second call; no
    [behavior_field], so it takes its default [None]. *)
Definition second_call_args (a : DualArgs.t)
    (second_frame_indices : list Z) (second_frame_starting_time : pyval)
    (nwbfile : option NWBFile) : outcome SingleArgs.t :=
  raw_imaging_file_path <- list_index (DualArgs.raw_imaging_file_paths a) 1;
  fiber_photometry_field <- list_index (DualArgs.fiber_photometry_fields a) 1;
  index_field <- list_index (DualArgs.index_fields a) 1;
  excitation_wavelength_in_nm <- list_index (DualArgs.excitation_wavelengths_in_nm a) 1;
  indicator <- list_index (DualArgs.indicators a) 1;
  ttl_stream_name <- list_index (DualArgs.ttl_stream_names a) 1;
  Return {|
    SingleArgs.raw_imaging_file_path := raw_imaging_file_path;
    SingleArgs.frame_indices := Some second_frame_indices;
    SingleArgs.aligned_starting_time := second_frame_starting_time;
    SingleArgs.processed_data_file_path := DualArgs.processed_data_file_path a;
    SingleArgs.fiber_photometry_field := fiber_photometry_field;
    SingleArgs.index_field := index_field;
    SingleArgs.fiber_locations_file_path := DualArgs.fiber_locations_file_path a;
    SingleArgs.excitation_wavelength_in_nm := excitation_wavelength_in_nm;
    SingleArgs.indicator := indicator;
    SingleArgs.ttl_file_path := DualArgs.ttl_file_path a;
    SingleArgs.ttl_stream_name := ttl_stream_name;
    SingleArgs.sampling_frequency := DualArgs.sampling_frequency a;
    SingleArgs.subject_metadata := DualArgs.subject_metadata a;
    SingleArgs.excitation_mode := "dual-wavelength";
    SingleArgs.nwbfile := nwbfile;
    SingleArgs.nwbfile_path := Some (DualArgs.nwbfile_path a);
    SingleArgs.stub_test := DualArgs.stub_test a;
    (* default *)
    SingleArgs.behavior_field := None;
  |}.

Definition dual_wavelength_session_to_nwb (a : DualArgs.t) : M unit :=
  run emit (Call_dual_wavelength_session_to_nwb a);
  alignment <~ lift (dual_frame_alignment a);
  let first_frame_indices := alignment.1.1 in
  let first_frame_starting_time := alignment.1.2 in
  let second_frame_indices := alignment.2.1 in
  let second_frame_starting_time := alignment.2.2 in
  (* Add data from the first excitation wavelength *)
  first_args <~ lift (first_call_args a first_frame_indices first_frame_starting_time);
  nwbfile <~ single_wavelength_session_to_nwb first_args;
  (* Add data from the second excitation wavelength and write to NWB file *)
  second_args <~
    lift (second_call_args a second_frame_indices second_frame_starting_time nwbfile);
  run single_wavelength_session_to_nwb second_args;
  ret ().

(* ===================================================================== *)
(** * bouabid_vu_2026_convert_all_dual_wavelength_sessions.py *)
(* ===================================================================== *)

(** Lines 85-87: the output file of a session group. *)
Definition session_nwbfile_path (nwbfile_folder_path : path) (stub_test : bool)
    (subject_id exp_dir : string) : path :=
  let nwbfile_path := nwbfile_folder_path /: (subject_id +:+ "_" +:+ exp_dir +:+ ".nwb") in
  if stub_test
  then nwbfile_folder_path /: ("stub-" +:+ subject_id +:+ "_" +:+ exp_dir +:+ ".nwb")
  else nwbfile_path.

(** Line 111: the QA report of a session group. *)
Definition session_report_path (nwbfile_folder_path : path)
    (subject_id exp_dir : string) : path :=
  nwbfile_folder_path /: (subject_id +:+ "-" +:+ exp_dir +:+ "_nwbinspector_result.txt").

(** Lines 75-84: the arguments read off the first row of the group. *)
Definition session_dual_args (folder_path : path)
    (subject_id exp_dir : string) (table : list session_row)
    (subject_metadata : gmap string pyval) (nwbfile_path : path)
    : outcome DualArgs.t :=
  let subject_folder_path := folder_path /: subject_id in
  let session_folder_path := subject_folder_path /: exp_dir in
  raw_imaging_file_paths <-
    (green <- values0 table Raw_Imaging_File_green;
     red <- values0 table Raw_Imaging_File_red;
     Return [session_folder_path /: "raw" /: green;
             session_folder_path /: "raw" /: red]);
  processed_data_file_path <-
    (f <- values0 table Processed_Data_File; Return (session_folder_path /: f));
  fiber_photometry_fields <-
    (green <- values0 table Processed_Photometry_Field_green;
     red <- values0 table Processed_Photometry_Field_red;
     Return [green; red]);
  behavior_fields <-
    (green <- values0 table Processed_Behavior_Field_green;
     red <- values0 table Processed_Behavior_Field_red;
     Return [green; red]);
  index_fields <-
    (green <- values0 table Processed_Index_Field_green;
     red <- values0 table Processed_Index_Field_red;
     Return [green; red]);
  let fiber_locations_file_path := subject_folder_path /: "fiber_table.xlsx" in
  excitation_wavelengths_in_nm <-
    (green <- values0 table LED_Excitation_Wavelength_green;
     red <- values0 table LED_Excitation_Wavelength_red;
     Return [green; red]);
  indicators <-
    (green <- values0 table Relevant_Injected_Sensor_green;
     green <- _get_indicator_from_aav_string C green;
     red <- values0 table Relevant_Injected_Sensor_red;
     red <- _get_indicator_from_aav_string C red;
     Return [green; red]);
  ttl_file_path <-
    (f <- values0 table Raw_Behavior_File; Return (session_folder_path /: "raw" /: f));
  let ttl_stream_names := ["ttlIn1"; "ttlIn2"]%string in
  Return {|
    DualArgs.raw_imaging_file_paths := raw_imaging_file_paths;
    DualArgs.processed_data_file_path := processed_data_file_path;
    DualArgs.fiber_photometry_fields := fiber_photometry_fields;
    DualArgs.behavior_fields := behavior_fields;
    DualArgs.index_fields := index_fields;
    DualArgs.fiber_locations_file_path := fiber_locations_file_path;
    DualArgs.excitation_wavelengths_in_nm := excitation_wavelengths_in_nm;
    DualArgs.indicators := indicators;
    DualArgs.ttl_file_path := ttl_file_path;
    DualArgs.ttl_stream_names := ttl_stream_names;
    DualArgs.nwbfile_path := nwbfile_path;
    DualArgs.sampling_frequency := PInt 18;
    DualArgs.subject_metadata := Some subject_metadata;
    (* default *)
    DualArgs.stub_test := false;
  |}.

(** Lines 110-119: the inspector step. *)
Definition inspector_step (nwbfile_folder_path : path)
    (subject_id exp_dir : string) (nwbfile_path : path) : M unit :=
  run emit (Call_inspect_nwbfile nwbfile_path);
  written <~ read_file nwbfile_path;
  results <~ lift (inspect_nwbfile C nwbfile_path written);
  let report_path := session_report_path nwbfile_folder_path subject_id exp_dir in
  report_exists <~ path_exists report_path;
  if negb report_exists then
    let formatted_messages :=
      format_messages C results ["importance"; "file_path"]%string in
    run emit (Call_save_report report_path formatted_messages);
    run lift (save_report C report_path formatted_messages);
    write_file report_path (ReportContent formatted_messages)
  else ret ().

(** Lines 68-121: the body of the loop over the session groups. *)
Definition session_group_body (folder_path nwbfile_folder_path : path)
    (subjects_table : list (gmap string cell)) (stub_test overwrite : bool)
    (group : (cell * string) * list session_row) : M unit :=
  let subject_id := group.1.1 in
  let exp_dir := group.1.2 in
  let table := group.2 in
  subject_metadata <~
    lift (_get_subject_metadata_from_dataframe C subject_id subjects_table);
  let subject_id := str_remove_char "-"%char (str_of_cell subject_id) in
  let nwbfile_path :=
    session_nwbfile_path nwbfile_folder_path stub_test subject_id exp_dir in
  dual_args <~
    lift (session_dual_args folder_path subject_id exp_dir table
            subject_metadata nwbfile_path);
  nwbfile_exists <~ path_exists nwbfile_path;
  if nwbfile_exists && negb overwrite then
    emit Tqdm_update   (* continue *)
  else
    run emit (Tqdm_set_description
                ("Converting subject '" +:+ subject_id +:+ "' session '"
                   +:+ exp_dir +:+ "' session to NWB ..."));
    run dual_wavelength_session_to_nwb dual_args;
    run inspector_step nwbfile_folder_path subject_id exp_dir nwbfile_path;
    emit Tqdm_update.

Definition convert_all_dual_wavelength_sessions
    (data_table_path folder_path nwbfile_folder_path : path)
    (subject_ids : list string) (stub_test overwrite : bool) : M unit :=
  data_table_dict <~ lift (read_excel C data_table_path);
  let data_table := data_table_dict.1 in
  let filtered_data_table := filter_by_subject subject_ids data_table in
  match filtered_data_table with
  | [] =>
      raise (ValueError ("No sessions found for the provided subject IDs: "
                           +:+ repr_str_list subject_ids +:+ "."))
  | _ =>
      let subjects_table := astype_str data_table_dict.2 in
      let groups := groupby filtered_data_table in
      let total_file_paths := length groups in
      run emit (Tqdm_init ("Converting " +:+ pretty total_file_paths
                             +:+ " sessions to NWB ...") total_file_paths);
      for_each groups
        (session_group_body folder_path nwbfile_folder_path subjects_table
           stub_test overwrite)
  end.

End Scripts.

(* ===================================================================== *)
(** * interfaces/bouabid_vu_2026_segmentationinterface.py *)
(* ===================================================================== *)

(** [l[i] = x] inside a value that is an array, [d[k] = v] inside a value
    that is a dict: the in-place updates of nested metadata, written as the
    value after the update. *)
Definition pv_set_index (v : pyval) (i : nat) (x : pyval) : pyval :=
  match v with
  | PList l => PList (<[i := x]> l)
  | _ => v
  end.

Definition pv_set_key (v : pyval) (k : string) (x : pyval) : pyval :=
  match v with
  | PDict d => PDict (<[k := x]> d)
  | _ => v
  end.

(** The attributes an instance of [BouabidVu2026SegmentationInterface] is
    built from. *)
Record segmentation_interface := {
  seg_file_path : pyval;
  seg_data_field : pyval;
  seg_sampling_frequency : pyval;
  seg_accepted_list : pyval;
  seg_verbose : pyval;
}.

(** Lines 18-20: the parameters of [__init__] besides [self]. *)
Definition segmentation_init_parameters : list string :=
  ["file_path"; "data_field"; "sampling_frequency"; "accepted_list"; "verbose"]%string.

(** Lines 18-38: the constructor called with a dict of keyword arguments
    (the converter unpacks a stream's source configuration).  Python binds
    the keywords to the signature (a [TypeError] for a keyword that is no
    parameter, or for a missing parameter without default), then the body
    hands four of them to the base class and keeps [verbose]. *)
Definition BouabidVu2026SegmentationInterface_init
    (super_init : gmap string pyval → outcome unit)
    (kwargs : gmap string pyval) : outcome segmentation_interface :=
  if negb (bool_decide (dom kwargs ⊆ list_to_set segmentation_init_parameters))
  then Raise TypeError
  else
    match kwargs !! "file_path", kwargs !! "data_field",
          kwargs !! "sampling_frequency" with
    | Some file_path, Some data_field, Some sampling_frequency =>
        let accepted_list := default PNone (kwargs !! "accepted_list") in
        let verbose := default (PBool true) (kwargs !! "verbose") in
        _ <- super_init {[ "file_path" := file_path;
                           "data_field" := data_field;
                           "sampling_frequency" := sampling_frequency;
                           "accepted_list" := accepted_list ]};
        Return {| seg_file_path := file_path;
                  seg_data_field := data_field;
                  seg_sampling_frequency := sampling_frequency;
                  seg_accepted_list := accepted_list;
                  seg_verbose := verbose |}
    | _, _, _ => Raise TypeError
    end.

(** Lines 40-44: [get_metadata], given what [super().get_metadata()] gives,
    read as plain dicts with string keys and lists.  The three lookups of
    line 43 are modelled for metadata that has the entries; on a dict that
    creates missing keys on access, as the base class may return, or on a
    [Device] that is a dict keyed by [0], the line goes on where the model
    fails. *)
Definition BouabidVu2026SegmentationInterface_get_metadata
    (super_get_metadata : outcome (gmap string pyval))
    : outcome (gmap string pyval) :=
  metadata <- super_get_metadata;
  let device_name := "HamamatsuMicroscope"%string in
  ophys <- getitem metadata "Ophys";
  devices <- pv_getitem ophys "Device";
  device <- pv_index devices 0;
  device <- pv_update device [("name"%string, PStr device_name)];
  Return (<["Ophys" := pv_set_key ophys "Device" (pv_set_index devices 0 device)]>
            metadata).

(* ===================================================================== *)
(** * The error taxonomy of the specification *)
(* ===================================================================== *)

Inductive error_category :=
| ConfigurationError
| LookupError
| CollaboratorFailure.

(** Section 7 of the specification names classes of failures, not Python
    exceptions.  The one [ValueError] the scripts raise themselves is the
    "no sessions match" condition it calls ConfigurationError; [KeyError]
    and [IndexError] are Python's LookupError; what a collaborator raises
    is passed on. *)
Definition spec_error_category (e : exception) : error_category :=
  match e with
  | ValueError _ => ConfigurationError
  | KeyError _ | IndexError => LookupError
  | TypeError | AttributeError | CollaboratorError _ => CollaboratorFailure
  end.

(* ===================================================================== *)
(** * Observations on runs *)
(* ===================================================================== *)

(** Whether a computation returned, and what (with a default for failure). *)
Definition is_Return {A} (o : outcome A) : bool :=
  match o with
  | Return _ => true
  | Raise _ => false
  end.

Definition unwrap {A} (default : A) (o : outcome A) : A :=
  match o with
  | Return a => a
  | Raise _ => default
  end.

(** The calls made between two worlds of one run. *)
Definition new_calls (w w' : world) : list event :=
  drop (length (calls w)) (calls w').

(** A computation whose every run relates the world before to the world after. *)
Definition respects (R : world → world → Prop) {A} (m : M A) : Prop :=
  ∀ w, R w (m w).2.

(** The log is only extended, by calls that satisfy [P]. *)
Definition log_extends (P : event → Prop) (w w' : world) : Prop :=
  ∃ evs, calls w' = calls w ++ evs ∧ Forall P evs.

(** Files that exist and whose path is outside [Q] keep their content. *)
Definition keeps_existing (Q : path → Prop) (w w' : world) : Prop :=
  ∀ p, ¬ Q p → is_Some (files w !! p) → files w' !! p = files w !! p.

(** No file disappears. *)
Definition files_grow (w w' : world) : Prop :=
  ∀ p, is_Some (files w !! p) → is_Some (files w' !! p).

(** Nothing but the log changes, and the log gets only progress reports. *)
Definition only_progress (w w' : world) : Prop :=
  files w' = files w ∧
  log_extends (λ ev, is_write ev = false ∧ is_conversion ev = false) w w'.

(** The stream set one assembler call hands to the converter. *)
Definition assembled_stream_set (a : SingleArgs.t)
    (source_data conversion_options : gmap string (gmap string pyval))
    (metadata : gmap string pyval) : stream_set :=
  {| ss_source_data := source_data;
     ss_conversion_options := conversion_options;
     ss_metadata := metadata;
     ss_aligned_starting_time :=
       match SingleArgs.nwbfile a with
       | None => PNone
       | Some _ => SingleArgs.aligned_starting_time a
       end |}.

(** The handle after one assembler call: created, or extended. *)
Definition assembled_handle (a : SingleArgs.t) (s : stream_set) : NWBFile :=
  match SingleArgs.nwbfile a with
  | None => [s]
  | Some nwbfile => nwbfile ++ [s]
  end.

(** The world after an assembler call that fails before it reaches the
    converter: only the entry into the call is logged. *)
Definition entered (w : world) (ev : event) : world :=
  {| files := files w; calls := calls w ++ [ev] |}.

(** The normalised subject identifier, the output path, the report path
    and the assembler arguments of a session group. *)
Definition group_subject_id (group : (cell * string) * list session_row) : string :=
  str_remove_char "-"%char (str_of_cell group.1.1).

Definition group_nwbfile_path (nwbfile_folder_path : path) (stub_test : bool)
    (group : (cell * string) * list session_row) : path :=
  session_nwbfile_path nwbfile_folder_path stub_test (group_subject_id group) group.1.2.

Definition group_report_path (nwbfile_folder_path : path)
    (group : (cell * string) * list session_row) : path :=
  session_report_path nwbfile_folder_path (group_subject_id group) group.1.2.

Definition group_dual_args (C : Collaborators) (folder_path nwbfile_folder_path : path)
    (stub_test : bool) (group : (cell * string) * list session_row)
    (subject_metadata : gmap string pyval) : outcome DualArgs.t :=
  session_dual_args C folder_path (group_subject_id group) group.1.2 group.2
    subject_metadata (group_nwbfile_path nwbfile_folder_path stub_test group).

(** Files whose path is outside [Q] are as they were, existing or not. *)
Definition changes_only (Q : path → Prop) (w w' : world) : Prop :=
  ∀ p, ¬ Q p → files w' !! p = files w !! p.

(** The number of progress ticks in a log. *)
Definition is_tick (ev : event) : bool :=
  match ev with
  | Tqdm_update => true
  | _ => false
  end.

Definition ticks (evs : list event) : nat := length (List.filter is_tick evs).

(** The key of a session row in [groupby]. *)
Definition row_key (r : session_row) : cell * string :=
  (Mouse r, Experiment_Directory r).

(** The calls one run of the single-wavelength assembler can log. *)
Definition assembler_event (C : Collaborators) (a : SingleArgs.t) (ev : event) : Prop :=
  ev = Call_single_wavelength_session_to_nwb a ∨
  ∃ r md,
    single_source_data C a = Return r ∧
    single_metadata C a r.1 = Return md ∧
    let s := assembled_stream_set a r.1 r.2 md in
    ev = match SingleArgs.nwbfile a with
         | None => Call_create_nwbfile s
         | Some nwbfile => Call_add_to_nwbfile nwbfile s
         end ∨
    ∃ p, SingleArgs.nwbfile_path a = Some p ∧
         ev = Call_configure_and_write_nwbfile (assembled_handle a s) p.

(** The calls one run of the dual-wavelength assembler can log: its own
    entry, and those of its two assembler calls. *)
Definition dual_event (C : Collaborators) (a : DualArgs.t) (ev : event) : Prop :=
  ev = Call_dual_wavelength_session_to_nwb a ∨
  ∃ r a',
    dual_frame_alignment C a = Return r ∧
    (first_call_args a r.1.1 r.1.2 = Return a' ∨
     ∃ s1, second_call_args a r.2.1 r.2.2 (Some [s1]) = Return a') ∧
    assembler_event C a' ev.

(** Where a call writes, for the two calls that write. *)
Definition write_target (ev : event) : option path :=
  match ev with
  | Call_configure_and_write_nwbfile _ output_filepath => Some output_filepath
  | Call_save_report report_file_path _ => Some report_file_path
  | _ => None
  end.

(** One entry of one stream's configuration. *)
Definition stream_entry (config : gmap string (gmap string pyval))
    (stream key : string) : option pyval :=
  config !! stream ≫= (λ d : gmap string pyval, d !! key).

(** The calls the loop body can log for one session group. *)
Definition group_event (C : Collaborators) (folder_path nwbfile_folder_path : path)
    (subjects_table : list (gmap string cell)) (stub_test : bool)
    (group : (cell * string) * list session_row) (ev : event) : Prop :=
  ev = Tqdm_update ∨
  (∃ desc, ev = Tqdm_set_description desc) ∨
  ev = Call_inspect_nwbfile (group_nwbfile_path nwbfile_folder_path stub_test group) ∨
  (∃ formatted_messages,
     ev = Call_save_report (group_report_path nwbfile_folder_path group)
            formatted_messages) ∨
  ∃ subject_metadata dual_args,
    _get_subject_metadata_from_dataframe C group.1.1 subjects_table
      = Return subject_metadata ∧
    group_dual_args C folder_path nwbfile_folder_path stub_test group subject_metadata
      = Return dual_args ∧
    dual_event C dual_args ev.

(** The calls a batch run can log. *)
Definition batch_event (C : Collaborators)
    (data_table_path folder_path nwbfile_folder_path : path)
    (subject_ids : list string) (stub_test : bool) (ev : event) : Prop :=
  ∃ sessions mice,
    read_excel C data_table_path = Return (sessions, mice) ∧
    ((∃ desc total, ev = Tqdm_init desc total) ∨
     ∃ group,
       group ∈ groupby (filter_by_subject subject_ids sessions) ∧
       group_event C folder_path nwbfile_folder_path (astype_str mice) stub_test
         group ev).

(** A conversion call that runs on the full data: the assemblers are
    entered with [stub_test] off, and every stream of a stream set handed
    to the converter has [stub_test] off in its conversion options. *)
Definition runs_on_full_data (ev : event) : Prop :=
  match ev with
  | Call_dual_wavelength_session_to_nwb a => DualArgs.stub_test a = false
  | Call_single_wavelength_session_to_nwb a => SingleArgs.stub_test a = false
  | Call_create_nwbfile s | Call_add_to_nwbfile _ s =>
      ∀ name options,
        ss_conversion_options s !! name = Some options →
        options !! "stub_test" = Some (PBool false)
  | _ => True
  end.

(** The last character of a string. *)
Fixpoint string_last (s : string) : option ascii :=
  match s with
  | EmptyString => None
  | String c EmptyString => Some c
  | String _ s' => string_last s'
  end.

(** Paths the driver writes converted sessions to. *)
Definition is_nwbfile_path (nwbfile_folder_path : path) (p : path) : Prop :=
  ∃ stub_test subject_id exp_dir,
    p = session_nwbfile_path nwbfile_folder_path stub_test subject_id exp_dir.

(** A file that holds the two stream sets of a dual-wavelength session. *)
Definition holds_two_stream_sets (c : option file_content) : Prop :=
  ∃ s1 s2, c = Some (NwbContent [s1; s2]).

(** Converted sessions stay converted. *)
Definition keeps_converted (nwbfile_folder_path : path) (w w' : world) : Prop :=
  ∀ p, is_nwbfile_path nwbfile_folder_path p →
       holds_two_stream_sets (files w !! p) → holds_two_stream_sets (files w' !! p).

(** The [Imaging] frame window of a source configuration. *)
Definition imaging_frame_indices (source_data : gmap string (gmap string pyval))
    : option pyval :=
  source_data !! "Imaging" ≫= (λ d : gmap string pyval, d !! "frame_indices").

(** The same call with another [frame_indices] argument. *)
Definition with_frame_indices (a : SingleArgs.t) (fi : option (list Z))
    : SingleArgs.t :=
  {| SingleArgs.raw_imaging_file_path := SingleArgs.raw_imaging_file_path a;
     SingleArgs.processed_data_file_path := SingleArgs.processed_data_file_path a;
     SingleArgs.fiber_photometry_field := SingleArgs.fiber_photometry_field a;
     SingleArgs.index_field := SingleArgs.index_field a;
     SingleArgs.fiber_locations_file_path := SingleArgs.fiber_locations_file_path a;
     SingleArgs.excitation_wavelength_in_nm := SingleArgs.excitation_wavelength_in_nm a;
     SingleArgs.indicator := SingleArgs.indicator a;
     SingleArgs.ttl_file_path := SingleArgs.ttl_file_path a;
     SingleArgs.ttl_stream_name := SingleArgs.ttl_stream_name a;
     SingleArgs.behavior_field := SingleArgs.behavior_field a;
     SingleArgs.frame_indices := fi;
     SingleArgs.nwbfile_path := SingleArgs.nwbfile_path a;
     SingleArgs.nwbfile := SingleArgs.nwbfile a;
     SingleArgs.sampling_frequency := SingleArgs.sampling_frequency a;
     SingleArgs.subject_metadata := SingleArgs.subject_metadata a;
     SingleArgs.aligned_starting_time := SingleArgs.aligned_starting_time a;
     SingleArgs.excitation_mode := SingleArgs.excitation_mode a;
     SingleArgs.stub_test := SingleArgs.stub_test a |}.

(** The same call with another [index_field] argument. *)
Definition with_index_field (a : SingleArgs.t) (index_field : string)
    : SingleArgs.t :=
  {| SingleArgs.raw_imaging_file_path := SingleArgs.raw_imaging_file_path a;
     SingleArgs.processed_data_file_path := SingleArgs.processed_data_file_path a;
     SingleArgs.fiber_photometry_field := SingleArgs.fiber_photometry_field a;
     SingleArgs.index_field := index_field;
     SingleArgs.fiber_locations_file_path := SingleArgs.fiber_locations_file_path a;
     SingleArgs.excitation_wavelength_in_nm := SingleArgs.excitation_wavelength_in_nm a;
     SingleArgs.indicator := SingleArgs.indicator a;
     SingleArgs.ttl_file_path := SingleArgs.ttl_file_path a;
     SingleArgs.ttl_stream_name := SingleArgs.ttl_stream_name a;
     SingleArgs.behavior_field := SingleArgs.behavior_field a;
     SingleArgs.frame_indices := SingleArgs.frame_indices a;
     SingleArgs.nwbfile_path := SingleArgs.nwbfile_path a;
     SingleArgs.nwbfile := SingleArgs.nwbfile a;
     SingleArgs.sampling_frequency := SingleArgs.sampling_frequency a;
     SingleArgs.subject_metadata := SingleArgs.subject_metadata a;
     SingleArgs.aligned_starting_time := SingleArgs.aligned_starting_time a;
     SingleArgs.excitation_mode := SingleArgs.excitation_mode a;
     SingleArgs.stub_test := SingleArgs.stub_test a |}.

(* ===================================================================== *)
(** * A session to run the scripts on *)
(* ===================================================================== *)

Global Instance cell_eq_dec : EqDecision cell.
Proof. solve_decision. Defined.

(** The session of the scripts' [__main__] blocks: subject UG27, experiment
    directory 240214, with stand-ins for the collaborators. *)
Module Fixture.

Definition UG27_240214 : session_row := {|
  Mouse := CStr "UG27";
  Experiment_Directory := "240214";
  Raw_Imaging_File_green := "data11.cxd";
  Raw_Imaging_File_red := "data89.cxd";
  Processed_Data_File := "UG27_240214.mat";
  Processed_Photometry_Field_green := "ACh";
  Processed_Photometry_Field_red := "DA";
  Processed_Behavior_Field_green := "behav_ACh";
  Processed_Behavior_Field_red := "behav_DA";
  Processed_Index_Field_green := "ACh_idx";
  Processed_Index_Field_red := "DA_idx";
  LED_Excitation_Wavelength_green := 470;
  LED_Excitation_Wavelength_red := 570;
  Relevant_Injected_Sensor_green := "ACh3.0";
  Relevant_Injected_Sensor_red := "rDA3m";
  Raw_Behavior_File := "UG27_bb1_570_470_norew_2024.02.14_09.34.53.mat";
|}.

Definition mice : list (gmap string cell) :=
  [ {[ "Mouse" := CStr "UG27"; "Sex" := CStr "M" ]} ].

(** Modelled from the spec: [_get_subject_metadata_from_dataframe] lives in
    [utils/_data_utils.py], which is not among the sources.  Section 4.2:
    given a subject identifier and the subject table, it returns a mapping
    of subject attributes for that identifier, date-valued fields left
    naive, and fails with a LookupError if the identifier is absent from
    the table. *)
Definition get_subject_metadata (subject_id : cell)
    (data_table : list (gmap string cell)) : outcome (gmap string pyval) :=
  match List.find (λ row : gmap string cell,
                     bool_decide (row !! "Mouse" = Some (CStr (str_of_cell subject_id))))
                  data_table with
  | Some row =>
      Return {[ "Subject" :=
                  PDict {[ "subject_id" := PStr (str_of_cell subject_id);
                           "date_of_birth" := PDatetime 1700000000 None ]} ]}
  | None => Raise (KeyError (PStr (str_of_cell subject_id)))
  end.

(** The processed-data struct, with the two index fields given. *)
Definition processed_data (green_idx red_idx : pyval) : gmap string pyval :=
  {[ "ACh_idx" := green_idx;
     "DA_idx" := red_idx;
     "behav_ACh" := PDict {[ "timestamp" := PList [PFloat 3 (-1); PFloat 5 (-1)] ]};
     "behav_DA" := PDict {[ "timestamp" := PList [PFloat 7 (-2); PFloat 9 (-2)] ]} ]}.

Definition fiber_table : list (gmap string pyval) :=
  [ {[ "location" := PStr "DMS"; "included" := PBool true ]};
    {[ "location" := PStr "DLS"; "included" := PBool false ]};
    {[ "location" := PStr "NAc"; "included" := PBool true ]} ].

Definition collaborators (sessions : list session_row)
    (mice_sheet : list (gmap string cell)) (green_idx red_idx : pyval)
    : Collaborators := {|
  read_excel := λ _, Return (sessions, mice_sheet);
  _get_subject_metadata_from_dataframe := get_subject_metadata;
  _get_indicator_from_aav_string := λ s, Return s;
  read_mat := λ _ _, Return (processed_data green_idx red_idx);
  get_fiber_locations := λ _, Return fiber_table;
  update_fiber_photometry_metadata := λ m _ _ _, Return m;
  update_ophys_metadata := λ m _ _ _ _, Return m;
  converter_init := λ _, Return ();
  converter_get_metadata := λ _,
    Return {[ "NWBFile" :=
                PDict {[ "session_start_time" := PDatetime 1707903293 None ]} ]};
  converter_create_nwbfile := λ _, Return ();
  converter_add_to_nwbfile := λ _ _, Return ();
  load_dict_from_file := λ _, Return ∅;
  dict_deep_update := λ m1 m2, m2 ∪ m1;
  configure_and_write_nwbfile := λ _ _, Return ();
  inspect_nwbfile := λ _ _, Return [];
  format_messages := λ results _, results;
  save_report := λ _ _, Return ();
  module_dir := ["howe_lab_to_nwb"; "bouabid_vu_2026"]%string;
|}.

Definition standard : Collaborators :=
  collaborators [UG27_240214] mice (PList [PInt 1; PInt 5]) (PList [PInt 2; PInt 6]).

Definition single_args : SingleArgs.t := {|
  SingleArgs.raw_imaging_file_path := ["D:"; "UG27"; "240214"; "raw"; "data11.cxd"]%string;
  SingleArgs.processed_data_file_path := ["D:"; "UG27"; "240214"; "UG27_240214.mat"]%string;
  SingleArgs.fiber_photometry_field := "ACh";
  SingleArgs.index_field := "ACh_idx";
  SingleArgs.fiber_locations_file_path := ["D:"; "UG27"; "fiber_table.xlsx"]%string;
  SingleArgs.excitation_wavelength_in_nm := 470;
  SingleArgs.indicator := "ACh3.0";
  SingleArgs.ttl_file_path :=
    ["D:"; "UG27"; "240214"; "raw"; "UG27_bb1_570_470_norew_2024.02.14_09.34.53.mat"]%string;
  SingleArgs.ttl_stream_name := "ttlIn1";
  SingleArgs.behavior_field := Some "behav_ACh"%string;
  SingleArgs.frame_indices := None;
  SingleArgs.nwbfile_path := Some ["D:"; "NWB"; "UG27_240214.nwb"]%string;
  SingleArgs.nwbfile := None;
  SingleArgs.sampling_frequency := PInt 18;
  SingleArgs.subject_metadata := None;
  SingleArgs.aligned_starting_time := PNone;
  SingleArgs.excitation_mode := "single-wavelength";
  SingleArgs.stub_test := false;
|}.

Definition dual_args : DualArgs.t := {|
  DualArgs.raw_imaging_file_paths :=
    [ ["D:"; "UG27"; "240214"; "raw"; "data11.cxd"];
      ["D:"; "UG27"; "240214"; "raw"; "data89.cxd"] ]%string;
  DualArgs.processed_data_file_path := ["D:"; "UG27"; "240214"; "UG27_240214.mat"]%string;
  DualArgs.fiber_photometry_fields := ["ACh"; "DA"]%string;
  DualArgs.behavior_fields := ["behav_ACh"; "behav_DA"]%string;
  DualArgs.index_fields := ["ACh_idx"; "DA_idx"]%string;
  DualArgs.fiber_locations_file_path := ["D:"; "UG27"; "fiber_table.xlsx"]%string;
  DualArgs.excitation_wavelengths_in_nm := [470; 570];
  DualArgs.indicators := ["ACh3.0"; "rDA3m"]%string;
  DualArgs.ttl_file_path :=
    ["D:"; "UG27"; "240214"; "raw"; "UG27_bb1_570_470_norew_2024.02.14_09.34.53.mat"]%string;
  DualArgs.ttl_stream_names := ["ttlIn1"; "ttlIn2"]%string;
  DualArgs.nwbfile_path := ["D:"; "NWB"; "UG27_240214.nwb"]%string;
  DualArgs.sampling_frequency := PInt 18;
  DualArgs.subject_metadata := None;
  DualArgs.stub_test := false;
|}.

Definition data_table_path : path := ["D:"; "data_table.xlsx"]%string.
Definition folder_path : path := ["D:"]%string.
Definition nwbfile_folder_path : path := ["D:"; "NWB"]%string.

Definition fresh : world := {| files := ∅; calls := [] |}.

(** A disk on which the session's output and report already exist. *)
Definition converted : world := {|
  files := {[ ["D:"; "NWB"; "UG27_240214.nwb"]%string := OtherContent "nwb";
              ["D:"; "NWB"; "UG27-240214_nwbinspector_result.txt"]%string :=
                ReportContent ["earlier report"%string] ]};
  calls := [] |}.

End Fixture.

(* ===================================================================== *)
(** * Proof rules for runs *)
(* ===================================================================== *)

Section Respects.

Context (R : world → world → Prop) `{!PreOrder R}.

Lemma respects_ret {A} (a : A) : respects R (ret a).
Proof. intros w. reflexivity. Qed.

Lemma respects_raise {A} (e : exception) : respects R (raise (A:=A) e).
Proof. intros w. reflexivity. Qed.

Lemma respects_lift {A} (o : outcome A) : respects R (lift o).
Proof. intros w. reflexivity. Qed.

Lemma respects_path_exists (p : path) : respects R (path_exists p).
Proof. intros w. reflexivity. Qed.

Lemma respects_read_file (p : path) : respects R (read_file p).
Proof. intros w. reflexivity. Qed.

Lemma respects_bind {A B} (m : M A) (k : A → M B) :
  respects R m → (∀ a, respects R (k a)) → respects R (bind m k).
Proof.
  intros Hm Hk w. unfold bind.
  specialize (Hm w). destruct (m w) as [[a|e] w1]; simpl in *.
  - etrans; [exact Hm | apply Hk].
  - exact Hm.
Qed.

(** After a read, the continuation runs on what the read returned. *)
Lemma respects_bind_lift {A B} (o : outcome A) (k : A → M B) :
  (∀ a, o = Return a → respects R (k a)) → respects R (bind (lift o) k).
Proof.
  intros Hk w. unfold bind, lift. destruct o as [a|e]; simpl.
  - by apply Hk.
  - reflexivity.
Qed.

Lemma respects_for_each {A} (xs : list A) (body : A → M unit) :
  (∀ x, respects R (body x)) → respects R (for_each xs body).
Proof.
  intros Hbody. induction xs as [|x xs IH]; simpl.
  - apply respects_ret.
  - apply respects_bind; [apply Hbody | intros _; exact IH].
Qed.

End Respects.

Global Instance log_extends_preorder (P : event → Prop) : PreOrder (log_extends P).
Proof.
  split.
  - intros w. exists []. split; [by rewrite app_nil_r | constructor].
  - intros w1 w2 w3 (evs1 & E1 & F1) (evs2 & E2 & F2).
    exists (evs1 ++ evs2). split.
    + by rewrite E2, E1, app_assoc.
    + by apply Forall_app.
Qed.

Global Instance keeps_existing_preorder (Q : path → Prop) : PreOrder (keeps_existing Q).
Proof.
  split.
  - intros w p _ _. reflexivity.
  - intros w1 w2 w3 H12 H23 p Hq Hp.
    rewrite H23; [by apply H12 | done | by rewrite H12].
Qed.

Global Instance files_grow_preorder : PreOrder files_grow.
Proof.
  split.
  - intros w p Hp. exact Hp.
  - intros w1 w2 w3 H12 H23 p Hp. by apply H23, H12.
Qed.

Global Instance only_progress_preorder : PreOrder only_progress.
Proof.
  split.
  - intros w. split; [done | reflexivity].
  - intros w1 w2 w3 [F12 L12] [F23 L23]. split; [congruence | by etrans].
Qed.

Lemma emit_log_extends (P : event → Prop) (ev : event) :
  P ev → respects (log_extends P) (emit ev).
Proof. intros Hev w. exists [ev]. split; [done | by constructor]. Qed.

Lemma write_file_log_extends (P : event → Prop) (p : path) (c : file_content) :
  respects (log_extends P) (write_file p c).
Proof. intros w. exists []. split; [by rewrite app_nil_r | constructor]. Qed.

Lemma emit_keeps_existing (Q : path → Prop) (ev : event) :
  respects (keeps_existing Q) (emit ev).
Proof. intros w p _ _. reflexivity. Qed.

Lemma write_file_keeps_existing (Q : path → Prop) (p : path) (c : file_content) :
  Q p → respects (keeps_existing Q) (write_file p c).
Proof.
  intros Hq w p' Hq' _. simpl.
  apply lookup_insert_ne. intros ->. by apply Hq'.
Qed.

Lemma emit_files_grow (ev : event) : respects files_grow (emit ev).
Proof. intros w p Hp. exact Hp. Qed.

Lemma write_file_files_grow (p : path) (c : file_content) :
  respects files_grow (write_file p c).
Proof.
  intros w p' Hp'. simpl. destruct (decide (p = p')) as [->|Hne].
  - rewrite lookup_insert_eq. eauto.
  - by rewrite lookup_insert_ne.
Qed.

Lemma emit_only_progress (ev : event) :
  is_write ev = false → is_conversion ev = false → respects only_progress (emit ev).
Proof.
  intros Hw Hc w. split; [done|]. by apply emit_log_extends.
Qed.

(** Walk through a script: binds, branches, and the steps that cannot
    break any of the relations above. *)
Ltac respects_walk :=
  repeat match goal with
    | |- respects _ (ret _) => apply respects_ret; apply _
    | |- respects _ (raise _) => apply respects_raise; apply _
    | |- respects _ (lift _) => apply respects_lift; apply _
    | |- respects _ (path_exists _) => apply respects_path_exists; apply _
    | |- respects _ (read_file _) => apply respects_read_file; apply _
    | |- respects (keeps_existing _) (emit _) => apply emit_keeps_existing
    | |- respects files_grow (emit _) => apply emit_files_grow
    | |- respects files_grow (write_file _ _) => apply write_file_files_grow
    | |- respects (log_extends _) (write_file _ _) => apply write_file_log_extends
    | |- respects _ (bind _ _) => apply respects_bind; [apply _ | | intros ?]
    | |- respects _ (match ?x with _ => _ end) => destruct x
    end.

Lemma new_calls_log_extends (P : event → Prop) (w w' : world) :
  log_extends P w w' → calls w' = calls w ++ new_calls w w' ∧ Forall P (new_calls w w').
Proof.
  intros (evs & E & F). unfold new_calls. rewrite E, drop_app_length. done.
Qed.

(* ===================================================================== *)
(** * Reading outcomes backwards *)
(* ===================================================================== *)

Lemma obind_Return {A B} (o : outcome A) (k : A → outcome B) (b : B) :
  obind o k = Return b → ∃ a, o = Return a ∧ k a = Return b.
Proof. destruct o as [a|e]; simpl; [eauto | discriminate]. Qed.

Lemma unwrap_Return {A} (default : A) (o : outcome A) :
  is_Return o = true → o = Return (unwrap default o).
Proof. by destruct o. Qed.

Lemma list_index_Return {A} (l : list A) (i : nat) (x : A) :
  list_index l i = Return x → l !! i = Some x.
Proof. unfold list_index. destruct (l !! i); congruence. Qed.

Lemma getitem_Return {V} (d : gmap string V) (k : string) (v : V) :
  getitem d k = Return v → d !! k = Some v.
Proof. unfold getitem. destruct (d !! k); congruence. Qed.

Lemma getitem_Some {V} (d : gmap string V) (k : string) (v : V) :
  d !! k = Some v → getitem d k = Return v.
Proof. unfold getitem. by intros ->. Qed.

(** Peel the binds of a successful read-only computation. *)
Ltac invert_obind H :=
  repeat
    (let a := fresh "x" in
     let Ha := fresh "Hx" in
     apply obind_Return in H as (a & Ha & H)).

Lemma bind_Return {A B} (m : M A) (k : A → M B) (w w' : world) (b : B) :
  bind m k w = (Return b, w') →
  ∃ a w1, m w = (Return a, w1) ∧ k a w1 = (Return b, w').
Proof.
  unfold bind. destruct (m w) as [[a|e] w1]; [eauto | discriminate].
Qed.

Lemma lift_Return {A} (o : outcome A) (w w' : world) (a : A) :
  lift o w = (Return a, w') → o = Return a ∧ w' = w.
Proof. unfold lift. intros [= -> ->]. done. Qed.

Lemma for_each_app {A} (xs ys : list A) (body : A → M unit) (w : world) :
  for_each (xs ++ ys) body w =
    match for_each xs body w with
    | (Return _, w1) => for_each ys body w1
    | (Raise e, w1) => (Raise e, w1)
    end.
Proof.
  revert w. induction xs as [|x xs IH]; intros w; simpl; [done|].
  unfold bind. destruct (body x w) as [[[]|e] w1]; [apply IH | done].
Qed.

(* ===================================================================== *)
(** * The frame window *)
(* ===================================================================== *)

(** [np.arange(s - 1, e)] on integers, without a condition on the pair: a
    reversed pair gives the empty list on both sides. *)
Lemma np_arange_seqZ (s e : Z) :
  np_arange (s - 1) e = seqZ (s - 1) (e - s + 1) ∧
  (∀ x, x ∈ np_arange (s - 1) e ↔ s - 1 ≤ x < e).
Proof.
  unfold np_arange.
  replace (e - (s - 1)) with (e - s + 1) by lia.
  split; [done|]. intros x. rewrite elem_of_seqZ. lia.
Qed.

Section SingleWavelength.

Variable C : Collaborators.

(** What [single_source_data] puts under [Imaging], read off a successful
    run: the window comes from the index field of the struct. *)
Lemma single_source_data_imaging (a : SingleArgs.t)
    (sd co : gmap string (gmap string pyval)) :
  single_source_data C a = Return (sd, co) →
  ∃ mat index_pair v0 v1 start stop,
    read_mat C (SingleArgs.processed_data_file_path a)
      (Some (SingleArgs.index_field a)) = Return mat ∧
    mat !! SingleArgs.index_field a = Some index_pair ∧
    pv_index index_pair 0 = Return v0 ∧ pv_int v0 = Return start ∧
    pv_index index_pair 1 = Return v1 ∧ pv_int v1 = Return stop ∧
    imaging_frame_indices sd =
      Some (PList (PInt <$> np_arange (start - 1) stop)).
Proof.
  unfold single_source_data. intros H.
  apply obind_Return in H as (mat & Hmat & H).
  apply obind_Return in H as (index_pair & Hpair & H).
  apply obind_Return in H as (start & Hstart & H).
  apply obind_Return in H as (stop & Hstop & H).
  apply obind_Return in Hstart as (v0 & Hv0 & Hstart).
  apply obind_Return in Hstop as (v1 & Hv1 & Hstop).
  apply obind_Return in H as (fibers & Hfibers & H).
  apply obind_Return in H as (accepted & Haccepted & H).
  exists mat, index_pair, v0, v1, start, stop.
  repeat (split; [by auto using getitem_Return|]).
  unfold imaging_frame_indices.
  destruct (SingleArgs.behavior_field a); injection H as <- _;
    rewrite ?(lookup_insert_ne _ "Behavior"), (lookup_insert_ne _ "Segmentation"),
      (lookup_insert_ne _ "FiberPhotometry"), lookup_insert_eq by done; simpl;
    destruct (SingleArgs.sampling_frequency a);
    rewrite ?(lookup_insert_ne _ "sampling_frequency") by done;
    by rewrite lookup_insert_ne, lookup_singleton_eq.
Qed.

(** The [frame_indices] argument is rebound before it is read. *)
Lemma single_source_data_with_frame_indices (a : SingleArgs.t) (fi : option (list Z)) :
  single_source_data C (with_frame_indices a fi) = single_source_data C a.
Proof. reflexivity. Qed.

(** What [single_source_data] puts under [Behavior]. *)
Lemma single_source_data_behavior (a : SingleArgs.t)
    (sd co : gmap string (gmap string pyval)) :
  single_source_data C a = Return (sd, co) →
  sd !! "Behavior" =
    (λ behavior_field : string,
       {[ "file_path" := PStr (path_str (SingleArgs.processed_data_file_path a));
          "data_field" := PStr behavior_field ]})
      <$> SingleArgs.behavior_field a ∧
  co !! "Behavior" =
    (λ _ : string, {[ "stub_test" := PBool (SingleArgs.stub_test a) ]})
      <$> SingleArgs.behavior_field a.
Proof.
  unfold single_source_data. intros H.
  do 6 (apply obind_Return in H as (? & _ & H)).
  destruct (SingleArgs.behavior_field a); injection H as <- <-; simpl.
  - by rewrite !lookup_insert_eq.
  - by rewrite !lookup_insert_ne, lookup_empty.
Qed.

Lemma wavelength_table_None (wl : Z) :
  ¬ (wl = 470 ∨ wl = 405 ∨ wl = 415 ∨ wl = 570) →
  excitation_wavelength_to_photon_series_name !! wl = None.
Proof.
  intros Hwl. unfold excitation_wavelength_to_photon_series_name.
  rewrite !lookup_insert_ne by lia. apply lookup_singleton_ne. lia.
Qed.

Lemma single_wavelength_metadata_unknown (a : SingleArgs.t)
    (metadata fiber_photometry_metadata : gmap string pyval) :
  excitation_wavelength_to_photon_series_name
    !! SingleArgs.excitation_wavelength_in_nm a = None →
  single_wavelength_metadata C a metadata fiber_photometry_metadata =
    Raise (KeyError (PInt (SingleArgs.excitation_wavelength_in_nm a))).
Proof. unfold single_wavelength_metadata. by intros ->. Qed.

(** A failure while the configuration or the metadata is assembled leaves
    nothing but the entry into the call in the log. *)
Lemma single_fails_early (a : SingleArgs.t) (w : world) (e : exception) :
  single_source_data C a = Raise e ∨
  (∃ sd co, single_source_data C a = Return (sd, co) ∧
            single_metadata C a sd = Raise e) →
  single_wavelength_session_to_nwb C a w =
    (Raise e, entered w (Call_single_wavelength_session_to_nwb a)).
Proof.
  unfold single_wavelength_session_to_nwb, bind, lift, emit, entered. simpl.
  intros [-> | (sd & co & -> & Hmd)]; [done|]. simpl. by rewrite Hmd.
Qed.

(** A successful call, read backwards. *)
Lemma single_Return (a : SingleArgs.t) (w w' : world) (r : option NWBFile) :
  single_wavelength_session_to_nwb C a w = (Return r, w') →
  ∃ sd co md,
    single_source_data C a = Return (sd, co) ∧
    single_metadata C a sd = Return md ∧
    let s := assembled_stream_set a sd co md in
    let nwbfile := assembled_handle a s in
    match SingleArgs.nwbfile_path a with
    | None =>
        r = Some nwbfile ∧ files w' = files w ∧
        calls w' = calls w ++ [Call_single_wavelength_session_to_nwb a;
                               match SingleArgs.nwbfile a with
                               | None => Call_create_nwbfile s
                               | Some nwbfile0 => Call_add_to_nwbfile nwbfile0 s
                               end]
    | Some p =>
        r = None ∧ files w' = <[p := NwbContent nwbfile]> (files w) ∧
        calls w' = calls w ++ [Call_single_wavelength_session_to_nwb a;
                               match SingleArgs.nwbfile a with
                               | None => Call_create_nwbfile s
                               | Some nwbfile0 => Call_add_to_nwbfile nwbfile0 s
                               end;
                               Call_configure_and_write_nwbfile nwbfile p]
    end.
Proof.
  unfold single_wavelength_session_to_nwb. intros H.
  apply bind_Return in H as ([] & w1 & Hw1 & H).
  injection Hw1 as <-.
  apply bind_Return in H as ([sd co] & w2 & Hsd & H).
  apply lift_Return in Hsd as [Hsd ->].
  apply bind_Return in H as (md & w3 & Hmd & H).
  apply lift_Return in Hmd as [Hmd ->].
  apply bind_Return in H as (nwbfile & w4 & Hnwb & H).
  exists sd, co, md. split; [done|]. split; [done|]. simpl in *.
  assert (nwbfile = assembled_handle a (assembled_stream_set a sd co md)
          ∧ files w4 = files w
          ∧ calls w4 = calls w ++
              [Call_single_wavelength_session_to_nwb a;
               match SingleArgs.nwbfile a with
               | None => Call_create_nwbfile (assembled_stream_set a sd co md)
               | Some nwbfile0 =>
                   Call_add_to_nwbfile nwbfile0 (assembled_stream_set a sd co md)
               end]) as (-> & Hfiles & Hcalls).
  { unfold assembled_handle, assembled_stream_set.
    destruct (SingleArgs.nwbfile a) as [nwbfile0|].
    - apply bind_Return in Hnwb as ([] & w5 & Hw5 & Hnwb).
      injection Hw5 as <-.
      apply bind_Return in Hnwb as ([] & w6 & Hw6 & Hnwb).
      apply lift_Return in Hw6 as [_ ->].
      injection Hnwb as <- <-. simpl. by rewrite <- app_assoc.
    - apply bind_Return in Hnwb as ([] & w5 & Hw5 & Hnwb).
      injection Hw5 as <-.
      apply bind_Return in Hnwb as ([] & w6 & Hw6 & Hnwb).
      apply lift_Return in Hw6 as [_ ->].
      injection Hnwb as <- <-. simpl. by rewrite <- app_assoc. }
  destruct (SingleArgs.nwbfile_path a) as [p|].
  - apply bind_Return in H as ([] & w5 & Hw5 & H).
    injection Hw5 as <-.
    apply bind_Return in H as ([] & w6 & Hw6 & H).
    apply lift_Return in Hw6 as [_ ->].
    apply bind_Return in H as ([] & w7 & Hw7 & H).
    injection Hw7 as <-. injection H as <- <-. simpl.
    rewrite Hfiles, Hcalls, <- app_assoc. done.
  - injection H as <- <-. done.
Qed.

Lemma single_log_extends (P : event → Prop) (a : SingleArgs.t) :
  (∀ ev, is_assembler_call ev = true → P ev) →
  respects (log_extends P) (single_wavelength_session_to_nwb C a).
Proof.
  intros HP. unfold single_wavelength_session_to_nwb.
  apply respects_bind; [apply _ | by apply emit_log_extends, HP | intros _].
  apply respects_bind; [apply _ | apply respects_lift, _ | intros [sd co]].
  apply respects_bind; [apply _ | apply respects_lift, _ | intros md].
  apply respects_bind; [apply _ | | intros nwbfile].
  - destruct (SingleArgs.nwbfile a).
    + apply respects_bind; [apply _ | by apply emit_log_extends, HP | intros _].
      apply respects_bind; [apply _ | apply respects_lift, _ | intros _].
      apply respects_ret, _.
    + apply respects_bind; [apply _ | by apply emit_log_extends, HP | intros _].
      apply respects_bind; [apply _ | apply respects_lift, _ | intros _].
      apply respects_ret, _.
  - destruct (SingleArgs.nwbfile_path a).
    + apply respects_bind; [apply _ | by apply emit_log_extends, HP | intros _].
      apply respects_bind; [apply _ | apply respects_lift, _ | intros _].
      apply respects_bind; [apply _ | apply write_file_log_extends | intros _].
      apply respects_ret, _.
    + apply respects_ret, _.
Qed.

Lemma single_keeps_existing (Q : path → Prop) (a : SingleArgs.t) :
  (∀ p, SingleArgs.nwbfile_path a = Some p → Q p) →
  respects (keeps_existing Q) (single_wavelength_session_to_nwb C a).
Proof.
  intros HQ. unfold single_wavelength_session_to_nwb.
  destruct (SingleArgs.nwbfile_path a) as [p|]; respects_walk.
  apply write_file_keeps_existing. by apply HQ.
Qed.

Lemma single_files_grow (a : SingleArgs.t) :
  respects files_grow (single_wavelength_session_to_nwb C a).
Proof. unfold single_wavelength_session_to_nwb. respects_walk. Qed.

End SingleWavelength.

Section DualWavelength.

Variable C : Collaborators.

(** One of the two window computations of [dual_frame_alignment], read
    backwards. *)
Lemma index_bound_Return (l : list string) (mat : gmap string pyval)
    (k i : nat) (z : Z) :
  obind (list_index l k)
    (λ f, obind (getitem mat f)
            (λ index_pair, obind (pv_index index_pair i) (λ x, pv_int x))) =
    Return z →
  ∃ f index_pair v,
    l !! k = Some f ∧ mat !! f = Some index_pair ∧
    pv_index index_pair i = Return v ∧ pv_int v = Return z.
Proof.
  intros H.
  apply obind_Return in H as (f & Hf & H).
  apply obind_Return in H as (index_pair & Hpair & H).
  apply obind_Return in H as (v & Hv & H).
  exists f, index_pair, v.
  auto using list_index_Return, getitem_Return.
Qed.

Lemma dual_frame_alignment_Return (a : DualArgs.t)
    (r : (list Z * pyval) * (list Z * pyval)) :
  dual_frame_alignment C a = Return r →
  ∃ mat start1 stop1 start2 stop2,
    read_mat C (DualArgs.processed_data_file_path a) None = Return mat ∧
    r.1.1 = np_arange (start1 - 1) stop1 ∧
    r.2.1 = np_arange (start2 - 1) stop2 ∧
    (∀ f s e, DualArgs.index_fields a !! 0%nat = Some f →
              mat !! f = Some (PList [PInt s; PInt e]) →
              start1 = s ∧ stop1 = e) ∧
    (∀ f s e, DualArgs.index_fields a !! 1%nat = Some f →
              mat !! f = Some (PList [PInt s; PInt e]) →
              start2 = s ∧ stop2 = e).
Proof.
  unfold dual_frame_alignment. intros H.
  apply obind_Return in H as (mat & Hmat & H).
  apply obind_Return in H as (behavior1 & _ & H).
  apply obind_Return in H as (start1 & Hstart1 & H).
  apply obind_Return in H as (stop1 & Hstop1 & H).
  apply obind_Return in H as (time1 & _ & H).
  apply obind_Return in H as (behavior2 & _ & H).
  apply obind_Return in H as (start2 & Hstart2 & H).
  apply obind_Return in H as (stop2 & Hstop2 & H).
  apply obind_Return in H as (time2 & _ & H).
  injection H as <-. simpl.
  apply index_bound_Return in Hstart1 as (f1 & p1 & v1 & Hf1 & Hp1 & Hv1 & Hs1).
  apply index_bound_Return in Hstop1 as (f1' & p1' & v1' & Hf1' & Hp1' & Hv1' & He1).
  apply index_bound_Return in Hstart2 as (f2 & p2 & v2 & Hf2 & Hp2 & Hv2 & Hs2).
  apply index_bound_Return in Hstop2 as (f2' & p2' & v2' & Hf2' & Hp2' & Hv2' & He2).
  exists mat, start1, stop1, start2, stop2.
  do 3 (split; [done|]). split.
  - intros f s e Hf Hpair. simplify_eq. simpl in *.
    injection Hv1 as <-. injection Hv1' as <-. simpl in *.
    injection Hs1 as <-. injection He1 as <-. done.
  - intros f s e Hf Hpair. simplify_eq. simpl in *.
    injection Hv2 as <-. injection Hv2' as <-. simpl in *.
    injection Hs2 as <-. injection He2 as <-. done.
Qed.

(** C1: for a valid index-field pair [[s, e]], integers with [1 <= s] and
    [e] below [2^53] (so that a float64 holds them exactly), the frame
    window derived from it is the zero-based half-open range from [s - 1]
    up to but excluding [e]: the integers [x] with [s - 1 <= x < e], in
    increasing order; this holds at every place an index field is read:
    for the [Imaging] window the single-wavelength assembler configures,
    and for both windows the dual-wavelength assembler derives.  The
    length of the window is [e - s + 1] when the pair describes a range,
    [s - 1 <= e]; for a reversed pair, [e < s - 1], the window is empty. *)
Theorem frame_window_zero_based_half_open (s e : Z) :
  1 ≤ s → e < 2 ^ 53 →
  (∀ a mat r,
     read_mat C (SingleArgs.processed_data_file_path a)
       (Some (SingleArgs.index_field a)) = Return mat →
     mat !! SingleArgs.index_field a = Some (PList [PInt s; PInt e]) →
     single_source_data C a = Return r →
     imaging_frame_indices r.1 = Some (PList (PInt <$> seqZ (s - 1) (e - s + 1)))) ∧
  (∀ a mat r f,
     read_mat C (DualArgs.processed_data_file_path a) None = Return mat →
     mat !! f = Some (PList [PInt s; PInt e]) →
     dual_frame_alignment C a = Return r →
     (DualArgs.index_fields a !! 0%nat = Some f → r.1.1 = seqZ (s - 1) (e - s + 1)) ∧
     (DualArgs.index_fields a !! 1%nat = Some f → r.2.1 = seqZ (s - 1) (e - s + 1))) ∧
  (∀ x, x ∈ seqZ (s - 1) (e - s + 1) ↔ 0 ≤ s - 1 ≤ x ∧ x < e) ∧
  (s - 1 ≤ e → Z.of_nat (length (seqZ (s - 1) (e - s + 1))) = e - s + 1) ∧
  (e < s - 1 → seqZ (s - 1) (e - s + 1) = []).
Proof.
  intros Hs _.
  destruct (np_arange_seqZ s e) as (Hseq & Hmem).
  split; [|split; [|split; [|split]]].
  - intros a mat [sd co] Hmat Hpair Hsd.
    apply single_source_data_imaging in Hsd
      as (mat' & pair & v0 & v1 & start & stop & Hmat' & Hpair' & Hv0 & Hstart
            & Hv1 & Hstop & Himaging).
    simpl. rewrite Himaging. clear Himaging.
    rewrite Hmat in Hmat'. injection Hmat' as <-.
    rewrite Hpair in Hpair'. injection Hpair' as <-. simpl in *.
    injection Hv0 as <-. injection Hv1 as <-. simpl in *.
    injection Hstart as <-. injection Hstop as <-. by rewrite Hseq.
  - intros a mat r f Hmat Hpair Hr.
    apply dual_frame_alignment_Return in Hr
      as (mat' & s1 & e1 & s2 & e2 & Hmat' & -> & -> & H1 & H2).
    rewrite Hmat in Hmat'. injection Hmat' as <-. split; intros Hf.
    + destruct (H1 _ _ _ Hf Hpair) as [-> ->]. exact Hseq.
    + destruct (H2 _ _ _ Hf Hpair) as [-> ->]. exact Hseq.
  - intros x. rewrite <- Hseq, Hmem. lia.
  - intros Hse. rewrite length_seqZ. lia.
  - intros Hse. apply length_zero_iff_nil.
    apply Nat2Z.inj. rewrite length_seqZ. lia.
Qed.

End DualWavelength.

(** C1 on the fixture session: the green index field holds [[1, 5]], and
    both assemblers derive the window [[0, 1, 2, 3, 4]], of length 5. *)
Lemma frame_window_zero_based_half_open_witness :
  1 ≤ 1 ∧ 5 < 2 ^ 53 ∧ 1 - 1 ≤ 5 ∧
  imaging_frame_indices
    (unwrap (∅, ∅) (single_source_data Fixture.standard Fixture.single_args)).1 =
    Some (PList (PInt <$> seqZ (1 - 1) (5 - 1 + 1))) ∧
  (unwrap (([], PNone), ([], PNone))
     (dual_frame_alignment Fixture.standard Fixture.dual_args)).1.1 =
    seqZ (1 - 1) (5 - 1 + 1) ∧
  Z.of_nat (length (seqZ (1 - 1) (5 - 1 + 1))) = 5 - 1 + 1.
Proof.
  assert (1 ≤ 1) as Hs by lia.
  assert (5 < 2 ^ 53) as Hbound by reflexivity.
  assert (1 - 1 ≤ 5) as Hse by lia.
  split; [exact Hs|]. split; [exact Hbound|]. split; [exact Hse|].
  pose proof (frame_window_zero_based_half_open Fixture.standard 1 5 Hs Hbound)
    as (Hsingle & Hdual & _ & Hlength & _).
  split; [|split; [|exact (Hlength Hse)]].
  - refine (Hsingle Fixture.single_args
              (Fixture.processed_data (PList [PInt 1; PInt 5]) (PList [PInt 2; PInt 6]))
              _ _ _ (unwrap_Return _ _ _)).
    + reflexivity.
    + vm_compute. reflexivity.
    + vm_compute. reflexivity.
  - refine (proj1 (Hdual Fixture.dual_args
                     (Fixture.processed_data (PList [PInt 1; PInt 5])
                        (PList [PInt 2; PInt 6]))
                     _ "ACh_idx"%string _ _ (unwrap_Return _ _ _)) _).
    + reflexivity.
    + vm_compute. reflexivity.
    + vm_compute. reflexivity.
    + reflexivity.
Defined.

(* ===================================================================== *)
(** * The single-wavelength assembler *)
(* ===================================================================== *)

(** C2, evaluated at a call that supplies a window: the caller passes
    [frame_indices = [0, 1, 2]], the struct's index field holds [[5, 8]],
    and the [Imaging] source configuration gets [[4, 5, 6, 7]], the window
    resolved from the struct, not the supplied one.  (By
    [single_source_data_with_frame_indices] the argument never matters.) *)
Theorem supplied_frame_indices_overwritten :
  let C := Fixture.collaborators [Fixture.UG27_240214] Fixture.mice
             (PList [PInt 5; PInt 8]) (PList [PInt 2; PInt 6]) in
  let a := with_frame_indices Fixture.single_args (Some [0; 1; 2]) in
  let r := unwrap (∅, ∅) (single_source_data C a) in
  SingleArgs.frame_indices a = Some [0; 1; 2] ∧
  single_source_data C a = Return r ∧
  imaging_frame_indices r.1 = Some (PList [PInt 4; PInt 5; PInt 6; PInt 7]) ∧
  imaging_frame_indices r.1 ≠ Some (PList (PInt <$> [0; 1; 2])).
Proof.
  intros C a r.
  assert (imaging_frame_indices r.1 = Some (PList [PInt 4; PInt 5; PInt 6; PInt 7]))
    as Himaging by (vm_compute; reflexivity).
  split; [reflexivity|].
  split; [apply unwrap_Return; vm_compute; reflexivity|].
  split; [exact Himaging|]. rewrite Himaging. discriminate.
Qed.

(** C4: for an excitation wavelength outside 470, 405, 415 and 570 the
    assembler fails, and all it has done by then is enter the call: no
    handle is created or extended, nothing is written.  When the
    configuration and the wavelength-independent metadata were assembled
    without error, the failure is the [KeyError] of the table lookup, a
    LookupError. *)
Theorem unknown_wavelength_fails_before_handle (C : Collaborators)
    (a : SingleArgs.t) (w : world) :
  let wl := SingleArgs.excitation_wavelength_in_nm a in
  ¬ (wl = 470 ∨ wl = 405 ∨ wl = 415 ∨ wl = 570) →
  let res := single_wavelength_session_to_nwb C a w in
  (∃ e, res.1 = Raise e) ∧
  new_calls w res.2 = [Call_single_wavelength_session_to_nwb a] ∧
  files res.2 = files w ∧
  (∀ r defaults,
     single_source_data C a = Return r →
     single_default_metadata C a r.1 = Return defaults →
     res.1 = Raise (KeyError (PInt wl)) ∧
     is_LookupError (KeyError (PInt wl)) = true).
Proof.
  intros wl Hwl res.
  apply wavelength_table_None in Hwl.
  assert (∃ e, (single_source_data C a = Raise e ∨
                ∃ sd co, single_source_data C a = Return (sd, co) ∧
                         single_metadata C a sd = Raise e) ∧
               ∀ r defaults,
                 single_source_data C a = Return r →
                 single_default_metadata C a r.1 = Return defaults →
                 e = KeyError (PInt wl)) as (e & He & Hkey).
  { destruct (single_source_data C a) as [[sd co]|e] eqn:Hsd.
    - destruct (single_default_metadata C a sd) as [defaults|e] eqn:Hdef.
      + exists (KeyError (PInt wl)). split; [|done].
        right. exists sd, co. split; [done|].
        unfold single_metadata. rewrite Hdef. simpl.
        by apply single_wavelength_metadata_unknown.
      + exists e. split; [|intros ?? [= <-]; simpl; congruence].
        right. exists sd, co. split; [done|].
        unfold single_metadata. by rewrite Hdef.
    - exists e. split; [by left | congruence]. }
  pose proof (single_fails_early C a w e He) as Hrun.
  subst res. rewrite Hrun. simpl.
  split; [by exists e|]. split.
  - unfold new_calls. simpl. by rewrite drop_app_length.
  - split; [done|]. intros r defaults Hsd Hdef.
    by rewrite (Hkey r defaults Hsd Hdef).
Qed.

(** C4 on the fixture session with wavelength 488. *)
Lemma unknown_wavelength_fails_before_handle_witness :
  let a := {| SingleArgs.raw_imaging_file_path :=
                SingleArgs.raw_imaging_file_path Fixture.single_args;
              SingleArgs.processed_data_file_path :=
                SingleArgs.processed_data_file_path Fixture.single_args;
              SingleArgs.fiber_photometry_field := "ACh";
              SingleArgs.index_field := "ACh_idx";
              SingleArgs.fiber_locations_file_path :=
                SingleArgs.fiber_locations_file_path Fixture.single_args;
              SingleArgs.excitation_wavelength_in_nm := 488;
              SingleArgs.indicator := "ACh3.0";
              SingleArgs.ttl_file_path := SingleArgs.ttl_file_path Fixture.single_args;
              SingleArgs.ttl_stream_name := "ttlIn1";
              SingleArgs.behavior_field := Some "behav_ACh"%string;
              SingleArgs.frame_indices := None;
              SingleArgs.nwbfile_path := SingleArgs.nwbfile_path Fixture.single_args;
              SingleArgs.nwbfile := None;
              SingleArgs.sampling_frequency := PInt 18;
              SingleArgs.subject_metadata := None;
              SingleArgs.aligned_starting_time := PNone;
              SingleArgs.excitation_mode := "single-wavelength";
              SingleArgs.stub_test := false |} in
  ¬ (488 = 470 ∨ 488 = 405 ∨ 488 = 415 ∨ 488 = 570) ∧
  (single_wavelength_session_to_nwb Fixture.standard a Fixture.fresh).1 =
    Raise (KeyError (PInt 488)) ∧
  files (single_wavelength_session_to_nwb Fixture.standard a Fixture.fresh).2 =
    files Fixture.fresh.
Proof.
  intros a.
  assert (¬ (488 = 470 ∨ 488 = 405 ∨ 488 = 415 ∨ 488 = 570)) as Hwl by lia.
  split; [exact Hwl|].
  destruct (unknown_wavelength_fails_before_handle Fixture.standard a Fixture.fresh Hwl)
    as (_ & _ & Hfiles & Hkey).
  split; [|exact Hfiles].
  refine (proj1 (Hkey _ _ (unwrap_Return (∅, ∅) _ _) (unwrap_Return (∅, ∅) _ _))).
  - vm_compute. reflexivity.
  - vm_compute. reflexivity.
Defined.

(** C5: the name suffix of each defined wavelength is the fixed lookup
    470 to Green, 405 and 415 to GreenIsosbestic, 570 to Red; 405 and 415
    get the same suffix; every suffix is one of the three names; and the
    suffix looked up is the one both series names are built from. *)
Theorem photon_series_name_lookup (C : Collaborators) :
  excitation_wavelength_to_photon_series_name !! 470 = Some "Green"%string ∧
  excitation_wavelength_to_photon_series_name !! 405 = Some "GreenIsosbestic"%string ∧
  excitation_wavelength_to_photon_series_name !! 415 = Some "GreenIsosbestic"%string ∧
  excitation_wavelength_to_photon_series_name !! 570 = Some "Red"%string ∧
  excitation_wavelength_to_photon_series_name !! 405 =
    excitation_wavelength_to_photon_series_name !! 415 ∧
  (∀ wl name,
     excitation_wavelength_to_photon_series_name !! wl = Some name →
     (wl = 470 ∨ wl = 405 ∨ wl = 415 ∨ wl = 570) ∧
     (name = "Green" ∨ name = "GreenIsosbestic" ∨ name = "Red")%string) ∧
  (∀ a metadata fiber_photometry_metadata name,
     excitation_wavelength_to_photon_series_name
       !! SingleArgs.excitation_wavelength_in_nm a = Some name →
     single_wavelength_metadata C a metadata fiber_photometry_metadata =
       obind (update_fiber_photometry_metadata C fiber_photometry_metadata
                ("FiberPhotometryResponseSeries" +:+ name)
                (SingleArgs.excitation_wavelength_in_nm a) (SingleArgs.indicator a))
         (λ updated,
            update_ophys_metadata C (dict_deep_update C metadata updated)
              ("OnePhotonSeries" +:+ name)
              (SingleArgs.excitation_wavelength_in_nm a)
              (SingleArgs.excitation_mode a) (SingleArgs.indicator a))).
Proof.
  do 5 (split; [vm_compute; reflexivity|]). split.
  - intros wl name. unfold excitation_wavelength_to_photon_series_name.
    destruct (decide (wl = 470)) as [->|?]; [intros [= <-]; auto|].
    rewrite lookup_insert_ne by done.
    destruct (decide (wl = 405)) as [->|?]; [intros [= <-]; auto|].
    rewrite lookup_insert_ne by done.
    destruct (decide (wl = 415)) as [->|?]; [intros [= <-]; auto 6|].
    rewrite lookup_insert_ne by done.
    destruct (decide (wl = 570)) as [->|?]; [intros [= <-]; auto 6|].
    by rewrite lookup_singleton_ne.
  - intros a metadata fpm name Hname.
    unfold single_wavelength_metadata. by rewrite Hname.
Qed.

(** C5 on the red channel of the fixture session. *)
Lemma photon_series_name_lookup_witness :
  excitation_wavelength_to_photon_series_name !! 570 = Some "Red"%string ∧
  (570 = 470 ∨ 570 = 405 ∨ 570 = 415 ∨ 570 = 570) ∧
  ("Red" = "Green" ∨ "Red" = "GreenIsosbestic" ∨ "Red" = "Red")%string.
Proof.
  assert (excitation_wavelength_to_photon_series_name !! 570 = Some "Red"%string)
    as Hred by (vm_compute; reflexivity).
  split; [exact Hred|].
  exact (proj1 (proj2 (proj2 (proj2 (proj2 (proj2
           (photon_series_name_lookup Fixture.standard))))))
           570 "Red"%string Hred).
Defined.

(* ===================================================================== *)
(** * The dual-wavelength assembler *)
(* ===================================================================== *)

Lemma run_Return {A} (m : M A) (w : world) (a : A) :
  (m w).1 = Return a → m w = (Return a, (m w).2).
Proof. destruct (m w) as [r w']. simpl. by intros ->. Qed.

Lemma first_call_args_Return (a : DualArgs.t) (fi : list Z) (t : pyval)
    (a1 : SingleArgs.t) :
  first_call_args a fi t = Return a1 →
  SingleArgs.nwbfile a1 = None ∧
  SingleArgs.nwbfile_path a1 = None ∧
  SingleArgs.frame_indices a1 = Some fi ∧
  SingleArgs.behavior_field a1 = DualArgs.behavior_fields a !! 0%nat ∧
  is_Some (SingleArgs.behavior_field a1).
Proof.
  unfold first_call_args. intros H.
  apply obind_Return in H as (raw & _ & H).
  apply obind_Return in H as (field & _ & H).
  apply obind_Return in H as (behavior & Hbehavior & H).
  do 4 (apply obind_Return in H as (? & _ & H)).
  injection H as <-. simpl.
  apply list_index_Return in Hbehavior. rewrite Hbehavior. eauto.
Qed.

Lemma second_call_args_Return (a : DualArgs.t) (fi : list Z) (t : pyval)
    (nwbfile : option NWBFile) (a2 : SingleArgs.t) :
  second_call_args a fi t nwbfile = Return a2 →
  SingleArgs.nwbfile a2 = nwbfile ∧
  SingleArgs.nwbfile_path a2 = Some (DualArgs.nwbfile_path a) ∧
  SingleArgs.frame_indices a2 = Some fi ∧
  SingleArgs.behavior_field a2 = None.
Proof.
  unfold second_call_args. intros H.
  do 6 (apply obind_Return in H as (? & _ & H)).
  injection H as <-. done.
Qed.

Section DualRuns.

Variable C : Collaborators.

(** A successful dual-wavelength conversion, read backwards. *)
Lemma dual_Return (a : DualArgs.t) (w w' : world) :
  dual_wavelength_session_to_nwb C a w = (Return (), w') →
  ∃ r a1 a2 r1 md1 r2 md2,
    dual_frame_alignment C a = Return r ∧
    first_call_args a r.1.1 r.1.2 = Return a1 ∧
    single_source_data C a1 = Return r1 ∧
    single_source_data C a2 = Return r2 ∧
    let s1 := assembled_stream_set a1 r1.1 r1.2 md1 in
    let s2 := assembled_stream_set a2 r2.1 r2.2 md2 in
    second_call_args a r.2.1 r.2.2 (Some [s1]) = Return a2 ∧
    files w' = <[DualArgs.nwbfile_path a := NwbContent [s1; s2]]> (files w) ∧
    calls w' = calls w ++
      [Call_dual_wavelength_session_to_nwb a;
       Call_single_wavelength_session_to_nwb a1;
       Call_create_nwbfile s1;
       Call_single_wavelength_session_to_nwb a2;
       Call_add_to_nwbfile [s1] s2;
       Call_configure_and_write_nwbfile [s1; s2] (DualArgs.nwbfile_path a)].
Proof.
  unfold dual_wavelength_session_to_nwb. intros H.
  apply bind_Return in H as ([] & w1 & Hw1 & H). injection Hw1 as <-.
  apply bind_Return in H as (r & w2 & Hr & H).
  apply lift_Return in Hr as [Hr ->].
  apply bind_Return in H as (a1 & w3 & Ha1 & H).
  apply lift_Return in Ha1 as [Ha1 ->].
  apply bind_Return in H as (nwbfile & w4 & Hfirst & H).
  apply bind_Return in H as (a2 & w5 & Ha2 & H).
  apply lift_Return in Ha2 as [Ha2 ->].
  apply bind_Return in H as (last & w6 & Hsecond & H).
  injection H as <-.
  destruct (first_call_args_Return _ _ _ _ Ha1) as (Hnwb1 & Hpath1 & _).
  apply single_Return in Hfirst as (sd1 & co1 & md1 & Hsd1 & _ & Hfirst).
  rewrite Hpath1 in Hfirst. simpl in Hfirst.
  destruct Hfirst as (-> & Hfiles1 & Hcalls1).
  unfold assembled_handle in Ha2. rewrite Hnwb1 in Ha2, Hcalls1.
  destruct (second_call_args_Return _ _ _ _ _ Ha2) as (Hnwb2 & Hpath2 & _).
  apply single_Return in Hsecond as (sd2 & co2 & md2 & Hsd2 & _ & Hsecond).
  rewrite Hpath2 in Hsecond. simpl in Hsecond.
  destruct Hsecond as (_ & Hfiles2 & Hcalls2).
  unfold assembled_handle in Hfiles2, Hcalls2. rewrite Hnwb2 in Hfiles2, Hcalls2.
  exists r, a1, a2, (sd1, co1), md1, (sd2, co2), md2. simpl.
  do 5 (split; [done|]). split.
  - rewrite Hfiles2, Hfiles1. done.
  - rewrite Hcalls2, Hcalls1. simpl. by rewrite <- !app_assoc.
Qed.

(** C6: the second assembler call of a dual-wavelength conversion gets no
    behavior field; the single-wavelength assembler configures a
    [Behavior] stream exactly when it gets one; hence the file a
    conversion writes holds the two stream sets, the first with a
    [Behavior] stream (of the first behavior field) and the second
    without. *)
Theorem behavior_only_from_first_channel :
  (∀ a fi t nwbfile a2,
     second_call_args a fi t nwbfile = Return a2 →
     SingleArgs.behavior_field a2 = None) ∧
  (∀ a r,
     single_source_data C a = Return r →
     (is_Some (r.1 !! "Behavior") ↔ is_Some (SingleArgs.behavior_field a)) ∧
     (is_Some (r.2 !! "Behavior") ↔ is_Some (SingleArgs.behavior_field a))) ∧
  (∀ a w w',
     dual_wavelength_session_to_nwb C a w = (Return (), w') →
     ∃ a1 a2 s1 s2 behavior_field,
       new_calls w w' =
         [Call_dual_wavelength_session_to_nwb a;
          Call_single_wavelength_session_to_nwb a1;
          Call_create_nwbfile s1;
          Call_single_wavelength_session_to_nwb a2;
          Call_add_to_nwbfile [s1] s2;
          Call_configure_and_write_nwbfile [s1; s2] (DualArgs.nwbfile_path a)] ∧
       DualArgs.behavior_fields a !! 0%nat = Some behavior_field ∧
       SingleArgs.behavior_field a1 = Some behavior_field ∧
       SingleArgs.behavior_field a2 = None ∧
       files w' !! DualArgs.nwbfile_path a = Some (NwbContent [s1; s2]) ∧
       ss_source_data s1 !! "Behavior" =
         Some {[ "file_path" := PStr (path_str (DualArgs.processed_data_file_path a));
                 "data_field" := PStr behavior_field ]} ∧
       ss_source_data s2 !! "Behavior" = None ∧
       ss_conversion_options s2 !! "Behavior" = None).
Proof.
  split; [|split].
  - intros a fi t nwbfile a2 Ha2.
    by destruct (second_call_args_Return _ _ _ _ _ Ha2) as (_ & _ & _ & ?).
  - intros a [sd co] Hsd.
    destruct (single_source_data_behavior C a sd co Hsd) as [Hsource Hoptions].
    simpl. rewrite Hsource, Hoptions, !fmap_is_Some. done.
  - intros a w w' Hrun.
    apply dual_Return in Hrun
      as (r & a1 & a2 & [sd1 co1] & md1 & [sd2 co2] & md2 & Hr & Ha1 & Hsd1 & Hsd2
            & Ha2 & Hfiles & Hcalls).
    simpl in *.
    destruct (first_call_args_Return _ _ _ _ Ha1) as (_ & _ & _ & Hb1 & [bf Hbf]).
    destruct (second_call_args_Return _ _ _ _ _ Ha2) as (_ & _ & _ & Hb2).
    destruct (single_source_data_behavior C a1 sd1 co1 Hsd1) as [Hsd1b _].
    destruct (single_source_data_behavior C a2 sd2 co2 Hsd2) as [Hsd2b Hco2b].
    exists a1, a2, (assembled_stream_set a1 sd1 co1 md1),
      (assembled_stream_set a2 sd2 co2 md2), bf.
    split; [unfold new_calls; by rewrite Hcalls, drop_app_length|].
    split; [congruence|]. split; [done|]. split; [done|].
    split; [by rewrite Hfiles, lookup_insert_eq|]. simpl.
    rewrite Hsd1b, Hsd2b, Hco2b, Hbf, Hb2. simpl.
    repeat split.
    unfold first_call_args in Ha1.
    do 7 (apply obind_Return in Ha1 as (? & _ & Ha1)).
    by injection Ha1 as <-.
Qed.

End DualRuns.

(** C6 on the fixture session. *)
Lemma behavior_only_from_first_channel_witness :
  let w' := (dual_wavelength_session_to_nwb Fixture.standard Fixture.dual_args
               Fixture.fresh).2 in
  dual_wavelength_session_to_nwb Fixture.standard Fixture.dual_args Fixture.fresh =
    (Return (), w') ∧
  ∃ a1 a2 s1 s2,
    SingleArgs.behavior_field a1 = Some "behav_ACh"%string ∧
    SingleArgs.behavior_field a2 = None ∧
    files w' !! DualArgs.nwbfile_path Fixture.dual_args = Some (NwbContent [s1; s2]) ∧
    is_Some (ss_source_data s1 !! "Behavior") ∧
    ss_source_data s2 !! "Behavior" = None.
Proof.
  intros w'.
  assert (dual_wavelength_session_to_nwb Fixture.standard Fixture.dual_args
            Fixture.fresh = (Return (), w')) as Hrun
    by (apply run_Return; vm_compute; reflexivity).
  split; [exact Hrun|].
  destruct (proj2 (proj2 (behavior_only_from_first_channel Fixture.standard))
              Fixture.dual_args Fixture.fresh w' Hrun)
    as (a1 & a2 & s1 & s2 & bf & _ & Hbf & Hb1 & Hb2 & Hfile & Hs1 & Hs2 & _).
  exists a1, a2, s1, s2.
  injection Hbf as <-.
  split; [exact Hb1|]. split; [exact Hb2|]. split; [exact Hfile|].
  split; [rewrite Hs1; eauto | exact Hs2].
Defined.

(* ===================================================================== *)
(** * The batch driver *)
(* ===================================================================== *)

Lemma append_nonempty_r (s t : string) : t ≠ EmptyString → s +:+ t ≠ EmptyString.
Proof.
  intros Ht. destruct s as [|c s].
  - exact Ht.
  - change (String c (s +:+ t) ≠ EmptyString). discriminate.
Qed.

Lemma string_last_app (s t : string) :
  t ≠ EmptyString → string_last (s +:+ t) = string_last t.
Proof.
  intros Ht. induction s as [|c s IH]; simpl; [done|].
  rewrite IH. destruct (s +:+ t) eqn:E; [|done].
  destruct s as [|c' s].
  - change (t = EmptyString) in E. congruence.
  - change (String c' (s +:+ t) = EmptyString) in E. discriminate.
Qed.

(** An output file and a report never share a path: the names end in
    [b] and in [t]. *)
Lemma report_path_not_nwbfile_path (nwbfile_folder_path : path)
    (subject_id exp_dir : string) :
  ¬ is_nwbfile_path nwbfile_folder_path
      (session_report_path nwbfile_folder_path subject_id exp_dir).
Proof.
  intros (stub_test & subject_id' & exp_dir' & Heq).
  unfold session_report_path, session_nwbfile_path, path_join in Heq.
  assert (∀ x y : string, nwbfile_folder_path ++ [x] = nwbfile_folder_path ++ [y] →
                          string_last x = string_last y) as Hlast.
  { intros x y Hxy. apply app_inj_tail in Hxy as [_ ->]. done. }
  destruct stub_test; apply Hlast in Heq;
    rewrite !string_last_app in Heq by (repeat apply append_nonempty_r; done);
    discriminate.
Qed.

Lemma filter_by_subject_disjoint (subject_ids : list string)
    (data_table : list session_row) :
  (∀ r, r ∈ data_table → str_of_cell (Mouse r) ∉ subject_ids) →
  filter_by_subject subject_ids data_table = [].
Proof.
  intros Hdisjoint. unfold filter_by_subject.
  induction data_table as [|r t IH]; simpl; [done|].
  rewrite bool_decide_eq_false_2 by (apply Hdisjoint; left).
  apply IH. intros r' Hr'. apply Hdisjoint. by right.
Qed.

Lemma session_dual_args_Return (C : Collaborators) (folder_path : path)
    (subject_id exp_dir : string) (table : list session_row)
    (subject_metadata : gmap string pyval) (nwbfile_path : path) (da : DualArgs.t) :
  session_dual_args C folder_path subject_id exp_dir table subject_metadata
    nwbfile_path = Return da →
  DualArgs.nwbfile_path da = nwbfile_path ∧
  DualArgs.ttl_stream_names da = ["ttlIn1"; "ttlIn2"]%string ∧
  DualArgs.sampling_frequency da = PInt 18.
Proof.
  unfold session_dual_args. intros H.
  do 8 (apply obind_Return in H as (? & _ & H)).
  injection H as <-. done.
Qed.

Section Driver.

Variable C : Collaborators.

Lemma dual_log_extends (P : event → Prop) (a : DualArgs.t) :
  P (Call_dual_wavelength_session_to_nwb a) →
  (∀ ev, is_assembler_call ev = true → P ev) →
  respects (log_extends P) (dual_wavelength_session_to_nwb C a).
Proof.
  intros Hdual Hsingle. unfold dual_wavelength_session_to_nwb.
  apply respects_bind; [apply _ | by apply emit_log_extends | intros _].
  respects_walk; by apply single_log_extends.
Qed.

Lemma dual_keeps_existing (Q : path → Prop) (a : DualArgs.t) :
  Q (DualArgs.nwbfile_path a) →
  respects (keeps_existing Q) (dual_wavelength_session_to_nwb C a).
Proof.
  intros HQ. unfold dual_wavelength_session_to_nwb.
  apply respects_bind; [apply _ | apply emit_keeps_existing | intros _].
  apply respects_bind; [apply _ | apply respects_lift, _ | intros r].
  apply respects_bind_lift; [apply _ | intros a1 Ha1].
  apply respects_bind; [apply _ | | intros nwbfile].
  { apply single_keeps_existing. intros p Hp.
    destruct (first_call_args_Return _ _ _ _ Ha1) as (_ & Hnone & _). congruence. }
  apply respects_bind_lift; [apply _ | intros a2 Ha2].
  apply respects_bind; [apply _ | | intros _; apply respects_ret, _].
  apply single_keeps_existing. intros p Hp.
  destruct (second_call_args_Return _ _ _ _ _ Ha2) as (_ & Hpath & _). congruence.
Qed.

Lemma dual_files_grow (a : DualArgs.t) :
  respects files_grow (dual_wavelength_session_to_nwb C a).
Proof.
  unfold dual_wavelength_session_to_nwb. respects_walk; apply single_files_grow.
Qed.

Lemma dual_Return_written (a : DualArgs.t) (w w' : world) :
  dual_wavelength_session_to_nwb C a w = (Return (), w') →
  is_Some (files w' !! DualArgs.nwbfile_path a).
Proof.
  intros H. apply dual_Return in H
    as (r & a1 & a2 & r1 & md1 & r2 & md2 & _ & _ & _ & _ & _ & -> & _).
  rewrite lookup_insert_eq. eauto.
Qed.

(** The inspector step with the report already there: it inspects, and
    that is all. *)
Lemma inspector_step_report_exists (nwbfile_folder_path : path)
    (subject_id exp_dir : string) (nwbfile_path : path) (w : world) :
  is_Some (files w !! session_report_path nwbfile_folder_path subject_id exp_dir) →
  let res := inspector_step C nwbfile_folder_path subject_id exp_dir nwbfile_path w in
  res.2 = entered w (Call_inspect_nwbfile nwbfile_path).
Proof.
  intros Hexists. unfold inspector_step, bind, emit, read_file, lift, path_exists.
  simpl. destruct (inspect_nwbfile C nwbfile_path (files w !! nwbfile_path)); [|done].
  simpl. by rewrite bool_decide_eq_true_2.
Qed.

(** The inspector step writes at most the report, and only where there
    is none. *)
Lemma inspector_step_keeps_existing (Q : path → Prop)
    (nwbfile_folder_path : path) (subject_id exp_dir : string) (nwbfile_path : path) :
  respects (keeps_existing Q)
    (inspector_step C nwbfile_folder_path subject_id exp_dir nwbfile_path).
Proof.
  intros w p _ Hp.
  unfold inspector_step, bind, emit, read_file, lift, path_exists. simpl.
  destruct (inspect_nwbfile C nwbfile_path (files w !! nwbfile_path)); [|done].
  simpl. case_bool_decide as Hreport; simpl; [done|].
  destruct (save_report C _ _); simpl; [|done].
  apply lookup_insert_ne. intros <-. done.
Qed.

Lemma inspector_step_files_grow (nwbfile_folder_path : path)
    (subject_id exp_dir : string) (nwbfile_path : path) :
  respects files_grow
    (inspector_step C nwbfile_folder_path subject_id exp_dir nwbfile_path).
Proof.
  unfold inspector_step. respects_walk.
Qed.

Lemma inspector_step_log_extends (P : event → Prop)
    (nwbfile_folder_path : path) (subject_id exp_dir : string) (nwbfile_path : path) :
  (∀ p, P (Call_inspect_nwbfile p)) →
  (∀ p msgs, P (Call_save_report p msgs)) →
  respects (log_extends P)
    (inspector_step C nwbfile_folder_path subject_id exp_dir nwbfile_path).
Proof.
  intros Hinspect Hsave. unfold inspector_step.
  apply respects_bind; [apply _ | by apply emit_log_extends | intros _].
  respects_walk. by apply emit_log_extends.
Qed.

End Driver.

Section Batch.

Variable C : Collaborators.
Variables folder_path nwbfile_folder_path : path.
Variable subjects_table : list (gmap string cell).
Variable stub_test : bool.

Local Abbreviation subject_of := group_subject_id.
Local Abbreviation nwbfile_path_of :=
  (group_nwbfile_path nwbfile_folder_path stub_test).
Local Abbreviation dual_args_of :=
  (group_dual_args C folder_path nwbfile_folder_path stub_test).
Local Abbreviation body overwrite :=
  (session_group_body C folder_path nwbfile_folder_path subjects_table stub_test
     overwrite).

Lemma body_lookup_fails (overwrite : bool) group (w : world) (e : exception) :
  _get_subject_metadata_from_dataframe C group.1.1 subjects_table = Raise e →
  body overwrite group w = (Raise e, w).
Proof.
  intros Hlookup. unfold session_group_body, bind, lift.
  by rewrite Hlookup.
Qed.

(** The output exists and overwriting was not asked for: the group is
    skipped with one progress tick. *)
Lemma body_skip group (w : world) (md : gmap string pyval) (da : DualArgs.t) :
  _get_subject_metadata_from_dataframe C group.1.1 subjects_table = Return md →
  dual_args_of group md = Return da →
  is_Some (files w !! nwbfile_path_of group) →
  body false group w = (Return (), entered w Tqdm_update).
Proof.
  intros Hlookup Hargs Hexists.
  unfold session_group_body, bind, lift, path_exists.
  rewrite Hlookup.
  unfold group_dual_args, group_nwbfile_path, group_subject_id in Hargs, Hexists.
  rewrite Hargs. by rewrite bool_decide_eq_true_2.
Qed.

Lemma body_keeps_existing (overwrite : bool) group :
  respects (keeps_existing (is_nwbfile_path nwbfile_folder_path))
    (body overwrite group).
Proof.
  unfold session_group_body.
  apply respects_bind; [apply _ | apply respects_lift, _ | intros md].
  apply respects_bind_lift; [apply _ | intros da Hda].
  apply session_dual_args_Return in Hda as (Hpath & _).
  respects_walk.
  - apply dual_keeps_existing. rewrite Hpath. unfold is_nwbfile_path. eauto.
  - apply inspector_step_keeps_existing.
Qed.

Lemma body_files_grow (overwrite : bool) group :
  respects files_grow (body overwrite group).
Proof.
  unfold session_group_body. respects_walk.
  - apply dual_files_grow.
  - apply inspector_step_files_grow.
Qed.

Lemma body_Return (overwrite : bool) group (w w' : world) :
  body overwrite group w = (Return (), w') →
  ∃ md da,
    _get_subject_metadata_from_dataframe C group.1.1 subjects_table = Return md ∧
    dual_args_of group md = Return da ∧
    is_Some (files w' !! nwbfile_path_of group).
Proof.
  unfold session_group_body. intros H.
  apply bind_Return in H as (md & w1 & Hmd & H).
  apply lift_Return in Hmd as [Hmd ->].
  apply bind_Return in H as (da & w2 & Hda & H).
  apply lift_Return in Hda as [Hda ->].
  apply bind_Return in H as (nwbfile_exists & w3 & Hexists & H).
  injection Hexists as <- <-.
  exists md, da. split; [done|]. split; [done|].
  fold (group_subject_id group) in *.
  fold (group_nwbfile_path nwbfile_folder_path stub_test group) in *.
  destruct (bool_decide (is_Some (files w !! nwbfile_path_of group)) && negb overwrite)
    eqn:Hskip.
  - injection H as <-. simpl.
    apply andb_true_iff in Hskip as [Hexists _].
    by apply bool_decide_eq_true_1 in Hexists.
  - apply bind_Return in H as ([] & w4 & Hw4 & H). injection Hw4 as <-.
    apply bind_Return in H as ([] & w5 & Hdual & H).
    apply bind_Return in H as ([] & w6 & Hinspect & H).
    apply dual_Return_written in Hdual.
    apply session_dual_args_Return in Hda as (Hpath & _).
    rewrite Hpath in Hdual.
    pose proof (inspector_step_files_grow C nwbfile_folder_path (subject_of group)
                  group.1.2 (nwbfile_path_of group) w5 _ Hdual) as Hgrow.
    rewrite Hinspect in Hgrow. simpl in Hgrow.
    injection H as <-. exact Hgrow.
Qed.

(** After a run of the loop that returned, every group has its output. *)
Lemma for_each_body_Return (overwrite : bool) groups (w w' : world) :
  for_each groups (body overwrite) w = (Return (), w') →
  Forall (λ group,
            ∃ md da,
              _get_subject_metadata_from_dataframe C group.1.1 subjects_table
                = Return md ∧
              dual_args_of group md = Return da ∧
              is_Some (files w' !! nwbfile_path_of group)) groups.
Proof.
  revert w. induction groups as [|group groups IH]; intros w H; [constructor|].
  simpl in H. apply bind_Return in H as ([] & w1 & Hbody & H).
  constructor; [|by eapply IH].
  apply body_Return in Hbody as (md & da & Hmd & Hda & Hexists).
  exists md, da. split; [done|]. split; [done|].
  pose proof (respects_for_each files_grow groups (body overwrite)
                (body_files_grow overwrite) w1 _ Hexists) as Hgrow.
  by rewrite H in Hgrow.
Qed.

(** A run of the loop over groups that all have their output only ticks. *)
Lemma for_each_body_skip groups (w : world) :
  Forall (λ group,
            ∃ md da,
              _get_subject_metadata_from_dataframe C group.1.1 subjects_table
                = Return md ∧
              dual_args_of group md = Return da ∧
              is_Some (files w !! nwbfile_path_of group)) groups →
  (for_each groups (body false) w).1 = Return () ∧
  only_progress w (for_each groups (body false) w).2.
Proof.
  revert w. induction groups as [|group groups IH]; intros w Hall; simpl.
  - split; [done | reflexivity].
  - apply Forall_cons in Hall as [(md & da & Hmd & Hda & Hexists) Hall].
    unfold bind. rewrite (body_skip group w md da Hmd Hda Hexists).
    destruct (IH (entered w Tqdm_update) Hall) as [Hret Hprogress].
    split; [exact Hret|].
    etrans; [|exact Hprogress].
    by apply (emit_only_progress Tqdm_update).
Qed.

End Batch.

Section BatchRuns.

Variable C : Collaborators.
Variables data_table_path folder_path nwbfile_folder_path : path.
Variable subject_ids : list string.
Variable stub_test : bool.

Local Abbreviation driver overwrite :=
  (convert_all_dual_wavelength_sessions C data_table_path folder_path
     nwbfile_folder_path subject_ids stub_test overwrite).

Local Abbreviation body mice overwrite :=
  (session_group_body C folder_path nwbfile_folder_path (astype_str mice) stub_test
     overwrite).

(** The driver past the table checks: it announces the groups and loops. *)
Lemma driver_loop (overwrite : bool) (w : world) sessions mice :
  read_excel C data_table_path = Return (sessions, mice) →
  filter_by_subject subject_ids sessions ≠ [] →
  let groups := groupby (filter_by_subject subject_ids sessions) in
  driver overwrite w =
    for_each groups (body mice overwrite)
      (entered w (Tqdm_init ("Converting " +:+ pretty (length groups)
                               +:+ " sessions to NWB ...") (length groups))).
Proof.
  intros Hread Hfiltered groups.
  unfold convert_all_dual_wavelength_sessions, bind, lift. rewrite Hread. simpl.
  by destruct (filter_by_subject subject_ids sessions).
Qed.

Lemma driver_Return (overwrite : bool) (w w' : world) :
  driver overwrite w = (Return (), w') →
  ∃ sessions mice,
    read_excel C data_table_path = Return (sessions, mice) ∧
    filter_by_subject subject_ids sessions ≠ [].
Proof.
  unfold convert_all_dual_wavelength_sessions. intros H.
  apply bind_Return in H as ([sessions mice] & w1 & Hread & H).
  apply lift_Return in Hread as [Hread ->].
  exists sessions, mice. split; [done|]. simpl in H.
  by destruct (filter_by_subject subject_ids sessions).
Qed.

(** Whatever the loop body and the announcement respect, the driver does. *)
Lemma driver_respects (R : world → world → Prop) `{!PreOrder R} (overwrite : bool) :
  (∀ desc total, respects R (emit (Tqdm_init desc total))) →
  (∀ subjects_table group,
     respects R (session_group_body C folder_path nwbfile_folder_path subjects_table
                   stub_test overwrite group)) →
  respects R (driver overwrite).
Proof.
  intros Hinit Hbody. unfold convert_all_dual_wavelength_sessions.
  apply respects_bind; [apply _ | apply respects_lift, _ | intros tables].
  destruct (filter_by_subject subject_ids tables.1); [apply respects_raise, _|].
  apply respects_bind; [apply _ | apply Hinit | intros _].
  apply respects_for_each; [apply _ | apply Hbody].
Qed.

End BatchRuns.

(** C3: when no session of the table belongs to a requested subject, the
    batch driver raises its "No sessions found" [ValueError], the failure
    the specification calls ConfigurationError, and the world is exactly as
    it was: nothing written, no conversion call made. *)
Theorem no_matching_sessions_is_configuration_error (C : Collaborators)
    (data_table_path folder_path nwbfile_folder_path : path)
    (subject_ids : list string) (stub_test overwrite : bool) (w : world)
    (sessions : list session_row) (mice : list (gmap string cell)) :
  read_excel C data_table_path = Return (sessions, mice) →
  (∀ r, r ∈ sessions → str_of_cell (Mouse r) ∉ subject_ids) →
  let e := ValueError ("No sessions found for the provided subject IDs: "
                         +:+ repr_str_list subject_ids +:+ ".") in
  convert_all_dual_wavelength_sessions C data_table_path folder_path
    nwbfile_folder_path subject_ids stub_test overwrite w = (Raise e, w) ∧
  spec_error_category e = ConfigurationError.
Proof.
  intros Hread Hdisjoint e. split; [|reflexivity].
  unfold convert_all_dual_wavelength_sessions, bind, lift. rewrite Hread. simpl.
  by rewrite (filter_by_subject_disjoint _ _ Hdisjoint).
Qed.

(** C3 on the fixture table, asked for a subject it does not list, on a
    disk that already holds files. *)
Lemma no_matching_sessions_is_configuration_error_witness :
  convert_all_dual_wavelength_sessions Fixture.standard Fixture.data_table_path
    Fixture.folder_path Fixture.nwbfile_folder_path ["XX"%string] false false
    Fixture.converted =
    (Raise (ValueError "No sessions found for the provided subject IDs: ['XX']."),
     Fixture.converted).
Proof.
  refine (proj1 (no_matching_sessions_is_configuration_error Fixture.standard
                   Fixture.data_table_path Fixture.folder_path
                   Fixture.nwbfile_folder_path ["XX"%string] false false
                   Fixture.converted [Fixture.UG27_240214] Fixture.mice _ _)).
  - reflexivity.
  - intros r Hr Hin.
    apply list_elem_of_singleton in Hr as ->.
    apply list_elem_of_singleton in Hin. discriminate Hin.
Defined.

(** C9: the subject lookup is the first thing the loop body does.  When it
    fails for a group, the body fails with that error in every world, so
    also when the group's output exists and overwriting was not asked for;
    the batch then never returns, and if the groups before it went through
    it ends with that error. *)
Theorem missing_subject_aborts_despite_existing_output (C : Collaborators)
    (data_table_path folder_path nwbfile_folder_path : path)
    (subject_ids : list string) (stub_test overwrite : bool) (w : world)
    (sessions : list session_row) (mice : list (gmap string cell))
    (pre post : list ((cell * string) * list session_row))
    (group : (cell * string) * list session_row) (e : exception) :
  read_excel C data_table_path = Return (sessions, mice) →
  groupby (filter_by_subject subject_ids sessions) = pre ++ group :: post →
  _get_subject_metadata_from_dataframe C group.1.1 (astype_str mice) = Raise e →
  let body := session_group_body C folder_path nwbfile_folder_path (astype_str mice)
                stub_test overwrite in
  let batch := convert_all_dual_wavelength_sessions C data_table_path folder_path
               nwbfile_folder_path subject_ids stub_test overwrite w in
  (∀ w0, body group w0 = (Raise e, w0)) ∧
  (∃ e', batch.1 = Raise e') ∧
  (∀ w1,
     for_each pre body
       (entered w (Tqdm_init ("Converting " +:+ pretty (length (pre ++ group :: post))
                                +:+ " sessions to NWB ...")
                     (length (pre ++ group :: post)))) = (Return (), w1) →
     batch = (Raise e, w1)).
Proof.
  intros Hread Hgroups Hlookup body batch.
  assert (∀ w0, body group w0 = (Raise e, w0)) as Hbody
    by (intros w0; by apply body_lookup_fails).
  split; [exact Hbody|].
  assert (filter_by_subject subject_ids sessions ≠ []) as Hfiltered.
  { intros Hnil. rewrite Hnil in Hgroups. by destruct pre. }
  subst batch.
  rewrite (driver_loop C _ _ _ _ _ overwrite w sessions mice Hread Hfiltered).
  simpl. rewrite Hgroups, for_each_app. fold body.
  destruct (for_each pre body _) as [[[]|e1] w1].
  - simpl. unfold bind. rewrite Hbody. split; [by exists e|].
    intros w1' [= <-]. done.
  - split; [by exists e1 | discriminate].
Qed.

(** C9 on the fixture session with an empty "Mice" sheet, on a disk where
    the session's output already exists, without overwrite. *)
Lemma missing_subject_aborts_despite_existing_output_witness :
  let C := Fixture.collaborators [Fixture.UG27_240214] []
             (PList [PInt 1; PInt 5]) (PList [PInt 2; PInt 6]) in
  is_Some (files Fixture.converted
             !! group_nwbfile_path Fixture.nwbfile_folder_path false
                  ((CStr "UG27", "240214"%string), [Fixture.UG27_240214])) ∧
  convert_all_dual_wavelength_sessions C Fixture.data_table_path
    Fixture.folder_path Fixture.nwbfile_folder_path ["UG27"%string] false false
    Fixture.converted =
    (Raise (KeyError (PStr "UG27")),
     entered Fixture.converted (Tqdm_init "Converting 1 sessions to NWB ..." 1)).
Proof.
  intros C. split; [vm_compute; eauto|].
  refine (proj2 (proj2 (missing_subject_aborts_despite_existing_output C
                   Fixture.data_table_path Fixture.folder_path
                   Fixture.nwbfile_folder_path ["UG27"%string] false false
                   Fixture.converted [Fixture.UG27_240214] [] []  []
                   ((CStr "UG27", "240214"%string), [Fixture.UG27_240214])
                   (KeyError (PStr "UG27")) _ _ _)) _ _).
  - reflexivity.
  - vm_compute. reflexivity.
  - vm_compute. reflexivity.
  - reflexivity.
Defined.

(** C10: every call of the dual-wavelength assembler the batch driver
    makes, for whatever session group, carries
    [ttl_stream_names = ["ttlIn1", "ttlIn2"]] and [sampling_frequency = 18]. *)
Theorem dual_assembler_gets_fixed_constants (C : Collaborators)
    (data_table_path folder_path nwbfile_folder_path : path)
    (subject_ids : list string) (stub_test overwrite : bool) (w : world)
    (i : nat) (a : DualArgs.t) :
  new_calls w
    (convert_all_dual_wavelength_sessions C data_table_path folder_path
       nwbfile_folder_path subject_ids stub_test overwrite w).2 !! i
    = Some (Call_dual_wavelength_session_to_nwb a) →
  DualArgs.ttl_stream_names a = ["ttlIn1"; "ttlIn2"]%string ∧
  DualArgs.sampling_frequency a = PInt 18.
Proof.
  set (P := λ ev, ∀ a, ev = Call_dual_wavelength_session_to_nwb a →
                       DualArgs.ttl_stream_names a = ["ttlIn1"; "ttlIn2"]%string ∧
                       DualArgs.sampling_frequency a = PInt 18).
  assert (∀ ev, (∀ a, ev ≠ Call_dual_wavelength_session_to_nwb a) → P ev) as Hother.
  { intros ev Hev a' ->. by destruct (Hev a'). }
  intros Hcall.
  assert (respects (log_extends P)
            (convert_all_dual_wavelength_sessions C data_table_path folder_path
               nwbfile_folder_path subject_ids stub_test overwrite)) as Hrun.
  { apply driver_respects; [apply _ | |].
    - intros desc total. by apply emit_log_extends, Hother.
    - intros subjects_table group. unfold session_group_body.
      apply respects_bind; [apply _ | apply respects_lift, _ | intros md].
      apply respects_bind_lift; [apply _ | intros da Hda].
      apply session_dual_args_Return in Hda as (_ & Httl & Hfrequency).
      apply respects_bind; [apply _ | apply respects_path_exists, _ | intros ?].
      destruct (_ && _).
      + by apply emit_log_extends, Hother.
      + apply respects_bind; [apply _ | by apply emit_log_extends, Hother | intros _].
        apply respects_bind; [apply _ | | intros _].
        { apply dual_log_extends.
          - intros a' [= <-]. done.
          - intros ev Hev. apply Hother. intros a' ->. discriminate. }
        apply respects_bind; [apply _ | | intros _].
        { apply inspector_step_log_extends; intros; by apply Hother. }
        by apply emit_log_extends, Hother. }
  destruct (new_calls_log_extends P _ _ (Hrun w)) as [_ Hall].
  rewrite Forall_lookup in Hall. by apply (Hall i _ Hcall).
Qed.

(** C10 on the fixture session: the third call of the run is the entry
    into the dual-wavelength assembler. *)
Lemma dual_assembler_gets_fixed_constants_witness :
  let batch := convert_all_dual_wavelength_sessions Fixture.standard
                 Fixture.data_table_path Fixture.folder_path
                 Fixture.nwbfile_folder_path ["UG27"%string] false false
                 Fixture.fresh in
  let a := match new_calls Fixture.fresh batch.2 !! 2%nat with
           | Some (Call_dual_wavelength_session_to_nwb a) => a
           | _ => Fixture.dual_args
           end in
  new_calls Fixture.fresh batch.2 !! 2%nat
    = Some (Call_dual_wavelength_session_to_nwb a) ∧
  DualArgs.ttl_stream_names a = ["ttlIn1"; "ttlIn2"]%string ∧
  DualArgs.sampling_frequency a = PInt 18.
Proof.
  intros batch a.
  assert (new_calls Fixture.fresh batch.2 !! 2%nat
            = Some (Call_dual_wavelength_session_to_nwb a)) as Hcall
    by (vm_compute; reflexivity).
  split; [exact Hcall|].
  exact (dual_assembler_gets_fixed_constants Fixture.standard
           Fixture.data_table_path Fixture.folder_path Fixture.nwbfile_folder_path
           ["UG27"%string] false false Fixture.fresh 2 a Hcall).
Defined.

(** C7: a group whose output file exists is skipped, without overwrite,
    before any conversion, file write or report write: the only thing the
    loop body does is tick the progress bar.  Hence after a run of the batch
    driver that returned, a second run on the same inputs with
    [overwrite=False] returns too, leaves every file as it is, and makes no
    call that writes or converts. *)
Theorem second_run_is_noop (C : Collaborators)
    (data_table_path folder_path nwbfile_folder_path : path)
    (subject_ids : list string) (stub_test overwrite : bool) (w : world) :
  let first := convert_all_dual_wavelength_sessions C data_table_path folder_path
                 nwbfile_folder_path subject_ids stub_test overwrite w in
  first.1 = Return () →
  let second := convert_all_dual_wavelength_sessions C data_table_path folder_path
                  nwbfile_folder_path subject_ids stub_test false first.2 in
  (∀ subjects_table group md da w0,
     _get_subject_metadata_from_dataframe C group.1.1 subjects_table = Return md →
     group_dual_args C folder_path nwbfile_folder_path stub_test group md = Return da →
     is_Some (files w0 !! group_nwbfile_path nwbfile_folder_path stub_test group) →
     session_group_body C folder_path nwbfile_folder_path subjects_table stub_test
       false group w0 = (Return (), entered w0 Tqdm_update)) ∧
  second.1 = Return () ∧
  files second.2 = files first.2 ∧
  Forall (λ ev, is_write ev = false ∧ is_conversion ev = false)
    (new_calls first.2 second.2).
Proof.
  intros first Hfirst second.
  split; [intros; by eapply body_skip|].
  assert (convert_all_dual_wavelength_sessions C data_table_path folder_path
            nwbfile_folder_path subject_ids stub_test overwrite w
          = (Return (), first.2)) as Hrun by (by apply run_Return).
  destruct (driver_Return _ _ _ _ _ _ _ _ _ Hrun)
    as (sessions & mice & Hread & Hfiltered).
  rewrite (driver_loop C _ _ _ _ _ _ _ _ _ Hread Hfiltered) in Hrun.
  simpl in Hrun.
  apply for_each_body_Return in Hrun. rename Hrun into Hfirst'.
  subst second.
  rewrite (driver_loop C _ _ _ _ _ _ _ _ _ Hread Hfiltered). simpl.
  set (groups := groupby (filter_by_subject subject_ids sessions)) in *.
  set (w1 := entered first.2 _).
  destruct (for_each_body_skip C folder_path nwbfile_folder_path (astype_str mice)
              stub_test groups w1 Hfirst') as (Hreturn & Hfiles & Hlog).
  split; [exact Hreturn|]. split; [exact Hfiles|].
  assert (log_extends (λ ev, is_write ev = false ∧ is_conversion ev = false)
            first.2 w1) as Hinit by (by apply emit_log_extends).
  by apply (new_calls_log_extends _ _ _ (transitivity Hinit Hlog)).
Qed.

(** C7 on the fixture session: convert on an empty disk, then run again. *)
Lemma second_run_is_noop_witness :
  let first := convert_all_dual_wavelength_sessions Fixture.standard
                 Fixture.data_table_path Fixture.folder_path
                 Fixture.nwbfile_folder_path ["UG27"%string] false false
                 Fixture.fresh in
  let second := convert_all_dual_wavelength_sessions Fixture.standard
                  Fixture.data_table_path Fixture.folder_path
                  Fixture.nwbfile_folder_path ["UG27"%string] false false
                  first.2 in
  first.1 = Return () ∧
  is_write <$> new_calls Fixture.fresh first.2 =
    [false; false; false; false; false; false; false; true; false; true; false] ∧
  second.1 = Return () ∧
  files second.2 = files first.2 ∧
  Forall (λ ev, is_write ev = false ∧ is_conversion ev = false)
    (new_calls first.2 second.2).
Proof.
  intros first second.
  assert (first.1 = Return ()) as Hfirst by (vm_compute; reflexivity).
  split; [exact Hfirst|]. split; [vm_compute; reflexivity|].
  exact (proj2 (second_run_is_noop Fixture.standard Fixture.data_table_path
                  Fixture.folder_path Fixture.nwbfile_folder_path ["UG27"%string]
                  false false Fixture.fresh Hfirst)).
Defined.

(** C8: when the QA report of a session already exists, the inspector step
    inspects and does nothing else, so the report stays as it is; the step
    saves a report only at the derived report path and only when no file is
    there; and a whole run of the batch driver, hence any number of runs,
    leaves an existing report with the content it had. *)
Theorem qa_report_never_overwritten (C : Collaborators)
    (nwbfile_folder_path : path) (subject_id exp_dir : string) :
  let report_path := session_report_path nwbfile_folder_path subject_id exp_dir in
  (∀ nwbfile_path w,
     is_Some (files w !! report_path) →
     (inspector_step C nwbfile_folder_path subject_id exp_dir nwbfile_path w).2 =
       entered w (Call_inspect_nwbfile nwbfile_path)) ∧
  (∀ nwbfile_path w i p formatted_messages,
     new_calls w
       (inspector_step C nwbfile_folder_path subject_id exp_dir nwbfile_path w).2 !! i
       = Some (Call_save_report p formatted_messages) →
     p = report_path ∧ files w !! report_path = None) ∧
  (∀ data_table_path folder_path subject_ids stub_test overwrite w content,
     files w !! report_path = Some content →
     files (convert_all_dual_wavelength_sessions C data_table_path folder_path
              nwbfile_folder_path subject_ids stub_test overwrite w).2 !! report_path
       = Some content).
Proof.
  intros report_path. split; [|split].
  - intros nwbfile_path w Hexists. by apply inspector_step_report_exists.
  - intros nwbfile_path w i p msgs.
    unfold inspector_step, new_calls, bind, emit, read_file, lift, path_exists.
    simpl. fold report_path.
    destruct (inspect_nwbfile C nwbfile_path (files w !! nwbfile_path)); simpl;
      [|rewrite drop_app_length; by destruct i as [|[|i]]].
    case_bool_decide as Hreport; simpl;
      [rewrite drop_app_length; by destruct i as [|[|i]]|].
    assert (files w !! report_path = None) as Hnone.
    { destruct (files w !! report_path) eqn:E; [|done]. destruct Hreport. eauto. }
    destruct (save_report C _ _); simpl;
      rewrite <- app_assoc, drop_app_length;
      destruct i as [|[|[|i]]]; simpl; intros [= <- <-] || discriminate; done.
  - intros data_table_path folder_path subject_ids stub_test overwrite w content
      Hcontent.
    rewrite <- Hcontent.
    apply (driver_respects C data_table_path folder_path nwbfile_folder_path
             subject_ids stub_test
             (keeps_existing (is_nwbfile_path nwbfile_folder_path)) overwrite).
    + intros desc total. apply emit_keeps_existing.
    + intros subjects_table group. apply body_keeps_existing.
    + apply report_path_not_nwbfile_path.
    + rewrite Hcontent. eauto.
Qed.

(** C8 on the fixture session: the report exists, the output is converted
    again with overwrite, and the earlier report is still there. *)
Lemma qa_report_never_overwritten_witness :
  let report_path := session_report_path Fixture.nwbfile_folder_path "UG27" "240214" in
  let batch := convert_all_dual_wavelength_sessions Fixture.standard
                 Fixture.data_table_path Fixture.folder_path
                 Fixture.nwbfile_folder_path ["UG27"%string] false true
                 Fixture.converted in
  files Fixture.converted !! report_path = Some (ReportContent ["earlier report"%string]) ∧
  is_write <$> new_calls Fixture.converted batch.2 =
    [false; false; false; false; false; false; false; true; false; false] ∧
  files batch.2 !! report_path = Some (ReportContent ["earlier report"%string]).
Proof.
  intros report_path batch.
  assert (files Fixture.converted !! report_path
            = Some (ReportContent ["earlier report"%string])) as Hreport
    by (vm_compute; reflexivity).
  split; [exact Hreport|]. split; [vm_compute; reflexivity|].
  exact (proj2 (proj2 (qa_report_never_overwritten Fixture.standard
                         Fixture.nwbfile_folder_path "UG27" "240214"))
           Fixture.data_table_path Fixture.folder_path ["UG27"%string] false true
           Fixture.converted _ Hreport).
Defined.

(* ===================================================================== *)
(** * Further properties: the source configuration *)
(* ===================================================================== *)

Set Warnings "-clear-no-such-hyp".

Lemma accepted_indices_from (k : nat) (fibers : list (gmap string pyval))
    (l : list nat) :
  accepted_indices (imap (λ i x, ((k + i)%nat, x)) fibers) = Return l →
  (∀ j, j ∈ l ↔ ∃ i fiber included,
                  j = (k + i)%nat ∧ fibers !! i = Some fiber ∧
                  fiber !! "included" = Some included ∧ truthy included = true) ∧
  StronglySorted lt l ∧
  Forall (λ j, (k ≤ j)%nat) l ∧
  Forall (λ fiber : gmap string pyval, is_Some (fiber !! "included")) fibers.
Proof.
  revert k l. induction fibers as [|fiber fibers IH]; intros k l H.
  - injection H as <-. split; [|by repeat constructor].
    intros j. split; [by intros ?%elem_of_nil|].
    by intros (i & f & inc & _ & ? & _).
  - rewrite imap_cons in H. simpl in H.
    apply obind_Return in H as (included & Hincluded & H).
    apply getitem_Return in Hincluded.
    apply obind_Return in H as (rest & Hrest & H).
    rewrite (imap_ext _ (λ i x, ((S k + i)%nat, x))) in Hrest
      by (intros i x _; simpl; f_equal; lia).
    destruct (IH _ _ Hrest) as (Hmem & Hsorted & Hbound & Hall).
    assert (∀ j, j ∈ rest → (k < j)%nat) as Hlt.
    { intros j Hj. rewrite Forall_forall in Hbound. specialize (Hbound j Hj). lia. }
    injection H as <-.
    split; [|split; [|split]].
    + intros j.
      assert (j ∈ (if truthy included then (k + 0)%nat :: rest else rest) ↔
              (j = k ∧ truthy included = true) ∨ j ∈ rest) as ->.
      { destruct (truthy included); rewrite ?elem_of_cons, ?Nat.add_0_r; naive_solver. }
      rewrite Hmem. split.
      * intros [[-> Htruthy] | (i & f & inc & -> & Hi & Hinc & Htruthy)].
        -- exists 0%nat, fiber, included. rewrite Nat.add_0_r. done.
        -- exists (S i), f, inc. split; [lia | done].
      * intros (i & f & inc & -> & Hi & Hinc & Htruthy).
        destruct i as [|i]; simpl in Hi.
        -- left. injection Hi as <-. rewrite Hincluded in Hinc.
           injection Hinc as <-. split; [lia | done].
        -- right. exists i, f, inc. split; [lia | done].
    + destruct (truthy included); [|done].
      constructor; [done|]. rewrite Forall_forall. intros j Hj.
      specialize (Hlt j Hj). lia.
    + destruct (truthy included).
      * constructor; [lia|]. eapply Forall_impl; [exact Hbound|]. simpl. lia.
      * eapply Forall_impl; [exact Hbound|]. simpl. lia.
    + constructor; [eauto | done].
Qed.

Lemma accepted_indices_missing_field (g : nat → nat)
    (fibers : list (gmap string pyval)) :
  (∃ fiber, fiber ∈ fibers ∧ fiber !! "included" = None) →
  accepted_indices (imap (λ i x, (g i, x)) fibers) = Raise (KeyError (PStr "included")).
Proof.
  revert g. induction fibers as [|fiber' fibers IH]; intros g (fiber & Hin & Hnone).
  - by apply elem_of_nil in Hin.
  - rewrite imap_cons. simpl. unfold getitem.
    destruct (fiber' !! "included") as [included|] eqn:Hincluded; [|done].
    simpl. change (imap ((λ i x, (g i, x)) ∘ S) fibers)
             with (imap (λ i x, ((g ∘ S) i, x)) fibers).
    rewrite IH; [done|].
    apply elem_of_cons in Hin as [-> | Hin]; [congruence | eauto].
Qed.

(** X1: when every entry of the fiber table has an [included] field, the
    accepted ROI list is exactly the positions of the entries whose
    [included] is true, in increasing order; when some entry has no
    [included] field, the list comprehension raises [KeyError('included')]. *)
Theorem accepted_list_is_the_included_positions (fibers : list (gmap string pyval)) :
  (∀ l, accepted_indices (enumerate fibers) = Return l →
        (∀ i, i ∈ l ↔ ∃ fiber included,
                        fibers !! i = Some fiber ∧
                        fiber !! "included" = Some included ∧
                        truthy included = true) ∧
        StronglySorted lt l) ∧
  ((∃ fiber, fiber ∈ fibers ∧ fiber !! "included" = None) →
   accepted_indices (enumerate fibers) = Raise (KeyError (PStr "included"))).
Proof.
  split.
  - intros l H. unfold enumerate in H.
    destruct (accepted_indices_from 0 fibers l H) as (Hmem & Hsorted & _).
    split; [|done]. intros i. rewrite Hmem. naive_solver.
  - intros Hmissing. by apply (accepted_indices_missing_field id).
Qed.

(** X1 on the fixture fiber table: entries 0 and 2 are included. *)
Lemma accepted_list_is_the_included_positions_witness :
  accepted_indices (enumerate Fixture.fiber_table) = Return [0; 2]%nat ∧
  (2%nat ∈ [0; 2]%nat ↔
     ∃ fiber included,
       Fixture.fiber_table !! 2%nat = Some fiber ∧
       fiber !! "included" = Some included ∧ truthy included = true) ∧
  accepted_indices (enumerate [ ({[ "location" := PStr "DMS" ]} : gmap string pyval) ])
    = Raise (KeyError (PStr "included")).
Proof.
  assert (accepted_indices (enumerate Fixture.fiber_table) = Return [0; 2]%nat) as H
    by (vm_compute; reflexivity).
  split; [exact H|]. split.
  - exact (proj1 (proj1 (accepted_list_is_the_included_positions Fixture.fiber_table)
                    _ H) 2%nat).
  - apply (proj2 (accepted_list_is_the_included_positions _)).
    exists {[ "location" := PStr "DMS" ]}. split; [by left | vm_compute; reflexivity].
Defined.

Section SourceConfiguration.

Variable C : Collaborators.

(** A successful [single_source_data], read backwards: the two dicts as
    lines 82-134 leave them. *)
Lemma single_source_data_Return (a : SingleArgs.t)
    (r : gmap string (gmap string pyval) * gmap string (gmap string pyval)) :
  single_source_data C a = Return r →
  ∃ frame_indices fibers accepted,
    get_fiber_locations C (SingleArgs.fiber_locations_file_path a) = Return fibers ∧
    accepted_indices (enumerate fibers) = Return accepted ∧
    let stub_test := PBool (SingleArgs.stub_test a) in
    let imaging0 : gmap string pyval :=
      {[ "file_path" := PStr (path_str (SingleArgs.raw_imaging_file_path a));
         "frame_indices" := PList (fmap (M:=list) PInt frame_indices) ]} in
    let imaging : gmap string pyval :=
      match SingleArgs.sampling_frequency a with
      | PNone => imaging0
      | sampling_frequency => <["sampling_frequency" := sampling_frequency]> imaging0
      end in
    let photometry : gmap string pyval :=
      {[ "file_path" := PStr (path_str (SingleArgs.processed_data_file_path a));
         "data_field" := PStr (SingleArgs.fiber_photometry_field a);
         "ttl_file_path" := PStr (path_str (SingleArgs.ttl_file_path a));
         "ttl_stream_name" := PStr (SingleArgs.ttl_stream_name a) ]} in
    let segmentation : gmap string pyval :=
      {[ "file_path" := PStr (path_str (SingleArgs.processed_data_file_path a));
         "data_field" := PStr (SingleArgs.fiber_photometry_field a);
         "sampling_frequency" := SingleArgs.sampling_frequency a;
         "accepted_list" :=
           PList (fmap (M:=list) (λ i : nat, PInt (Z.of_nat i)) accepted) ]} in
    let source_data : gmap string (gmap string pyval) :=
      <["Segmentation" := segmentation]>
        (<["FiberPhotometry" := photometry]> (<["Imaging" := imaging]> ∅)) in
    let conversion_options : gmap string (gmap string pyval) :=
      <["Segmentation" := {[ "stub_test" := stub_test ]}]>
        (<["FiberPhotometry" :=
             {[ "stub_test" := stub_test;
                "fiber_locations_metadata" := PList (fmap (M:=list) PDict fibers) ]}]>
           (<["FiberPhotometry" := {[ "stub_test" := stub_test ]}]>
              (<["Imaging" := {[ "stub_test" := stub_test;
                                 "photon_series_type" := PStr "OnePhotonSeries";
                                 "photon_series_index" := PInt 0 ]}]> ∅))) in
    r = match SingleArgs.behavior_field a with
        | Some behavior_field =>
            (<["Behavior" :=
                 {[ "file_path" :=
                      PStr (path_str (SingleArgs.processed_data_file_path a));
                    "data_field" := PStr behavior_field ]}]> source_data,
             <["Behavior" := {[ "stub_test" := stub_test ]}]> conversion_options)
        | None => (source_data, conversion_options)
        end.
Proof.
  unfold single_source_data. intros H.
  apply obind_Return in H as (mat & _ & H).
  apply obind_Return in H as (index_pair & _ & H).
  apply obind_Return in H as (start & _ & H).
  apply obind_Return in H as (stop & _ & H).
  apply obind_Return in H as (fibers & Hfibers & H).
  apply obind_Return in H as (accepted & Haccepted & H).
  exists (np_arange (start - 1) stop), fibers, accepted.
  split; [done|]. split; [done|].
  destruct (SingleArgs.behavior_field a); by injection H as <-.
Qed.

(** X2: the source configuration and the conversion options of an
    assembler call describe the same streams: [Imaging],
    [FiberPhotometry] and [Segmentation], and [Behavior] exactly when a
    behavior field was given; every stream's conversion options carry the
    [stub_test] flag of the call. *)
Theorem configuration_and_options_name_the_same_streams (a : SingleArgs.t)
    (r : gmap string (gmap string pyval) * gmap string (gmap string pyval)) :
  single_source_data C a = Return r →
  dom r.1 = dom r.2 ∧
  dom r.1 = {[ "Imaging"; "FiberPhotometry"; "Segmentation" ]} ∪
            match SingleArgs.behavior_field a with
            | Some _ => {[ "Behavior" ]}
            | None => ∅
            end ∧
  ∀ name options,
    r.2 !! name = Some options →
    options !! "stub_test" = Some (PBool (SingleArgs.stub_test a)).
Proof.
  intros H.
  apply single_source_data_Return in H as (fi & fibers & accepted & _ & _ & ->).
  cbv zeta.
  destruct (SingleArgs.behavior_field a) as [behavior_field|]; simpl.
  - split; [|split].
    + rewrite !dom_insert_L, !dom_empty_L. set_solver.
    + rewrite !dom_insert_L, !dom_empty_L. set_solver.
    + intros name options Hname.
      repeat (apply lookup_insert_Some in Hname as [[_ <-] | [_ Hname]];
              [by simplify_map_eq|]).
      by rewrite lookup_empty in Hname.
  - split; [|split].
    + rewrite !dom_insert_L, !dom_empty_L. set_solver.
    + rewrite !dom_insert_L, !dom_empty_L. set_solver.
    + intros name options Hname.
      repeat (apply lookup_insert_Some in Hname as [[_ <-] | [_ Hname]];
              [by simplify_map_eq|]).
      by rewrite lookup_empty in Hname.
Qed.

End SourceConfiguration.

Section SourceStreams.

Variable C : Collaborators.

(** X3: the [Segmentation] stream is configured from the same file and
    data field as the [FiberPhotometry] stream, and from the same fiber
    table: the table loaded from [fiber_locations_file_path] is handed to
    the [FiberPhotometry] conversion options as it is, and the accepted
    ROIs of [Segmentation] are the positions of its included entries. *)
Theorem segmentation_follows_the_fiber_table (a : SingleArgs.t)
    (r : gmap string (gmap string pyval) * gmap string (gmap string pyval)) :
  single_source_data C a = Return r →
  ∃ fibers accepted photometry segmentation options,
    get_fiber_locations C (SingleArgs.fiber_locations_file_path a) = Return fibers ∧
    r.1 !! "FiberPhotometry" = Some photometry ∧
    r.1 !! "Segmentation" = Some segmentation ∧
    r.2 !! "FiberPhotometry" = Some options ∧
    options !! "fiber_locations_metadata" = Some (PList (PDict <$> fibers)) ∧
    segmentation !! "accepted_list" =
      Some (PList ((λ i : nat, PInt (Z.of_nat i)) <$> accepted)) ∧
    (∀ i, i ∈ accepted ↔ ∃ fiber included,
                            fibers !! i = Some fiber ∧
                            fiber !! "included" = Some included ∧
                            truthy included = true) ∧
    segmentation !! "file_path" = photometry !! "file_path" ∧
    segmentation !! "data_field" = photometry !! "data_field".
Proof.
  intros H.
  apply single_source_data_Return in H
    as (fi & fibers & accepted & Hfibers & Haccepted & ->).
  cbv zeta.
  unfold enumerate in Haccepted.
  destruct (accepted_indices_from 0 fibers accepted Haccepted) as (Hmem & _).
  eexists fibers, accepted, _, _, _.
  split; [done|].
  destruct (SingleArgs.behavior_field a) as [behavior_field|]; simpl.
  - do 3 (split; [by simplify_map_eq|]).
    do 2 (split; [by simplify_map_eq|]).
    split; [|by simplify_map_eq].
    intros i. rewrite Hmem. naive_solver.
  - do 3 (split; [by simplify_map_eq|]).
    do 2 (split; [by simplify_map_eq|]).
    split; [|by simplify_map_eq].
    intros i. rewrite Hmem. naive_solver.
Qed.

(** X4: the sampling frequency reaches the two streams differently: the
    [Imaging] configuration has a [sampling_frequency] entry only when the
    argument is not [None], the [Segmentation] configuration always has
    one, [None] included. *)
Theorem imaging_sampling_frequency_is_optional (a : SingleArgs.t)
    (r : gmap string (gmap string pyval) * gmap string (gmap string pyval)) :
  single_source_data C a = Return r →
  ∃ imaging segmentation,
    r.1 !! "Imaging" = Some imaging ∧
    r.1 !! "Segmentation" = Some segmentation ∧
    (SingleArgs.sampling_frequency a = PNone →
     imaging !! "sampling_frequency" = None) ∧
    (SingleArgs.sampling_frequency a ≠ PNone →
     imaging !! "sampling_frequency" = Some (SingleArgs.sampling_frequency a)) ∧
    segmentation !! "sampling_frequency" = Some (SingleArgs.sampling_frequency a).
Proof.
  intros H.
  apply single_source_data_Return in H as (fi & fibers & accepted & _ & _ & ->).
  cbv zeta. eexists _, _.
  destruct (SingleArgs.behavior_field a) as [behavior_field|]; simpl.
  - do 2 (split; [by simplify_map_eq|]).
    split; [|split; [|by simplify_map_eq]].
    + intros ->. by simplify_map_eq.
    + intros Hsf. destruct (SingleArgs.sampling_frequency a); by simplify_map_eq.
  - do 2 (split; [by simplify_map_eq|]).
    split; [|split; [|by simplify_map_eq]].
    + intros ->. by simplify_map_eq.
    + intros Hsf. destruct (SingleArgs.sampling_frequency a); by simplify_map_eq.
Qed.

(** X5: when the processed-data struct has no entry for the index field,
    the assembler fails with [KeyError(index_field)]; when the entry is an
    array of fewer than two numbers, it fails with [IndexError]; in both
    cases before the converter is built: nothing but the entry into the
    call is logged and no file changes. *)
Theorem unusable_index_field_fails_before_converter (a : SingleArgs.t)
    (w : world) (mat : gmap string pyval) :
  read_mat C (SingleArgs.processed_data_file_path a)
    (Some (SingleArgs.index_field a)) = Return mat →
  (mat !! SingleArgs.index_field a = None →
   single_wavelength_session_to_nwb C a w =
     (Raise (KeyError (PStr (SingleArgs.index_field a))),
      entered w (Call_single_wavelength_session_to_nwb a))) ∧
  (∀ bounds : list Z,
     mat !! SingleArgs.index_field a = Some (PList (PInt <$> bounds)) →
     (length bounds < 2)%nat →
     single_wavelength_session_to_nwb C a w =
       (Raise IndexError, entered w (Call_single_wavelength_session_to_nwb a))).
Proof.
  intros Hmat. split.
  - intros Hnone. apply single_fails_early. left.
    unfold single_source_data. rewrite Hmat. simpl.
    unfold getitem. by rewrite Hnone.
  - intros bounds Hsome Hlen. apply single_fails_early. left.
    unfold single_source_data. rewrite Hmat. simpl.
    unfold getitem. rewrite Hsome. simpl.
    destruct bounds as [|s [|e bounds]]; simpl in *; [done | done | lia].
Qed.

End SourceStreams.

(** X2 on the fixture call, which has a behavior field. *)
Lemma configuration_and_options_name_the_same_streams_witness :
  let r := unwrap (∅, ∅) (single_source_data Fixture.standard Fixture.single_args) in
  single_source_data Fixture.standard Fixture.single_args = Return r ∧
  dom r.1 = dom r.2 ∧
  dom r.1 = {[ "Imaging"; "FiberPhotometry"; "Segmentation" ]} ∪ {[ "Behavior" ]} ∧
  ∀ name options,
    r.2 !! name = Some options → options !! "stub_test" = Some (PBool false).
Proof.
  intros r.
  assert (single_source_data Fixture.standard Fixture.single_args = Return r) as H
    by (apply unwrap_Return; vm_compute; reflexivity).
  split; [exact H|].
  exact (configuration_and_options_name_the_same_streams Fixture.standard
           Fixture.single_args r H).
Defined.

(** X3 on the fixture call. *)
Lemma segmentation_follows_the_fiber_table_witness :
  let r := unwrap (∅, ∅) (single_source_data Fixture.standard Fixture.single_args) in
  single_source_data Fixture.standard Fixture.single_args = Return r ∧
  ∃ fibers accepted photometry segmentation options,
    get_fiber_locations Fixture.standard
      (SingleArgs.fiber_locations_file_path Fixture.single_args) = Return fibers ∧
    r.1 !! "FiberPhotometry" = Some photometry ∧
    r.1 !! "Segmentation" = Some segmentation ∧
    r.2 !! "FiberPhotometry" = Some options ∧
    options !! "fiber_locations_metadata" = Some (PList (PDict <$> fibers)) ∧
    segmentation !! "accepted_list" =
      Some (PList ((λ i : nat, PInt (Z.of_nat i)) <$> accepted)) ∧
    (∀ i, i ∈ accepted ↔ ∃ fiber included,
                            fibers !! i = Some fiber ∧
                            fiber !! "included" = Some included ∧
                            truthy included = true) ∧
    segmentation !! "file_path" = photometry !! "file_path" ∧
    segmentation !! "data_field" = photometry !! "data_field".
Proof.
  intros r.
  assert (single_source_data Fixture.standard Fixture.single_args = Return r) as H
    by (apply unwrap_Return; vm_compute; reflexivity).
  split; [exact H|].
  exact (segmentation_follows_the_fiber_table Fixture.standard Fixture.single_args r H).
Defined.

(** X4 on the fixture call, whose sampling frequency is 18. *)
Lemma imaging_sampling_frequency_is_optional_witness :
  let r := unwrap (∅, ∅) (single_source_data Fixture.standard Fixture.single_args) in
  single_source_data Fixture.standard Fixture.single_args = Return r ∧
  ∃ imaging segmentation,
    r.1 !! "Imaging" = Some imaging ∧
    r.1 !! "Segmentation" = Some segmentation ∧
    imaging !! "sampling_frequency" = Some (PInt 18) ∧
    segmentation !! "sampling_frequency" = Some (PInt 18).
Proof.
  intros r.
  assert (single_source_data Fixture.standard Fixture.single_args = Return r) as H
    by (apply unwrap_Return; vm_compute; reflexivity).
  split; [exact H|].
  destruct (imaging_sampling_frequency_is_optional Fixture.standard
              Fixture.single_args r H)
    as (imaging & segmentation & Himaging & Hsegmentation & _ & Hsome & Halways).
  exists imaging, segmentation.
  split; [exact Himaging|]. split; [exact Hsegmentation|].
  split; [apply Hsome; discriminate | exact Halways].
Defined.

(** X5 on the fixture: a call that names an index field the struct does
    not have, and a struct whose index field holds one number. *)
Lemma unusable_index_field_fails_before_converter_witness :
  single_wavelength_session_to_nwb Fixture.standard
    (with_index_field Fixture.single_args "Cal_idx") Fixture.fresh =
    (Raise (KeyError (PStr "Cal_idx")),
     entered Fixture.fresh
       (Call_single_wavelength_session_to_nwb
          (with_index_field Fixture.single_args "Cal_idx"))) ∧
  single_wavelength_session_to_nwb
    (Fixture.collaborators [Fixture.UG27_240214] Fixture.mice
       (PList [PInt 1]) (PList [PInt 2; PInt 6]))
    Fixture.single_args Fixture.fresh =
    (Raise IndexError,
     entered Fixture.fresh (Call_single_wavelength_session_to_nwb Fixture.single_args)).
Proof.
  split.
  - apply (proj1 (unusable_index_field_fails_before_converter Fixture.standard
                    (with_index_field Fixture.single_args "Cal_idx") Fixture.fresh
                    (Fixture.processed_data (PList [PInt 1; PInt 5])
                       (PList [PInt 2; PInt 6])) eq_refl)).
    vm_compute; reflexivity.
  - apply (proj2 (unusable_index_field_fails_before_converter
                    (Fixture.collaborators [Fixture.UG27_240214] Fixture.mice
                       (PList [PInt 1]) (PList [PInt 2; PInt 6]))
                    Fixture.single_args Fixture.fresh
                    (Fixture.processed_data (PList [PInt 1]) (PList [PInt 2; PInt 6]))
                    eq_refl) [1]).
    + vm_compute; reflexivity.
    + simpl. lia.
Defined.

(* ===================================================================== *)
(** * Further properties: runs of the assemblers and of the batch driver *)
(* ===================================================================== *)

Global Instance changes_only_preorder (Q : path → Prop) : PreOrder (changes_only Q).
Proof.
  split.
  - intros w p _. reflexivity.
  - intros w1 w2 w3 H12 H23 p Hq. by rewrite H23, H12.
Qed.

Lemma emit_changes_only (Q : path → Prop) (ev : event) :
  respects (changes_only Q) (emit ev).
Proof. intros w p _. reflexivity. Qed.

Lemma write_file_changes_only (Q : path → Prop) (p : path) (c : file_content) :
  Q p → respects (changes_only Q) (write_file p c).
Proof.
  intros Hq w p' Hq'. simpl. apply lookup_insert_ne. intros ->. by apply Hq'.
Qed.

Ltac frame_walk :=
  repeat first [ apply emit_changes_only | progress respects_walk ].

(** The continuation of a bind runs on what some run of the first part
    returned. *)
Lemma respects_bind_Return (R : world → world → Prop) `{!PreOrder R}
    {A B} (m : M A) (k : A → M B) :
  respects R m →
  (∀ a, (∃ w, (m w).1 = Return a) → respects R (k a)) →
  respects R (bind m k).
Proof.
  intros Hm Hk w. unfold bind.
  pose proof (Hm w) as Hw.
  destruct (m w) as [[a|e] w1] eqn:E; simpl in *.
  - etrans; [exact Hw|]. apply Hk. exists w. by rewrite E.
  - exact Hw.
Qed.

Lemma respects_for_each_in (R : world → world → Prop) `{!PreOrder R}
    {A} (xs : list A) (body : A → M unit) :
  (∀ x, x ∈ xs → respects R (body x)) → respects R (for_each xs body).
Proof.
  induction xs as [|x xs IH]; intros Hbody; simpl.
  - apply respects_ret, _.
  - apply respects_bind; [apply _ | apply Hbody; left | intros _].
    apply IH. intros y Hy. apply Hbody. by right.
Qed.

Lemma log_extends_mono (P Q : event → Prop) (w w' : world) :
  (∀ ev, P ev → Q ev) → log_extends P w w' → log_extends Q w w'.
Proof.
  intros HPQ (evs & E & F). exists evs. split; [done|].
  eapply Forall_impl; [exact F | exact HPQ].
Qed.

Lemma respects_log_extends_mono (P Q : event → Prop) {A} (m : M A) :
  (∀ ev, P ev → Q ev) → respects (log_extends P) m → respects (log_extends Q) m.
Proof. intros HPQ Hm w. eapply log_extends_mono; [exact HPQ | apply Hm]. Qed.

Section AssemblerRuns.

Variable C : Collaborators.

Lemma single_changes_only (Q : path → Prop) (a : SingleArgs.t) :
  (∀ p, SingleArgs.nwbfile_path a = Some p → Q p) →
  respects (changes_only Q) (single_wavelength_session_to_nwb C a).
Proof.
  intros HQ. unfold single_wavelength_session_to_nwb.
  destruct (SingleArgs.nwbfile_path a) as [p|]; frame_walk.
  apply write_file_changes_only. by apply HQ.
Qed.

Lemma dual_changes_only (Q : path → Prop) (a : DualArgs.t) :
  Q (DualArgs.nwbfile_path a) →
  respects (changes_only Q) (dual_wavelength_session_to_nwb C a).
Proof.
  intros HQ. unfold dual_wavelength_session_to_nwb.
  apply respects_bind; [apply _ | apply emit_changes_only | intros _].
  apply respects_bind; [apply _ | apply respects_lift, _ | intros r].
  apply respects_bind_lift; [apply _ | intros a1 Ha1].
  apply respects_bind; [apply _ | | intros nwbfile].
  { apply single_changes_only. intros p Hp.
    destruct (first_call_args_Return _ _ _ _ Ha1) as (_ & Hnone & _). congruence. }
  apply respects_bind_lift; [apply _ | intros a2 Ha2].
  apply respects_bind; [apply _ | | intros _; apply respects_ret, _].
  apply single_changes_only. intros p Hp.
  destruct (second_call_args_Return _ _ _ _ _ Ha2) as (_ & Hpath & _). congruence.
Qed.

(** The handle block of lines 197-205 returns the assembled handle. *)
Lemma single_log_events (a : SingleArgs.t) :
  respects (log_extends (assembler_event C a)) (single_wavelength_session_to_nwb C a).
Proof.
  unfold single_wavelength_session_to_nwb.
  apply respects_bind; [apply _ | apply emit_log_extends; by left | intros _].
  apply respects_bind_lift; [apply _ | intros r Hr].
  apply respects_bind_lift; [apply _ | intros md Hmd].
  apply respects_bind_Return; [apply _ | |].
  - destruct (SingleArgs.nwbfile a) as [nwbfile0|] eqn:Hnwb.
    + apply respects_bind; [apply _ | | intros _; respects_walk].
      apply emit_log_extends. right. exists r, md.
      split; [done|]. split; [done|]. left.
      unfold assembled_stream_set. by rewrite Hnwb.
    + apply respects_bind; [apply _ | | intros _; respects_walk].
      apply emit_log_extends. right. exists r, md.
      split; [done|]. split; [done|]. left.
      unfold assembled_stream_set. by rewrite Hnwb.
  - intros nwbfile (w & Hw).
    assert (nwbfile = assembled_handle a (assembled_stream_set a r.1 r.2 md)) as ->.
    { unfold assembled_handle, assembled_stream_set.
      destruct (SingleArgs.nwbfile a) as [nwbfile0|];
        unfold bind, emit, lift, ret in Hw; simpl in Hw.
      - destruct (converter_add_to_nwbfile C _ _); simpl in Hw; congruence.
      - destruct (converter_create_nwbfile C _); simpl in Hw; congruence. }
    destruct (SingleArgs.nwbfile_path a) as [p|] eqn:Hpath; [|apply respects_ret, _].
    apply respects_bind; [apply _ | | intros _; respects_walk].
    apply emit_log_extends. right. exists r, md.
    split; [done|]. split; [done|]. right. by exists p.
Qed.

Lemma dual_log_events (a : DualArgs.t) :
  respects (log_extends (dual_event C a)) (dual_wavelength_session_to_nwb C a).
Proof.
  unfold dual_wavelength_session_to_nwb.
  apply respects_bind; [apply _ | apply emit_log_extends; by left | intros _].
  apply respects_bind_lift; [apply _ | intros r Hr].
  apply respects_bind_lift; [apply _ | intros a1 Ha1].
  apply respects_bind_Return; [apply _ | |].
  - eapply respects_log_extends_mono; [|apply single_log_events].
    intros ev Hev. right. exists r, a1. split; [done|]. split; [by left | done].
  - intros nwbfile (w & Hw).
    apply run_Return in Hw.
    apply single_Return in Hw as (sd1 & co1 & md1 & _ & _ & Hw).
    destruct (first_call_args_Return _ _ _ _ Ha1) as (Hnwb1 & Hpath1 & _).
    rewrite Hpath1 in Hw. simpl in Hw. destruct Hw as (-> & _).
    unfold assembled_handle. rewrite Hnwb1.
    apply respects_bind_lift; [apply _ | intros a2 Ha2].
    apply respects_bind; [apply _ | | intros _; apply respects_ret, _].
    eapply respects_log_extends_mono; [|apply single_log_events].
    intros ev Hev. right. exists r, a2. split; [done|]. split; [|done].
    right. eauto.
Qed.

End AssemblerRuns.

Lemma first_call_args_fields (a : DualArgs.t) (fi : list Z) (t : pyval)
    (a1 : SingleArgs.t) :
  first_call_args a fi t = Return a1 →
  DualArgs.raw_imaging_file_paths a !! 0%nat = Some (SingleArgs.raw_imaging_file_path a1) ∧
  DualArgs.fiber_photometry_fields a !! 0%nat = Some (SingleArgs.fiber_photometry_field a1) ∧
  DualArgs.behavior_fields a !! 0%nat = SingleArgs.behavior_field a1 ∧
  DualArgs.index_fields a !! 0%nat = Some (SingleArgs.index_field a1) ∧
  DualArgs.excitation_wavelengths_in_nm a !! 0%nat
    = Some (SingleArgs.excitation_wavelength_in_nm a1) ∧
  DualArgs.indicators a !! 0%nat = Some (SingleArgs.indicator a1) ∧
  DualArgs.ttl_stream_names a !! 0%nat = Some (SingleArgs.ttl_stream_name a1) ∧
  SingleArgs.processed_data_file_path a1 = DualArgs.processed_data_file_path a ∧
  SingleArgs.aligned_starting_time a1 = t ∧
  SingleArgs.stub_test a1 = DualArgs.stub_test a.
Proof.
  unfold first_call_args. intros H.
  apply obind_Return in H as (x1 & ?%list_index_Return & H).
  apply obind_Return in H as (x2 & ?%list_index_Return & H).
  apply obind_Return in H as (x3 & ?%list_index_Return & H).
  apply obind_Return in H as (x4 & ?%list_index_Return & H).
  apply obind_Return in H as (x5 & ?%list_index_Return & H).
  apply obind_Return in H as (x6 & ?%list_index_Return & H).
  apply obind_Return in H as (x7 & ?%list_index_Return & H).
  injection H as <-. simpl. done.
Qed.

Lemma second_call_args_fields (a : DualArgs.t) (fi : list Z) (t : pyval)
    (nwbfile : option NWBFile) (a2 : SingleArgs.t) :
  second_call_args a fi t nwbfile = Return a2 →
  DualArgs.raw_imaging_file_paths a !! 1%nat = Some (SingleArgs.raw_imaging_file_path a2) ∧
  DualArgs.fiber_photometry_fields a !! 1%nat = Some (SingleArgs.fiber_photometry_field a2) ∧
  DualArgs.index_fields a !! 1%nat = Some (SingleArgs.index_field a2) ∧
  DualArgs.excitation_wavelengths_in_nm a !! 1%nat
    = Some (SingleArgs.excitation_wavelength_in_nm a2) ∧
  DualArgs.indicators a !! 1%nat = Some (SingleArgs.indicator a2) ∧
  DualArgs.ttl_stream_names a !! 1%nat = Some (SingleArgs.ttl_stream_name a2) ∧
  SingleArgs.processed_data_file_path a2 = DualArgs.processed_data_file_path a ∧
  SingleArgs.aligned_starting_time a2 = t ∧
  SingleArgs.stub_test a2 = DualArgs.stub_test a.
Proof.
  unfold second_call_args. intros H.
  apply obind_Return in H as (x1 & ?%list_index_Return & H).
  apply obind_Return in H as (x2 & ?%list_index_Return & H).
  apply obind_Return in H as (x4 & ?%list_index_Return & H).
  apply obind_Return in H as (x5 & ?%list_index_Return & H).
  apply obind_Return in H as (x6 & ?%list_index_Return & H).
  apply obind_Return in H as (x7 & ?%list_index_Return & H).
  injection H as <-. simpl. done.
Qed.

Section AssemblerProperties.

Variable C : Collaborators.

Lemma single_source_data_entries (a : SingleArgs.t)
    (r : gmap string (gmap string pyval) * gmap string (gmap string pyval)) :
  single_source_data C a = Return r →
  stream_entry r.1 "Imaging" "file_path"
    = Some (PStr (path_str (SingleArgs.raw_imaging_file_path a))) ∧
  stream_entry r.1 "FiberPhotometry" "data_field"
    = Some (PStr (SingleArgs.fiber_photometry_field a)) ∧
  stream_entry r.1 "FiberPhotometry" "ttl_stream_name"
    = Some (PStr (SingleArgs.ttl_stream_name a)) ∧
  stream_entry r.1 "Segmentation" "data_field"
    = Some (PStr (SingleArgs.fiber_photometry_field a)).
Proof.
  intros H.
  apply single_source_data_Return in H as (fi & fibers & accepted & _ & _ & ->).
  cbv zeta. unfold stream_entry.
  destruct (SingleArgs.behavior_field a) as [behavior_field|]; simpl;
    destruct (SingleArgs.sampling_frequency a); by simplify_map_eq.
Qed.

(** Every conversion option of an assembler call has the call's flag. *)
Lemma single_options_stub_test (a : SingleArgs.t)
    (r : gmap string (gmap string pyval) * gmap string (gmap string pyval))
    (name : string) (options : gmap string pyval) :
  single_source_data C a = Return r →
  r.2 !! name = Some options →
  options !! "stub_test" = Some (PBool (SingleArgs.stub_test a)).
Proof.
  intros H.
  apply single_source_data_Return in H as (fi & fibers & accepted & _ & _ & ->).
  cbv zeta.
  destruct (SingleArgs.behavior_field a) as [behavior_field|]; simpl; intros Hname;
    repeat (apply lookup_insert_Some in Hname as [[_ <-] | [_ Hname]];
            [by simplify_map_eq|]);
    by rewrite lookup_empty in Hname.
Qed.

(** X6: an assembler call that returns has assembled one stream set from
    its source configuration and metadata and has appended it to the
    handle it was given (a fresh handle when it was given none), keeping
    the stream sets already there in place; the aligned starting time is
    used only when a handle was given.  The handle is returned when no
    output path was given; otherwise it is written to that path, nothing
    else changes on disk, and the call returns [None]. *)
Theorem assembler_call_appends_one_stream_set (a : SingleArgs.t) (w w' : world)
    (r : option NWBFile) :
  single_wavelength_session_to_nwb C a w = (Return r, w') →
  ∃ s,
    single_source_data C a = Return (ss_source_data s, ss_conversion_options s) ∧
    single_metadata C a (ss_source_data s) = Return (ss_metadata s) ∧
    ss_aligned_starting_time s =
      match SingleArgs.nwbfile a with
      | None => PNone
      | Some _ => SingleArgs.aligned_starting_time a
      end ∧
    let handle := default [] (SingleArgs.nwbfile a) ++ [s] in
    match SingleArgs.nwbfile_path a with
    | None => r = Some handle ∧ files w' = files w
    | Some p => r = None ∧ files w' = <[p := NwbContent handle]> (files w)
    end.
Proof.
  intros H. apply single_Return in H as (sd & co & md & Hsd & Hmd & H).
  exists (assembled_stream_set a sd co md). simpl in *.
  split; [done|]. split; [done|]. split; [done|].
  unfold assembled_handle in H.
  destruct (SingleArgs.nwbfile_path a), (SingleArgs.nwbfile a); simpl; tauto.
Qed.

(** X7: whether they return or fail, the assemblers change no file but
    their output file: the single-wavelength assembler changes at most the
    file at its [nwbfile_path] and no file at all when it has none; the
    dual-wavelength assembler changes at most the file at its
    [nwbfile_path]. *)
Theorem assemblers_change_only_the_output_file :
  (∀ a w, changes_only (λ p, SingleArgs.nwbfile_path a = Some p) w
            (single_wavelength_session_to_nwb C a w).2) ∧
  (∀ a w, SingleArgs.nwbfile_path a = None →
          files (single_wavelength_session_to_nwb C a w).2 = files w) ∧
  (∀ a w, changes_only (λ p, p = DualArgs.nwbfile_path a) w
            (dual_wavelength_session_to_nwb C a w).2).
Proof.
  split; [|split].
  - intros a w. by apply single_changes_only.
  - intros a w Hnone. apply map_eq. intros p.
    apply (single_changes_only C (λ _, False) a); [congruence | tauto].
  - intros a w. by apply dual_changes_only.
Qed.

(** X8: in every run of the dual-wavelength assembler, returning or
    failing, a call of [configure_and_write_nwbfile] is made only for the
    assembler's [nwbfile_path] and only with a handle that holds both
    stream sets: the first assembler call never writes, and a file with
    one channel is never written. *)
Theorem dual_assembler_writes_only_the_complete_file (a : DualArgs.t) (w : world) :
  Forall (λ ev, ∀ nwbfile p,
                  ev = Call_configure_and_write_nwbfile nwbfile p →
                  p = DualArgs.nwbfile_path a ∧ length nwbfile = 2%nat)
    (new_calls w (dual_wavelength_session_to_nwb C a w).2).
Proof.
  apply new_calls_log_extends.
  eapply log_extends_mono; [|apply dual_log_events].
  intros ev [-> | (r & a' & Hr & Ha' & Hev)]; [discriminate|].
  intros nwbfile p ->.
  destruct Hev as [Hev | (r' & md & _ & _ & [Hev | (p' & Hpath & Hev)])];
    [discriminate | by destruct (SingleArgs.nwbfile a') |].
  injection Hev as -> ->.
  destruct Ha' as [Ha1 | (s1 & Ha2)].
  - destruct (first_call_args_Return _ _ _ _ Ha1) as (_ & Hnone & _). congruence.
  - destruct (second_call_args_Return _ _ _ _ _ Ha2) as (Hnwb & Hsome & _).
    unfold assembled_handle. rewrite Hnwb. split; [congruence | done].
Qed.

(** X9: the parallel lists of the dual-wavelength assembler are paired
    by position: in the file a conversion writes, stream set [i] (0 or 1)
    is configured with raw imaging file [i], photometry field [i] (for
    both [FiberPhotometry] and [Segmentation]) and TTL stream name [i]. *)
Theorem dual_channels_are_paired_by_position (a : DualArgs.t) (w w' : world) :
  dual_wavelength_session_to_nwb C a w = (Return (), w') →
  ∃ s1 s2,
    files w' !! DualArgs.nwbfile_path a = Some (NwbContent [s1; s2]) ∧
    (∀ (i : nat) s, [s1; s2] !! i = Some s →
       stream_entry (ss_source_data s) "Imaging" "file_path"
         = PStr ∘ path_str <$> DualArgs.raw_imaging_file_paths a !! i ∧
       stream_entry (ss_source_data s) "FiberPhotometry" "data_field"
         = PStr <$> DualArgs.fiber_photometry_fields a !! i ∧
       stream_entry (ss_source_data s) "Segmentation" "data_field"
         = PStr <$> DualArgs.fiber_photometry_fields a !! i ∧
       stream_entry (ss_source_data s) "FiberPhotometry" "ttl_stream_name"
         = PStr <$> DualArgs.ttl_stream_names a !! i).
Proof.
  intros H. apply dual_Return in H
    as (r & a1 & a2 & r1 & md1 & r2 & md2 & Hr & Ha1 & Hsd1 & Hsd2 & Ha2 & Hfiles & _).
  simpl in *.
  eexists _, _. split; [by rewrite Hfiles, lookup_insert_eq|].
  destruct (first_call_args_fields _ _ _ _ Ha1)
    as (Hraw1 & Hfield1 & _ & _ & _ & _ & Httl1 & _).
  destruct (second_call_args_fields _ _ _ _ _ Ha2)
    as (Hraw2 & Hfield2 & _ & _ & _ & Httl2 & _).
  destruct (single_source_data_entries a1 r1 Hsd1) as (E1 & E2 & E3 & E4).
  destruct (single_source_data_entries a2 r2 Hsd2) as (F1 & F2 & F3 & F4).
  intros [|[|i]] s Hs; simpl in Hs; [| |done]; injection Hs as <-; simpl.
  - by rewrite Hraw1, Hfield1, Httl1, E1, E2, E3, E4.
  - by rewrite Hraw2, Hfield2, Httl2, F1, F2, F3, F4.
Qed.

End AssemblerProperties.

Section AssemblerProperties2.

Variable C : Collaborators.

Lemma dual_frame_alignment_starting_times (a : DualArgs.t)
    (r : (list Z * pyval) * (list Z * pyval)) :
  dual_frame_alignment C a = Return r →
  ∃ mat,
    read_mat C (DualArgs.processed_data_file_path a) None = Return mat ∧
    (∃ behavior_field behavior_data timestamps,
       DualArgs.behavior_fields a !! 0%nat = Some behavior_field ∧
       mat !! behavior_field = Some behavior_data ∧
       pv_getitem behavior_data "timestamp" = Return timestamps ∧
       pv_index timestamps 0 = Return r.1.2) ∧
    (∃ behavior_field behavior_data timestamps,
       DualArgs.behavior_fields a !! 1%nat = Some behavior_field ∧
       mat !! behavior_field = Some behavior_data ∧
       pv_getitem behavior_data "timestamp" = Return timestamps ∧
       pv_index timestamps 0 = Return r.2.2).
Proof.
  unfold dual_frame_alignment. intros H.
  apply obind_Return in H as (mat & Hmat & H).
  apply obind_Return in H as (behavior1 & Hb1 & H).
  apply obind_Return in H as (start1 & _ & H).
  apply obind_Return in H as (stop1 & _ & H).
  apply obind_Return in H as (time1 & Ht1 & H).
  apply obind_Return in H as (behavior2 & Hb2 & H).
  apply obind_Return in H as (start2 & _ & H).
  apply obind_Return in H as (stop2 & _ & H).
  apply obind_Return in H as (time2 & Ht2 & H).
  injection H as <-. simpl.
  apply obind_Return in Hb1 as (f1 & Hf1%list_index_Return & Hb1%getitem_Return).
  apply obind_Return in Hb2 as (f2 & Hf2%list_index_Return & Hb2%getitem_Return).
  apply obind_Return in Ht1 as (ts1 & Hts1 & Ht1).
  apply obind_Return in Ht2 as (ts2 & Hts2 & Ht2).
  exists mat. split; [done|]. split.
  - by exists f1, behavior1, ts1.
  - by exists f2, behavior2, ts2.
Qed.

(** X10: in the file a dual-wavelength conversion writes, the first
    stream set is created without an aligned starting time (the one
    computed for the first channel is not used), and the second is added
    at the first timestamp of the second behavior field of the
    processed-data struct. *)
Theorem second_channel_is_aligned_to_its_first_timestamp (a : DualArgs.t)
    (w w' : world) :
  dual_wavelength_session_to_nwb C a w = (Return (), w') →
  ∃ s1 s2 mat behavior_field behavior_data timestamps,
    files w' !! DualArgs.nwbfile_path a = Some (NwbContent [s1; s2]) ∧
    ss_aligned_starting_time s1 = PNone ∧
    read_mat C (DualArgs.processed_data_file_path a) None = Return mat ∧
    DualArgs.behavior_fields a !! 1%nat = Some behavior_field ∧
    mat !! behavior_field = Some behavior_data ∧
    pv_getitem behavior_data "timestamp" = Return timestamps ∧
    pv_index timestamps 0 = Return (ss_aligned_starting_time s2).
Proof.
  intros H. apply dual_Return in H
    as (r & a1 & a2 & r1 & md1 & r2 & md2 & Hr & Ha1 & Hsd1 & Hsd2 & Ha2 & Hfiles & _).
  simpl in *.
  destruct (dual_frame_alignment_starting_times a r Hr)
    as (mat & Hmat & _ & (bf & data & ts & Hbf & Hdata & Hts & Ht)).
  destruct (first_call_args_Return _ _ _ _ Ha1) as (Hnwb1 & _).
  destruct (second_call_args_Return _ _ _ _ _ Ha2) as (Hnwb2 & _).
  destruct (second_call_args_fields _ _ _ _ _ Ha2) as (_ & _ & _ & _ & _ & _ & _ & Htime & _).
  eexists _, _, mat, bf, data, ts.
  split; [by rewrite Hfiles, lookup_insert_eq|]. simpl.
  rewrite Hnwb1, Hnwb2, Htime. done.
Qed.

(** X11: a dual-wavelength conversion returns only if each of its seven
    parallel lists (raw imaging files, photometry fields, behavior fields,
    index fields, wavelengths, indicators, TTL stream names) has at least
    two entries. *)
Theorem dual_conversion_needs_two_of_each (a : DualArgs.t) (w w' : world) :
  dual_wavelength_session_to_nwb C a w = (Return (), w') →
  (2 ≤ length (DualArgs.raw_imaging_file_paths a))%nat ∧
  (2 ≤ length (DualArgs.fiber_photometry_fields a))%nat ∧
  (2 ≤ length (DualArgs.behavior_fields a))%nat ∧
  (2 ≤ length (DualArgs.index_fields a))%nat ∧
  (2 ≤ length (DualArgs.excitation_wavelengths_in_nm a))%nat ∧
  (2 ≤ length (DualArgs.indicators a))%nat ∧
  (2 ≤ length (DualArgs.ttl_stream_names a))%nat.
Proof.
  intros H. apply dual_Return in H
    as (r & a1 & a2 & r1 & md1 & r2 & md2 & Hr & _ & _ & _ & Ha2 & _).
  simpl in *.
  destruct (dual_frame_alignment_starting_times a r Hr)
    as (mat & _ & _ & (bf & _ & _ & Hbf & _)).
  destruct (second_call_args_fields _ _ _ _ _ Ha2)
    as (H1 & H2 & H3 & H4 & H5 & H6 & _).
  apply lookup_lt_Some in Hbf, H1, H2, H3, H4, H5, H6.
  repeat split; lia.
Qed.

End AssemblerProperties2.

Lemma session_dual_args_stub_test (C : Collaborators) (folder_path : path)
    (subject_id exp_dir : string) (table : list session_row)
    (subject_metadata : gmap string pyval) (nwbfile_path : path) (da : DualArgs.t) :
  session_dual_args C folder_path subject_id exp_dir table subject_metadata
    nwbfile_path = Return da →
  DualArgs.stub_test da = false.
Proof.
  unfold session_dual_args. intros H.
  do 8 (apply obind_Return in H as (? & _ & H)).
  injection H as <-. done.
Qed.

Lemma inspector_step_changes_only (C : Collaborators) (Q : path → Prop)
    (nwbfile_folder_path : path) (subject_id exp_dir : string) (nwbfile_path : path) :
  Q (session_report_path nwbfile_folder_path subject_id exp_dir) →
  respects (changes_only Q)
    (inspector_step C nwbfile_folder_path subject_id exp_dir nwbfile_path).
Proof.
  intros HQ. unfold inspector_step. frame_walk.
  by apply write_file_changes_only.
Qed.

Lemma inspector_step_log_events (C : Collaborators) (P : event → Prop)
    (nwbfile_folder_path : path) (subject_id exp_dir : string) (nwbfile_path : path) :
  P (Call_inspect_nwbfile nwbfile_path) →
  (∀ msgs, P (Call_save_report
                (session_report_path nwbfile_folder_path subject_id exp_dir) msgs)) →
  respects (log_extends P)
    (inspector_step C nwbfile_folder_path subject_id exp_dir nwbfile_path).
Proof.
  intros Hinspect Hsave. unfold inspector_step.
  apply respects_bind; [apply _ | by apply emit_log_extends | intros _].
  respects_walk. by apply emit_log_extends.
Qed.

Section BatchProperties.

Variable C : Collaborators.
Variables data_table_path folder_path nwbfile_folder_path : path.
Variable subject_ids : list string.
Variable stub_test : bool.

Lemma body_log_events (subjects_table : list (gmap string cell)) (overwrite : bool)
    (group : (cell * string) * list session_row) :
  respects
    (log_extends (group_event C folder_path nwbfile_folder_path subjects_table
                    stub_test group))
    (session_group_body C folder_path nwbfile_folder_path subjects_table stub_test
       overwrite group).
Proof.
  unfold session_group_body.
  apply respects_bind_lift; [apply _ | intros md Hmd].
  apply respects_bind_lift; [apply _ | intros da Hda].
  apply respects_bind; [apply _ | apply respects_path_exists, _ | intros nwbfile_exists].
  destruct (nwbfile_exists && negb overwrite).
  - apply emit_log_extends. by left.
  - apply respects_bind; [apply _ | | intros _].
    { apply emit_log_extends. right. left. eauto. }
    apply respects_bind; [apply _ | | intros _].
    { eapply respects_log_extends_mono; [|apply dual_log_events].
      intros ev Hev. do 4 right. by exists md, da. }
    apply respects_bind; [apply _ | | intros _].
    { apply inspector_step_log_events.
      - right. right. by left.
      - intros msgs. do 3 right. left. by exists msgs. }
    apply emit_log_extends. by left.
Qed.

Lemma driver_log_events (overwrite : bool) :
  respects
    (log_extends (batch_event C data_table_path folder_path nwbfile_folder_path
                    subject_ids stub_test))
    (convert_all_dual_wavelength_sessions C data_table_path folder_path
       nwbfile_folder_path subject_ids stub_test overwrite).
Proof.
  unfold convert_all_dual_wavelength_sessions.
  apply respects_bind_lift; [apply _ | intros [sessions mice] Hread]. simpl.
  destruct (filter_by_subject subject_ids sessions) as [|row rows] eqn:Hfiltered;
    [apply respects_raise, _|].
  apply respects_bind; [apply _ | | intros _].
  { apply emit_log_extends. exists sessions, mice. split; [done|]. left. eauto. }
  apply respects_for_each_in; [apply _ | intros group Hgroup].
  eapply respects_log_extends_mono; [|apply body_log_events].
  intros ev Hev. exists sessions, mice. split; [done|]. right.
  exists group. by rewrite Hfiltered.
Qed.

End BatchProperties.

(** ** Session groups *)

Lemma key_compare_Eq (k k' : cell * string) : key_compare k k' = Eq → k = k'.
Proof.
  destruct k as [c e], k' as [c' e']. unfold key_compare. simpl.
  destruct (cell_compare c c') eqn:Hc; try discriminate.
  intros He%String.compare_eq_iff. f_equal; [|done].
  destruct c, c'; simpl in Hc; try discriminate.
  - by apply String.compare_eq_iff in Hc as ->.
  - by apply Z.compare_eq in Hc as ->.
Qed.

(** Every group of [group_insert] has rows, all of them with its key. *)
Lemma group_insert_rows (k : cell * string) (r : session_row)
    (gs : list ((cell * string) * list session_row)) (P : session_row → Prop) :
  row_key r = k → P r →
  Forall (λ g, g.2 ≠ [] ∧ Forall (λ r', row_key r' = g.1 ∧ P r') g.2) gs →
  Forall (λ g, g.2 ≠ [] ∧ Forall (λ r', row_key r' = g.1 ∧ P r') g.2)
    (group_insert k r gs).
Proof.
  intros Hk Hr. induction gs as [|[k' rs] gs IH]; intros Hgs; simpl.
  - repeat constructor; done.
  - apply Forall_cons in Hgs as [[Hne Hrows] Hgs].
    destruct (key_compare k k') eqn:Hcmp.
    + apply key_compare_Eq in Hcmp as <-.
      constructor; [|done]. simpl in *. split.
      * by destruct rs.
      * apply Forall_app. split; [done|]. by repeat constructor.
    + constructor; [|by constructor]. simpl. by repeat constructor.
    + constructor; [done|]. by apply IH.
Qed.

Lemma groupby_rows (t : list session_row) (P : session_row → Prop) :
  Forall P t →
  Forall (λ g, g.2 ≠ [] ∧ Forall (λ r, row_key r = g.1 ∧ P r) g.2) (groupby t).
Proof.
  unfold groupby.
  assert (∀ acc,
            Forall P t →
            Forall (λ g, g.2 ≠ [] ∧ Forall (λ r, row_key r = g.1 ∧ P r) g.2) acc →
            Forall (λ g, g.2 ≠ [] ∧ Forall (λ r, row_key r = g.1 ∧ P r) g.2)
              (fold_left (λ gs r, group_insert (Mouse r, Experiment_Directory r) r gs)
                 t acc)) as Hfold.
  { induction t as [|r t IH]; intros acc Ht Hacc; simpl; [done|].
    apply Forall_cons in Ht as [Hr Ht].
    apply IH; [done|]. by apply group_insert_rows. }
  intros Ht. apply Hfold; [done | constructor].
Qed.

Lemma elem_of_filter_by_subject (subject_ids : list string)
    (data_table : list session_row) (r : session_row) :
  r ∈ filter_by_subject subject_ids data_table ↔
  r ∈ data_table ∧ str_of_cell (Mouse r) ∈ subject_ids.
Proof.
  unfold filter_by_subject.
  rewrite (list_elem_of_In (List.filter _ _) r), filter_In, <- list_elem_of_In.
  by rewrite bool_decide_eq_true.
Qed.

(** What a group of the filtered table is: rows of requested subjects
    with the key of the group, the first of which the arguments are read
    from. *)
Lemma groupby_filtered (subject_ids : list string) (sessions : list session_row)
    (group : (cell * string) * list session_row) :
  group ∈ groupby (filter_by_subject subject_ids sessions) →
  ∃ row rows,
    group.2 = row :: rows ∧ row_key row = group.1 ∧
    row ∈ sessions ∧ str_of_cell (Mouse row) ∈ subject_ids.
Proof.
  intros Hgroup.
  pose proof (groupby_rows (filter_by_subject subject_ids sessions)
                (λ r, r ∈ sessions ∧ str_of_cell (Mouse r) ∈ subject_ids)) as Hrows.
  assert (Forall (λ r, r ∈ sessions ∧ str_of_cell (Mouse r) ∈ subject_ids)
            (filter_by_subject subject_ids sessions)) as Hfiltered.
  { rewrite Forall_forall. intros r Hr. by apply elem_of_filter_by_subject. }
  specialize (Hrows Hfiltered). rewrite Forall_forall in Hrows.
  destruct (Hrows group Hgroup) as [Hne Hall].
  destruct (group.2) as [|row rows]; [done|].
  apply Forall_cons in Hall as [[Hkey [Hin Hid]] _].
  by exists row, rows.
Qed.

(** The arguments of the dual-wavelength assembler, read off the first
    row of a group. *)
Lemma session_dual_args_first_row (C : Collaborators) (folder_path : path)
    (subject_id exp_dir : string) (row : session_row) (rows : list session_row)
    (subject_metadata : gmap string pyval) (nwbfile_path : path) (da : DualArgs.t) :
  session_dual_args C folder_path subject_id exp_dir (row :: rows) subject_metadata
    nwbfile_path = Return da →
  let session_folder_path := folder_path /: subject_id /: exp_dir in
  DualArgs.raw_imaging_file_paths da =
    [session_folder_path /: "raw" /: Raw_Imaging_File_green row;
     session_folder_path /: "raw" /: Raw_Imaging_File_red row] ∧
  DualArgs.processed_data_file_path da =
    session_folder_path /: Processed_Data_File row ∧
  DualArgs.fiber_photometry_fields da =
    [Processed_Photometry_Field_green row; Processed_Photometry_Field_red row] ∧
  DualArgs.behavior_fields da =
    [Processed_Behavior_Field_green row; Processed_Behavior_Field_red row] ∧
  DualArgs.index_fields da =
    [Processed_Index_Field_green row; Processed_Index_Field_red row] ∧
  DualArgs.excitation_wavelengths_in_nm da =
    [LED_Excitation_Wavelength_green row; LED_Excitation_Wavelength_red row] ∧
  DualArgs.fiber_locations_file_path da =
    folder_path /: subject_id /: "fiber_table.xlsx" ∧
  DualArgs.ttl_file_path da = session_folder_path /: "raw" /: Raw_Behavior_File row ∧
  DualArgs.subject_metadata da = Some subject_metadata.
Proof.
  unfold session_dual_args. simpl. intros H.
  apply obind_Return in H as (indicators & _ & H).
  by injection H as <-.
Qed.

Lemma dual_event_entry (C : Collaborators) (a a' : DualArgs.t) :
  dual_event C a (Call_dual_wavelength_session_to_nwb a') → a' = a.
Proof.
  intros [[= ->] | (r & a1 & _ & _ & Hev)]; [done|].
  destruct Hev as [Hev | (r' & md & _ & _ & [Hev | (p & _ & Hev)])];
    [discriminate | by destruct (SingleArgs.nwbfile a1) | discriminate].
Qed.

Section BatchTheorems.

Variable C : Collaborators.
Variables data_table_path folder_path nwbfile_folder_path : path.
Variable subject_ids : list string.
Variable stub_test : bool.

Local Abbreviation driver overwrite :=
  (convert_all_dual_wavelength_sessions C data_table_path folder_path
     nwbfile_folder_path subject_ids stub_test overwrite).

(** X12: every dual-wavelength conversion a batch run starts is for a
    session of a requested subject: there is a row of the session table
    whose [Mouse] is among the requested identifiers, the output path is
    named after that row's subject (hyphens removed) and experiment
    directory, and the input paths and photometry fields are those of the
    same row, under [folder_path/subject/experiment]. *)
Theorem batch_converts_only_requested_sessions (overwrite : bool) (w : world)
    (i : nat) (a : DualArgs.t) :
  new_calls w (driver overwrite w).2 !! i
    = Some (Call_dual_wavelength_session_to_nwb a) →
  ∃ sessions mice row,
    read_excel C data_table_path = Return (sessions, mice) ∧
    row ∈ sessions ∧
    str_of_cell (Mouse row) ∈ subject_ids ∧
    let subject_id := str_remove_char "-"%char (str_of_cell (Mouse row)) in
    let exp_dir := Experiment_Directory row in
    DualArgs.nwbfile_path a =
      session_nwbfile_path nwbfile_folder_path stub_test subject_id exp_dir ∧
    DualArgs.processed_data_file_path a =
      folder_path /: subject_id /: exp_dir /: Processed_Data_File row ∧
    DualArgs.raw_imaging_file_paths a =
      [folder_path /: subject_id /: exp_dir /: "raw" /: Raw_Imaging_File_green row;
       folder_path /: subject_id /: exp_dir /: "raw" /: Raw_Imaging_File_red row] ∧
    DualArgs.fiber_photometry_fields a =
      [Processed_Photometry_Field_green row; Processed_Photometry_Field_red row].
Proof.
  intros Hcall.
  destruct (new_calls_log_extends _ _ _
              (driver_log_events C data_table_path folder_path nwbfile_folder_path
                 subject_ids stub_test overwrite w)) as [_ Hall].
  rewrite Forall_lookup in Hall. specialize (Hall i _ Hcall).
  destruct Hall as (sessions & mice & Hread & [(desc & total & [=]) | Hgroup]).
  destruct Hgroup as (group & Hgroup & Hev).
  destruct Hev as [[=] | [(desc & [=]) | [[=] | [(msgs & [=]) | Hev]]]].
  destruct Hev as (md & da & Hmd & Hda & Hev).
  apply dual_event_entry in Hev as ->.
  apply groupby_filtered in Hgroup as (row & rows & Hrows & Hkey & Hrow & Hid).
  exists sessions, mice, row. do 3 (split; [done|]).
  unfold group_dual_args, group_nwbfile_path, group_subject_id in Hda.
  rewrite Hrows, <- Hkey in Hda. simpl in Hda.
  destruct (session_dual_args_Return _ _ _ _ _ _ _ _ Hda) as (Hpath & _).
  destruct (session_dual_args_first_row _ _ _ _ _ _ _ _ _ Hda)
    as (Hraw & Hprocessed & Hfields & _).
  cbv zeta in *. done.
Qed.

(** X13: the batch driver uses [stub_test] only to name the output file
    and never forwards it: in every batch run, whatever [stub_test] is,
    both assemblers are entered with [stub_test] off and every stream of
    every stream set handed to the converter has [stub_test = False] in
    its conversion options. *)
Theorem batch_never_forwards_stub_test (overwrite : bool) (w : world) :
  Forall runs_on_full_data (new_calls w (driver overwrite w).2).
Proof.
  apply new_calls_log_extends.
  eapply log_extends_mono;
    [|apply (driver_log_events C data_table_path folder_path nwbfile_folder_path
               subject_ids stub_test overwrite w)].
  intros ev (sessions & mice & _ & [(desc & total & ->) | Hgroup]); [done|].
  destruct Hgroup as (group & _ & Hev).
  destruct Hev as [-> | [(desc & ->) | [-> | [(msgs & ->) | Hev]]]]; try done.
  destruct Hev as (md & da & _ & Hda & Hev).
  apply session_dual_args_stub_test in Hda.
  destruct Hev as [-> | (r & a' & _ & Ha' & Hev)]; [done|].
  assert (SingleArgs.stub_test a' = false) as Hstub.
  { destruct Ha' as [Ha1 | (s1 & Ha2)].
    - destruct (first_call_args_fields _ _ _ _ Ha1) as (_ & _ & _ & _ & _ & _ & _ & _ & _ & ->).
      done.
    - destruct (second_call_args_fields _ _ _ _ _ Ha2) as (_ & _ & _ & _ & _ & _ & _ & _ & ->).
      done. }
  destruct Hev as [-> | (r' & md' & Hsd & _ & [-> | (p & _ & ->)])]; [done | | done].
  assert (∀ name options,
            r'.2 !! name = Some options →
            options !! "stub_test" = Some (PBool false)) as Hoptions.
  { intros name options Hname.
    by rewrite (single_options_stub_test C a' r' name options Hsd Hname), Hstub. }
  by destruct (SingleArgs.nwbfile a').
Qed.

(** X14: every write call of a batch run, returning or failing, is for
    the output file or the QA report of a session of a requested subject:
    [configure_and_write_nwbfile] gets the output path and [save_report]
    the report path that lines 85-87 and 111 join from
    [nwbfile_folder_path] and the subject (hyphens removed) and experiment
    directory of a row whose [Mouse] is among the requested identifiers. *)
Theorem batch_writes_only_session_outputs_and_reports (overwrite : bool) (w : world)
    (i : nat) (ev : event) (p : path) :
  new_calls w (driver overwrite w).2 !! i = Some ev →
  write_target ev = Some p →
  ∃ sessions mice row,
    read_excel C data_table_path = Return (sessions, mice) ∧
    row ∈ sessions ∧
    str_of_cell (Mouse row) ∈ subject_ids ∧
    let subject_id := str_remove_char "-"%char (str_of_cell (Mouse row)) in
    let exp_dir := Experiment_Directory row in
    match ev with
    | Call_save_report _ _ =>
        p = session_report_path nwbfile_folder_path subject_id exp_dir
    | _ =>
        p = session_nwbfile_path nwbfile_folder_path stub_test subject_id exp_dir
    end.
Proof.
  intros Hcall Htarget.
  destruct (new_calls_log_extends _ _ _
              (driver_log_events C data_table_path folder_path nwbfile_folder_path
                 subject_ids stub_test overwrite w)) as [_ Hall].
  rewrite Forall_lookup in Hall. specialize (Hall i _ Hcall).
  destruct Hall as (sessions & mice & Hread & [(desc & total & ->) | Hgroup]);
    [discriminate|].
  destruct Hgroup as (group & Hgroup & Hev).
  apply groupby_filtered in Hgroup as (row & rows & Hrows & Hkey & Hrow & Hid).
  exists sessions, mice, row. do 3 (split; [done|]). cbv zeta.
  destruct Hev as [-> | [(desc & ->) | [-> | [(msgs & ->) | Hev]]]];
    try discriminate.
  - injection Htarget as <-.
    unfold group_report_path, group_subject_id. by rewrite <- Hkey.
  - destruct Hev as (md & da & _ & Hda & Hev).
    unfold group_dual_args, group_nwbfile_path, group_subject_id in Hda.
    apply session_dual_args_Return in Hda as (Hpath & _).
    rewrite <- Hkey in Hpath. simpl in Hpath.
    destruct Hev as [-> | (r & a' & _ & Ha' & Hev)]; [discriminate|].
    destruct Hev as [-> | (r' & md' & _ & _ & [-> | (p' & Hp' & ->)])];
      [discriminate | by destruct (SingleArgs.nwbfile a') |].
    injection Htarget as <-.
    destruct Ha' as [Ha1 | (s1 & Ha2)].
    + destruct (first_call_args_Return _ _ _ _ Ha1) as (_ & Hnone & _). congruence.
    + destruct (second_call_args_Return _ _ _ _ _ Ha2) as (_ & Hsome & _).
      congruence.
Qed.

End BatchTheorems.

(** ** Progress *)

Lemma ticks_app (evs evs' : list event) : ticks (evs ++ evs') = (ticks evs + ticks evs')%nat.
Proof. unfold ticks. by rewrite List.filter_app, length_app. Qed.

Lemma ticks_none (evs : list event) :
  Forall (λ ev, is_tick ev = false) evs → ticks evs = 0%nat.
Proof.
  unfold ticks. induction 1 as [|ev evs Hev _ IH]; simpl; [done|]. by rewrite Hev.
Qed.

Lemma log_extends_Return {A} (P : event → Prop) (m : M A) (w w' : world) (a : A) :
  respects (log_extends P) m → m w = (Return a, w') →
  ∃ evs, calls w' = calls w ++ evs ∧ Forall P evs.
Proof. intros Hm Hrun. specialize (Hm w). by rewrite Hrun in Hm. Qed.

Section Progress.

Variable C : Collaborators.
Variables data_table_path folder_path nwbfile_folder_path : path.
Variable subject_ids : list string.
Variable stub_test : bool.

Lemma body_Return_ticks (subjects_table : list (gmap string cell)) (overwrite : bool)
    (group : (cell * string) * list session_row) (w w' : world) :
  session_group_body C folder_path nwbfile_folder_path subjects_table stub_test
    overwrite group w = (Return (), w') →
  ∃ evs, calls w' = calls w ++ evs ∧ ticks evs = 1%nat.
Proof.
  unfold session_group_body. intros H.
  apply bind_Return in H as (md & w1 & Hmd & H).
  apply lift_Return in Hmd as [_ ->].
  apply bind_Return in H as (da & w2 & Hda & H).
  apply lift_Return in Hda as [_ ->].
  apply bind_Return in H as (nwbfile_exists & w3 & Hexists & H).
  injection Hexists as _ <-.
  destruct (nwbfile_exists && negb overwrite).
  - injection H as <-. by exists [Tqdm_update].
  - apply bind_Return in H as ([] & w4 & Hw4 & H). injection Hw4 as <-.
    apply bind_Return in H as ([] & w5 & Hdual & H).
    apply bind_Return in H as ([] & w6 & Hinspect & H).
    injection H as <-.
    eapply (log_extends_Return (λ ev, is_tick ev = false)) in Hdual
        as (evs1 & E1 & F1);
      [|apply dual_log_extends; [done | by intros []]].
    eapply (log_extends_Return (λ ev, is_tick ev = false)) in Hinspect
        as (evs2 & E2 & F2);
      [|by apply inspector_step_log_extends].
    exists ([Tqdm_set_description
               ("Converting subject '"
                  +:+ str_remove_char "-"%char (str_of_cell group.1.1)
                  +:+ "' session '" +:+ group.1.2 +:+ "' session to NWB ...")]
              ++ evs1 ++ evs2 ++ [Tqdm_update]).
    split.
    + simpl. rewrite E2, E1. simpl. by rewrite <- !app_assoc.
    + rewrite !ticks_app, (ticks_none evs1 F1), (ticks_none evs2 F2). done.
Qed.

Lemma for_each_body_ticks (subjects_table : list (gmap string cell)) (overwrite : bool)
    (groups : list ((cell * string) * list session_row)) (w w' : world) :
  for_each groups
    (session_group_body C folder_path nwbfile_folder_path subjects_table stub_test
       overwrite) w = (Return (), w') →
  ∃ evs, calls w' = calls w ++ evs ∧ ticks evs = length groups.
Proof.
  revert w. induction groups as [|group groups IH]; intros w H; simpl in H.
  - injection H as <-. exists []. by rewrite app_nil_r.
  - apply bind_Return in H as ([] & w1 & Hbody & H).
    apply body_Return_ticks in Hbody as (evs1 & E1 & T1).
    apply IH in H as (evs2 & E2 & T2).
    exists (evs1 ++ evs2). split.
    + by rewrite E2, E1, app_assoc.
    + rewrite ticks_app, T1, T2. done.
Qed.

(** X15: a batch run that returns has announced as total the number of
    session groups of the requested subjects and has called
    [progress_bar.update(1)] exactly that many times, once per group,
    converted or skipped.  (Only the calls the script makes are counted;
    what the bar does on its own while it is iterated is the library's.) *)
Theorem one_progress_update_per_session_group (overwrite : bool) (w w' : world) :
  convert_all_dual_wavelength_sessions C data_table_path folder_path
    nwbfile_folder_path subject_ids stub_test overwrite w = (Return (), w') →
  ∃ sessions mice desc total evs,
    read_excel C data_table_path = Return (sessions, mice) ∧
    new_calls w w' = Tqdm_init desc total :: evs ∧
    total = length (groupby (filter_by_subject subject_ids sessions)) ∧
    ticks evs = total.
Proof.
  intros H.
  destruct (driver_Return _ _ _ _ _ _ _ _ _ H) as (sessions & mice & Hread & Hfiltered).
  rewrite (driver_loop _ _ _ _ _ _ _ _ sessions mice Hread Hfiltered) in H.
  apply for_each_body_ticks in H as (evs & E & T).
  eexists sessions, mice, _, _, evs. split; [done|]. split.
  - unfold new_calls. rewrite E. simpl.
    rewrite <- app_assoc, drop_app_length. reflexivity.
  - split; [reflexivity | exact T].
Qed.

End Progress.

(** ** What a returned batch run leaves behind *)

Global Instance keeps_converted_preorder (nwbfile_folder_path : path) :
  PreOrder (keeps_converted nwbfile_folder_path).
Proof.
  split.
  - intros w p _ Hp. exact Hp.
  - intros w1 w2 w3 H12 H23 p Hp Hw1. by apply H23, H12.
Qed.

Lemma changes_only_keeps_converted (nwbfile_folder_path : path) (Q : path → Prop)
    (w w' : world) :
  (∀ p, Q p → ¬ is_nwbfile_path nwbfile_folder_path p) →
  changes_only Q w w' → keeps_converted nwbfile_folder_path w w'.
Proof.
  intros HQ Hchanges p Hp Hw. rewrite Hchanges; [done|]. intros Hq. by apply (HQ p).
Qed.

Section Converted.

Variable C : Collaborators.

(** An assembler call that fails has not reached the end of the write. *)
Lemma single_Raise_files (a : SingleArgs.t) (w w' : world) (e : exception) :
  single_wavelength_session_to_nwb C a w = (Raise e, w') → files w' = files w.
Proof.
  unfold single_wavelength_session_to_nwb, bind, emit, lift, ret, write_file.
  simpl. intros Hrun.
  destruct (single_source_data C a) as [[sd co]|]; simpl in Hrun;
    [|by injection Hrun as _ <-].
  destruct (single_metadata C a sd); simpl in Hrun; [|by injection Hrun as _ <-].
  destruct (SingleArgs.nwbfile a); simpl in Hrun.
  - destruct (converter_add_to_nwbfile C _ _); simpl in Hrun;
      [|by injection Hrun as _ <-].
    destruct (SingleArgs.nwbfile_path a); simpl in Hrun; [|discriminate].
    destruct (configure_and_write_nwbfile C _ _); simpl in Hrun;
      [discriminate | by injection Hrun as _ <-].
  - destruct (converter_create_nwbfile C _); simpl in Hrun;
      [|by injection Hrun as _ <-].
    destruct (SingleArgs.nwbfile_path a); simpl in Hrun; [|discriminate].
    destruct (configure_and_write_nwbfile C _ _); simpl in Hrun;
      [discriminate | by injection Hrun as _ <-].
Qed.

Lemma dual_Raise_files (a : DualArgs.t) (w w' : world) (e : exception) :
  dual_wavelength_session_to_nwb C a w = (Raise e, w') → files w' = files w.
Proof.
  unfold dual_wavelength_session_to_nwb, bind, emit, lift, ret. simpl. intros Hrun.
  destruct (dual_frame_alignment C a) as [r|]; simpl in Hrun;
    [|by injection Hrun as _ <-].
  destruct (first_call_args a r.1.1 r.1.2) as [a1|] eqn:Ha1; simpl in Hrun;
    [|by injection Hrun as _ <-].
  destruct (first_call_args_Return _ _ _ _ Ha1) as (_ & Hpath1 & _).
  destruct (single_wavelength_session_to_nwb C a1 _) as [[nwbfile|e1] w2] eqn:Hrun1.
  - apply single_Return in Hrun1 as (sd1 & co1 & md1 & _ & _ & Hrun1).
    rewrite Hpath1 in Hrun1. simpl in Hrun1. destruct Hrun1 as (_ & Hfiles1 & _).
    destruct (second_call_args a r.2.1 r.2.2 nwbfile) as [a2|]; simpl in Hrun;
      [|injection Hrun as _ <-; by rewrite Hfiles1].
    destruct (single_wavelength_session_to_nwb C a2 w2) as [[r2|e2] w3] eqn:Hrun2;
      [discriminate|].
    injection Hrun as _ <-.
    apply single_Raise_files in Hrun2. by rewrite Hrun2, Hfiles1.
  - injection Hrun as _ <-. by apply single_Raise_files in Hrun1.
Qed.

(** The disk after any run of the dual-wavelength assembler: as it was,
    or with both stream sets at the output path. *)
Lemma dual_files_cases (a : DualArgs.t) (w : world) :
  files (dual_wavelength_session_to_nwb C a w).2 = files w ∨
  ∃ s1 s2,
    files (dual_wavelength_session_to_nwb C a w).2
      = <[DualArgs.nwbfile_path a := NwbContent [s1; s2]]> (files w).
Proof.
  destruct (dual_wavelength_session_to_nwb C a w) as [[[]|e] w'] eqn:Hrun.
  - right. apply dual_Return in Hrun
      as (r & a1 & a2 & r1 & md1 & r2 & md2 & _ & _ & _ & _ & _ & Hfiles & _).
    simpl. eauto.
  - left. by apply dual_Raise_files in Hrun.
Qed.

Lemma dual_keeps_converted (nwbfile_folder_path : path) (a : DualArgs.t) :
  respects (keeps_converted nwbfile_folder_path) (dual_wavelength_session_to_nwb C a).
Proof.
  intros w p _ Hp.
  destruct (dual_files_cases a w) as [-> | (s1 & s2 & ->)]; [done|].
  destruct (decide (p = DualArgs.nwbfile_path a)) as [->|Hne].
  - rewrite lookup_insert_eq. by exists s1, s2.
  - by rewrite lookup_insert_ne.
Qed.

Variables folder_path nwbfile_folder_path : path.
Variable stub_test : bool.

Lemma body_keeps_converted (subjects_table : list (gmap string cell)) (overwrite : bool)
    (group : (cell * string) * list session_row) :
  respects (keeps_converted nwbfile_folder_path)
    (session_group_body C folder_path nwbfile_folder_path subjects_table stub_test
       overwrite group).
Proof.
  unfold session_group_body.
  assert (∀ ev, respects (keeps_converted nwbfile_folder_path) (emit ev)) as Hemit.
  { intros ev w p _ Hp. exact Hp. }
  apply respects_bind; [apply _ | apply respects_lift, _ | intros md].
  apply respects_bind; [apply _ | apply respects_lift, _ | intros da].
  apply respects_bind; [apply _ | apply respects_path_exists, _ | intros nwbfile_exists].
  destruct (nwbfile_exists && negb overwrite); [apply Hemit|].
  apply respects_bind; [apply _ | apply Hemit | intros _].
  apply respects_bind; [apply _ | apply dual_keeps_converted | intros _].
  apply respects_bind; [apply _ | | intros _; apply Hemit].
  intros w.
  eapply (changes_only_keeps_converted _
            (λ p, p = session_report_path nwbfile_folder_path
                        (str_remove_char "-"%char (str_of_cell group.1.1)) group.1.2)).
  - intros p ->. apply report_path_not_nwbfile_path.
  - by apply inspector_step_changes_only.
Qed.

(** A loop body that returns with [overwrite] on has written both stream
    sets to the output path of its group. *)
Lemma body_overwrite_Return (subjects_table : list (gmap string cell))
    (group : (cell * string) * list session_row) (w w' : world) :
  session_group_body C folder_path nwbfile_folder_path subjects_table stub_test
    true group w = (Return (), w') →
  holds_two_stream_sets
    (files w' !! group_nwbfile_path nwbfile_folder_path stub_test group).
Proof.
  unfold session_group_body. intros H.
  apply bind_Return in H as (md & w1 & Hmd & H).
  apply lift_Return in Hmd as [_ ->].
  apply bind_Return in H as (da & w2 & Hda & H).
  apply lift_Return in Hda as [Hda ->].
  apply bind_Return in H as (nwbfile_exists & w3 & Hexists & H).
  injection Hexists as _ <-.
  rewrite andb_false_r in H.
  apply bind_Return in H as ([] & w4 & Hw4 & H). injection Hw4 as <-.
  apply bind_Return in H as ([] & w5 & Hdual & H).
  apply bind_Return in H as ([] & w6 & Hinspect & H).
  injection H as <-. simpl.
  apply session_dual_args_Return in Hda as (Hpath & _).
  apply dual_Return in Hdual
    as (r & a1 & a2 & r1 & md1 & r2 & md2 & _ & _ & _ & _ & _ & Hfiles & _).
  rewrite Hpath in Hfiles.
  pose proof (inspector_step_changes_only C
                (λ p, p = session_report_path nwbfile_folder_path
                            (str_remove_char "-"%char (str_of_cell group.1.1))
                            group.1.2)
                nwbfile_folder_path
                (str_remove_char "-"%char (str_of_cell group.1.1)) group.1.2
                (session_nwbfile_path nwbfile_folder_path stub_test
                   (str_remove_char "-"%char (str_of_cell group.1.1)) group.1.2)
                eq_refl w5) as Hchanges.
  rewrite Hinspect in Hchanges. simpl in Hchanges.
  unfold group_nwbfile_path, group_subject_id.
  rewrite Hchanges, Hfiles, lookup_insert_eq; [by eexists _, _|].
  intros Heq.
  apply (report_path_not_nwbfile_path nwbfile_folder_path
           (str_remove_char "-"%char (str_of_cell group.1.1)) group.1.2).
  rewrite <- Heq. unfold is_nwbfile_path. eauto.
Qed.

Lemma for_each_body_overwrite_Return (subjects_table : list (gmap string cell))
    (groups : list ((cell * string) * list session_row)) (w w' : world) :
  for_each groups
    (session_group_body C folder_path nwbfile_folder_path subjects_table stub_test
       true) w = (Return (), w') →
  Forall (λ group,
            holds_two_stream_sets
              (files w' !! group_nwbfile_path nwbfile_folder_path stub_test group))
    groups.
Proof.
  revert w. induction groups as [|group groups IH]; intros w H; [constructor|].
  simpl in H. apply bind_Return in H as ([] & w1 & Hbody & H).
  constructor; [|by eapply IH].
  apply body_overwrite_Return in Hbody.
  pose proof (respects_for_each (keeps_converted nwbfile_folder_path) groups _
                (body_keeps_converted subjects_table true) w1) as Hkeeps.
  rewrite H in Hkeeps. simpl in Hkeeps.
  apply Hkeeps; [|done]. unfold is_nwbfile_path, group_nwbfile_path. eauto.
Qed.

Variable data_table_path : path.
Variable subject_ids : list string.

(** X17: after a batch run that returned, every session group the loop
    went over has its output file; with [overwrite] on, that file holds
    the two stream sets of a dual-wavelength conversion, whatever was at
    its path before the run. *)
Theorem returned_batch_has_converted_every_session_group
    (overwrite : bool) (w w' : world) (sessions : list session_row)
    (mice : list mice_row) (group : (cell * string) * list session_row) :
  read_excel C data_table_path = Return (sessions, mice) →
  convert_all_dual_wavelength_sessions C data_table_path folder_path
    nwbfile_folder_path subject_ids stub_test overwrite w = (Return (), w') →
  group ∈ groupby (filter_by_subject subject_ids sessions) →
  let nwbfile_path := group_nwbfile_path nwbfile_folder_path stub_test group in
  is_Some (files w' !! nwbfile_path) ∧
  (overwrite = true → holds_two_stream_sets (files w' !! nwbfile_path)).
Proof.
  intros Hread Hrun Hgroup nwbfile_path.
  destruct (driver_Return _ _ _ _ _ _ _ _ _ Hrun) as (sessions' & mice' & Hread' & Hne).
  rewrite Hread in Hread'. injection Hread' as <- <-.
  rewrite (driver_loop _ _ _ _ _ _ _ _ sessions mice Hread Hne) in Hrun.
  split.
  - apply for_each_body_Return in Hrun. rewrite Forall_forall in Hrun.
    by destruct (Hrun group Hgroup) as (md & da & _ & _ & Hsome).
  - intros ->. apply for_each_body_overwrite_Return in Hrun.
    rewrite Forall_forall in Hrun. by apply Hrun.
Qed.

End Converted.

(** ** The segmentation interface *)

(** X18: the [Segmentation] configuration the assembler builds fits the
    constructor of the segmentation interface: called with it as keyword
    arguments, the constructor raises no [TypeError], hands the whole
    configuration (file path, data field, sampling frequency, accepted
    list) to the base class, and sets [verbose] to its default [True]. *)
Theorem segmentation_configuration_fits_the_interface (C : Collaborators)
    (a : SingleArgs.t)
    (r : gmap string (gmap string pyval) * gmap string (gmap string pyval))
    (super_init : gmap string pyval → outcome unit) :
  single_source_data C a = Return r →
  ∃ config accepted_list,
    r.1 !! "Segmentation" = Some config ∧
    config !! "accepted_list" = Some accepted_list ∧
    BouabidVu2026SegmentationInterface_init super_init config =
      obind (super_init config)
        (λ _, Return
                {| seg_file_path :=
                     PStr (path_str (SingleArgs.processed_data_file_path a));
                   seg_data_field := PStr (SingleArgs.fiber_photometry_field a);
                   seg_sampling_frequency := SingleArgs.sampling_frequency a;
                   seg_accepted_list := accepted_list;
                   seg_verbose := PBool true |}).
Proof.
  intros H.
  apply single_source_data_Return in H as (fi & fibers & accepted & _ & _ & ->).
  cbv zeta. eexists _, _.
  split; [destruct (SingleArgs.behavior_field a); simpl; by simplify_map_eq|].
  split; [by simplify_map_eq|].
  unfold BouabidVu2026SegmentationInterface_init.
  rewrite bool_decide_eq_true_2.
  - simpl. by simplify_map_eq.
  - rewrite !dom_insert, dom_singleton. unfold segmentation_init_parameters.
    set_solver.
Qed.

(** X19: on base metadata that has an [Ophys] dict whose [Device] list
    starts with a dict, [get_metadata] of the segmentation interface
    returns the base metadata with the name of that first device set to
    [HamamatsuMicroscope] and nothing else changed: the other entries of
    the metadata, of [Ophys] and of the device, and the other devices,
    are as they were; applying the override to its own result changes
    nothing. *)
Theorem get_metadata_renames_only_the_first_device
    (metadata ophys device : gmap string pyval) (devices : list pyval) :
  metadata !! "Ophys" = Some (PDict ophys) →
  ophys !! "Device" = Some (PList (PDict device :: devices)) →
  let result :=
    <["Ophys" :=
        PDict (<["Device" :=
                   PList (PDict (<["name" := PStr "HamamatsuMicroscope"]> device)
                            :: devices)]> ophys)]> metadata in
  BouabidVu2026SegmentationInterface_get_metadata (Return metadata) = Return result ∧
  BouabidVu2026SegmentationInterface_get_metadata (Return result) = Return result.
Proof.
  intros Hophys Hdevices result.
  unfold BouabidVu2026SegmentationInterface_get_metadata. simpl. split.
  - unfold getitem. rewrite Hophys. simpl.
    unfold getitem. rewrite Hdevices. done.
  - unfold result, getitem. rewrite lookup_insert_eq. simpl.
    unfold getitem. rewrite lookup_insert_eq. simpl.
    by rewrite !insert_insert_eq.
Qed.

(** ** The report of a converted session *)

Section Reports.

Variable C : Collaborators.
Variables folder_path nwbfile_folder_path : path.
Variable stub_test : bool.

(** X20: when the loop body converts a session (its output is absent, or
    [overwrite] is on) and no QA report exists yet, the inspector is run
    on the file just written, the one holding both stream sets, and the
    report saved at the report path is the formatted result of that
    inspection. *)
Theorem new_report_describes_the_file_just_written
    (subjects_table : list (gmap string cell)) (overwrite : bool)
    (group : (cell * string) * list session_row) (w w' : world) :
  let nwbfile_path := group_nwbfile_path nwbfile_folder_path stub_test group in
  let report_path := group_report_path nwbfile_folder_path group in
  session_group_body C folder_path nwbfile_folder_path subjects_table stub_test
    overwrite group w = (Return (), w') →
  files w !! report_path = None →
  files w !! nwbfile_path = None ∨ overwrite = true →
  ∃ s1 s2 results,
    files w' !! nwbfile_path = Some (NwbContent [s1; s2]) ∧
    inspect_nwbfile C nwbfile_path (Some (NwbContent [s1; s2])) = Return results ∧
    files w' !! report_path =
      Some (ReportContent
              (format_messages C results ["importance"; "file_path"]%string)).
Proof.
  intros nwbfile_path report_path H Hreport Hfresh.
  assert (report_path ≠ nwbfile_path) as Hne.
  { intros Heq.
    apply (report_path_not_nwbfile_path nwbfile_folder_path (group_subject_id group)
             group.1.2).
    fold (group_report_path nwbfile_folder_path group). fold report_path.
    rewrite Heq. unfold is_nwbfile_path, nwbfile_path, group_nwbfile_path. eauto. }
  unfold session_group_body in H.
  apply bind_Return in H as (md & w1 & Hmd & H).
  apply lift_Return in Hmd as [_ ->].
  apply bind_Return in H as (da & w2 & Hda & H).
  apply lift_Return in Hda as [Hda ->].
  apply session_dual_args_Return in Hda as (Hpath & _).
  apply bind_Return in H as (nwbfile_exists & w3 & Hexists & H).
  injection Hexists as <- <-.
  fold (group_subject_id group) in H, Hpath.
  fold (group_nwbfile_path nwbfile_folder_path stub_test group) in H, Hpath.
  fold nwbfile_path in H, Hpath.
  assert (bool_decide (is_Some (files w !! nwbfile_path)) && negb overwrite = false)
    as Hskip.
  { destruct Hfresh as [Hnone | ->]; [|apply andb_false_r].
    rewrite Hnone, bool_decide_eq_false_2; [done|]. by intros [? ?]. }
  rewrite Hskip in H.
  apply bind_Return in H as ([] & w4 & Hw4 & H). injection Hw4 as <-.
  apply bind_Return in H as ([] & w5 & Hdual & H).
  apply bind_Return in H as ([] & w6 & Hinspect & H).
  injection H as <-. simpl.
  apply dual_Return in Hdual
    as (r & a1 & a2 & r1 & md1 & r2 & md2 & _ & _ & _ & _ & _ & Hfiles & _).
  rewrite Hpath in Hfiles. simpl in Hfiles.
  unfold inspector_step, bind, emit, read_file, lift, path_exists in Hinspect.
  simpl in Hinspect.
  fold (group_report_path nwbfile_folder_path group) in Hinspect.
  fold report_path in Hinspect.
  rewrite Hfiles, lookup_insert_eq in Hinspect.
  destruct (inspect_nwbfile C nwbfile_path _) as [results|] eqn:Hresults;
    simpl in Hinspect; [|discriminate].
  rewrite lookup_insert_ne, Hreport in Hinspect by done.
  rewrite bool_decide_eq_false_2 in Hinspect by (by intros [? ?]).
  simpl in Hinspect.
  destruct (save_report C report_path _); simpl in Hinspect; [|discriminate].
  injection Hinspect as <-. simpl.
  eexists _, _, results. split; [|split; [exact Hresults|]].
  - by rewrite lookup_insert_ne, lookup_insert_eq.
  - by rewrite lookup_insert_eq.
Qed.

End Reports.

(** X20 on the fixture session, converted to an empty disk. *)
Lemma new_report_describes_the_file_just_written_witness :
  let group := ((CStr "UG27", "240214"%string), [Fixture.UG27_240214]) in
  let w' := (session_group_body Fixture.standard Fixture.folder_path
               Fixture.nwbfile_folder_path (astype_str Fixture.mice) false false
               group Fixture.fresh).2 in
  session_group_body Fixture.standard Fixture.folder_path
    Fixture.nwbfile_folder_path (astype_str Fixture.mice) false false group
    Fixture.fresh = (Return (), w') ∧
  ∃ s1 s2,
    files w' !! ["D:"; "NWB"; "UG27_240214.nwb"]%string = Some (NwbContent [s1; s2]) ∧
    files w' !! ["D:"; "NWB"; "UG27-240214_nwbinspector_result.txt"]%string
      = Some (ReportContent []).
Proof.
  intros group w'.
  assert (session_group_body Fixture.standard Fixture.folder_path
            Fixture.nwbfile_folder_path (astype_str Fixture.mice) false false group
            Fixture.fresh = (Return (), w')) as Hrun
    by (apply (run_Return
                 (session_group_body Fixture.standard Fixture.folder_path
                    Fixture.nwbfile_folder_path (astype_str Fixture.mice) false false
                    group) Fixture.fresh ());
        vm_compute; reflexivity).
  split; [exact Hrun|].
  assert (files Fixture.fresh
            !! group_report_path Fixture.nwbfile_folder_path group = None) as Hreport0
    by (vm_compute; reflexivity).
  assert (files Fixture.fresh
            !! group_nwbfile_path Fixture.nwbfile_folder_path false group = None)
    as Hfresh by (vm_compute; reflexivity).
  destruct (new_report_describes_the_file_just_written Fixture.standard
              Fixture.folder_path Fixture.nwbfile_folder_path false
              (astype_str Fixture.mice) false group Fixture.fresh w' Hrun
              Hreport0 (or_introl Hfresh))
    as (s1 & s2 & results & Hfile & Hresults & Hreport).
  exists s1, s2. split; [exact Hfile|].
  injection Hresults as <-. exact Hreport.
Defined.

(** ** The properties above on the fixture session *)

(** X6 on the fixture call, which creates the handle and writes it. *)
Lemma assembler_call_appends_one_stream_set_witness :
  let w' := (single_wavelength_session_to_nwb Fixture.standard Fixture.single_args
               Fixture.fresh).2 in
  single_wavelength_session_to_nwb Fixture.standard Fixture.single_args Fixture.fresh
    = (Return None, w') ∧
  ∃ s,
    single_source_data Fixture.standard Fixture.single_args
      = Return (ss_source_data s, ss_conversion_options s) ∧
    ss_aligned_starting_time s = PNone ∧
    files w' = <[ ["D:"; "NWB"; "UG27_240214.nwb"]%string := NwbContent [s] ]>
                 (files Fixture.fresh).
Proof.
  intros w'.
  assert (single_wavelength_session_to_nwb Fixture.standard Fixture.single_args
            Fixture.fresh = (Return None, w')) as Hrun
    by (apply (run_Return (single_wavelength_session_to_nwb Fixture.standard
                             Fixture.single_args) Fixture.fresh None);
        vm_compute; reflexivity).
  split; [exact Hrun|].
  destruct (assembler_call_appends_one_stream_set Fixture.standard
              Fixture.single_args Fixture.fresh w' None Hrun)
    as (s & Hsd & _ & Htime & _ & Hfiles).
  exists s. split; [exact Hsd|]. split; [exact Htime | exact Hfiles].
Defined.

(** X7 on the first assembler call of the fixture session, which has no
    output path. *)
Lemma assemblers_change_only_the_output_file_witness :
  let a1 := unwrap Fixture.single_args (first_call_args Fixture.dual_args [] PNone) in
  SingleArgs.nwbfile_path a1 = None ∧
  files (single_wavelength_session_to_nwb Fixture.standard a1 Fixture.converted).2
    = files Fixture.converted.
Proof.
  intros a1.
  assert (SingleArgs.nwbfile_path a1 = None) as Hnone by (vm_compute; reflexivity).
  split; [exact Hnone|].
  exact (proj1 (proj2 (assemblers_change_only_the_output_file Fixture.standard))
           a1 Fixture.converted Hnone).
Defined.

(** X9 on the fixture session. *)
Lemma dual_channels_are_paired_by_position_witness :
  let w' := (dual_wavelength_session_to_nwb Fixture.standard Fixture.dual_args
               Fixture.fresh).2 in
  dual_wavelength_session_to_nwb Fixture.standard Fixture.dual_args Fixture.fresh =
    (Return (), w') ∧
  ∃ s1 s2,
    files w' !! DualArgs.nwbfile_path Fixture.dual_args = Some (NwbContent [s1; s2]) ∧
    stream_entry (ss_source_data s1) "Imaging" "file_path"
      = Some (PStr "D:/UG27/240214/raw/data11.cxd") ∧
    stream_entry (ss_source_data s2) "Imaging" "file_path"
      = Some (PStr "D:/UG27/240214/raw/data89.cxd") ∧
    stream_entry (ss_source_data s1) "FiberPhotometry" "data_field" = Some (PStr "ACh") ∧
    stream_entry (ss_source_data s2) "FiberPhotometry" "data_field" = Some (PStr "DA") ∧
    stream_entry (ss_source_data s2) "FiberPhotometry" "ttl_stream_name"
      = Some (PStr "ttlIn2").
Proof.
  intros w'.
  assert (dual_wavelength_session_to_nwb Fixture.standard Fixture.dual_args
            Fixture.fresh = (Return (), w')) as Hrun
    by (apply (run_Return (dual_wavelength_session_to_nwb Fixture.standard
                             Fixture.dual_args) Fixture.fresh ());
        vm_compute; reflexivity).
  split; [exact Hrun|].
  destruct (dual_channels_are_paired_by_position Fixture.standard Fixture.dual_args
              Fixture.fresh w' Hrun) as (s1 & s2 & Hfile & Hpaired).
  exists s1, s2. split; [exact Hfile|].
  destruct (Hpaired 0%nat s1 eq_refl) as (H1 & H2 & _ & _).
  destruct (Hpaired 1%nat s2 eq_refl) as (H3 & H4 & _ & H5).
  split; [exact H1|]. split; [exact H3|]. split; [exact H2|].
  split; [exact H4 | exact H5].
Defined.

(** X10 on the fixture session: the second behavior field starts at 7/4. *)
Lemma second_channel_is_aligned_to_its_first_timestamp_witness :
  let w' := (dual_wavelength_session_to_nwb Fixture.standard Fixture.dual_args
               Fixture.fresh).2 in
  dual_wavelength_session_to_nwb Fixture.standard Fixture.dual_args Fixture.fresh =
    (Return (), w') ∧
  ∃ s1 s2,
    files w' !! DualArgs.nwbfile_path Fixture.dual_args = Some (NwbContent [s1; s2]) ∧
    ss_aligned_starting_time s1 = PNone ∧
    ss_aligned_starting_time s2 = PFloat 7 (-2).
Proof.
  intros w'.
  assert (dual_wavelength_session_to_nwb Fixture.standard Fixture.dual_args
            Fixture.fresh = (Return (), w')) as Hrun
    by (apply (run_Return (dual_wavelength_session_to_nwb Fixture.standard
                             Fixture.dual_args) Fixture.fresh ());
        vm_compute; reflexivity).
  split; [exact Hrun|].
  destruct (second_channel_is_aligned_to_its_first_timestamp Fixture.standard
              Fixture.dual_args Fixture.fresh w' Hrun)
    as (s1 & s2 & mat & bf & data & ts & Hfile & Hs1 & Hmat & Hbf & Hdata & Hts & Ht).
  exists s1, s2. split; [exact Hfile|]. split; [exact Hs1|].
  injection Hmat as <-. injection Hbf as <-.
  assert (data = PDict {[ "timestamp" := PList [PFloat 7 (-2); PFloat 9 (-2)] ]}) as ->.
  { apply (inj Some). rewrite <- Hdata. vm_compute. reflexivity. }
  assert (Return ts = Return (PList [PFloat 7 (-2); PFloat 9 (-2)])) as [= ->]
    by (rewrite <- Hts; vm_compute; reflexivity).
  by injection Ht as <-.
Defined.

(** X11 on the fixture session. *)
Lemma dual_conversion_needs_two_of_each_witness :
  let w' := (dual_wavelength_session_to_nwb Fixture.standard Fixture.dual_args
               Fixture.fresh).2 in
  dual_wavelength_session_to_nwb Fixture.standard Fixture.dual_args Fixture.fresh =
    (Return (), w') ∧
  (2 ≤ length (DualArgs.raw_imaging_file_paths Fixture.dual_args))%nat ∧
  (2 ≤ length (DualArgs.fiber_photometry_fields Fixture.dual_args))%nat ∧
  (2 ≤ length (DualArgs.behavior_fields Fixture.dual_args))%nat ∧
  (2 ≤ length (DualArgs.index_fields Fixture.dual_args))%nat ∧
  (2 ≤ length (DualArgs.excitation_wavelengths_in_nm Fixture.dual_args))%nat ∧
  (2 ≤ length (DualArgs.indicators Fixture.dual_args))%nat ∧
  (2 ≤ length (DualArgs.ttl_stream_names Fixture.dual_args))%nat.
Proof.
  intros w'.
  assert (dual_wavelength_session_to_nwb Fixture.standard Fixture.dual_args
            Fixture.fresh = (Return (), w')) as Hrun
    by (apply (run_Return (dual_wavelength_session_to_nwb Fixture.standard
                             Fixture.dual_args) Fixture.fresh ());
        vm_compute; reflexivity).
  split; [exact Hrun|].
  exact (dual_conversion_needs_two_of_each Fixture.standard Fixture.dual_args
           Fixture.fresh w' Hrun).
Defined.

(** X8 on the fixture session: the last call of the run is the write of
    a handle with both stream sets. *)
Lemma dual_assembler_writes_only_the_complete_file_witness :
  let w' := (dual_wavelength_session_to_nwb Fixture.standard Fixture.dual_args
               Fixture.fresh).2 in
  let nwbfile := match new_calls Fixture.fresh w' !! 5%nat with
                 | Some (Call_configure_and_write_nwbfile nwbfile _) => nwbfile
                 | _ => []
                 end in
  new_calls Fixture.fresh w' !! 5%nat
    = Some (Call_configure_and_write_nwbfile nwbfile
              ["D:"; "NWB"; "UG27_240214.nwb"]%string) ∧
  length nwbfile = 2%nat.
Proof.
  intros w' nwbfile.
  assert (new_calls Fixture.fresh w' !! 5%nat
            = Some (Call_configure_and_write_nwbfile nwbfile
                      ["D:"; "NWB"; "UG27_240214.nwb"]%string)) as Hcall
    by (vm_compute; reflexivity).
  split; [exact Hcall|].
  pose proof (dual_assembler_writes_only_the_complete_file Fixture.standard
                Fixture.dual_args Fixture.fresh) as Hall.
  rewrite Forall_lookup in Hall.
  exact (proj2 (Hall 5%nat _ Hcall nwbfile _ eq_refl)).
Defined.

(** X12 on the fixture session: the third call of the batch run is the
    entry into the dual-wavelength assembler, for the one row of the table. *)
Lemma batch_converts_only_requested_sessions_witness :
  let batch := convert_all_dual_wavelength_sessions Fixture.standard
                 Fixture.data_table_path Fixture.folder_path
                 Fixture.nwbfile_folder_path ["UG27"%string] false false
                 Fixture.fresh in
  let a := match new_calls Fixture.fresh batch.2 !! 2%nat with
           | Some (Call_dual_wavelength_session_to_nwb a) => a
           | _ => Fixture.dual_args
           end in
  new_calls Fixture.fresh batch.2 !! 2%nat
    = Some (Call_dual_wavelength_session_to_nwb a) ∧
  ∃ row,
    row ∈ [Fixture.UG27_240214] ∧
    str_of_cell (Mouse row) ∈ ["UG27"%string] ∧
    DualArgs.nwbfile_path a =
      session_nwbfile_path Fixture.nwbfile_folder_path false
        (str_remove_char "-"%char (str_of_cell (Mouse row)))
        (Experiment_Directory row) ∧
    DualArgs.fiber_photometry_fields a =
      [Processed_Photometry_Field_green row; Processed_Photometry_Field_red row].
Proof.
  intros batch a.
  assert (new_calls Fixture.fresh batch.2 !! 2%nat
            = Some (Call_dual_wavelength_session_to_nwb a)) as Hcall
    by (vm_compute; reflexivity).
  split; [exact Hcall|].
  destruct (batch_converts_only_requested_sessions Fixture.standard
              Fixture.data_table_path Fixture.folder_path Fixture.nwbfile_folder_path
              ["UG27"%string] false false Fixture.fresh 2 a Hcall)
    as (sessions & mice & row & Hread & Hrow & Hid & Hpath & _ & _ & Hfields).
  injection Hread as <- <-.
  exists row. split; [exact Hrow|]. split; [exact Hid|].
  split; [exact Hpath | exact Hfields].
Defined.

(** X13 on the fixture session converted with [stub_test] on: the output
    is named as a stub, the assembler is entered with [stub_test] off. *)
Lemma batch_never_forwards_stub_test_witness :
  let batch := convert_all_dual_wavelength_sessions Fixture.standard
                 Fixture.data_table_path Fixture.folder_path
                 Fixture.nwbfile_folder_path ["UG27"%string] true false
                 Fixture.fresh in
  let a := match new_calls Fixture.fresh batch.2 !! 2%nat with
           | Some (Call_dual_wavelength_session_to_nwb a) => a
           | _ => Fixture.dual_args
           end in
  new_calls Fixture.fresh batch.2 !! 2%nat
    = Some (Call_dual_wavelength_session_to_nwb a) ∧
  DualArgs.nwbfile_path a = ["D:"; "NWB"; "stub-UG27_240214.nwb"]%string ∧
  DualArgs.stub_test a = false.
Proof.
  intros batch a.
  assert (new_calls Fixture.fresh batch.2 !! 2%nat
            = Some (Call_dual_wavelength_session_to_nwb a)) as Hcall
    by (vm_compute; reflexivity).
  split; [exact Hcall|]. split; [vm_compute; reflexivity|].
  pose proof (batch_never_forwards_stub_test Fixture.standard Fixture.data_table_path
                Fixture.folder_path Fixture.nwbfile_folder_path ["UG27"%string]
                true false Fixture.fresh) as Hall.
  rewrite Forall_lookup in Hall. exact (Hall 2%nat _ Hcall).
Defined.

(** X15 on the fixture session: one group, one call of [update]. *)
Lemma one_progress_update_per_session_group_witness :
  let w' := (convert_all_dual_wavelength_sessions Fixture.standard
               Fixture.data_table_path Fixture.folder_path
               Fixture.nwbfile_folder_path ["UG27"%string] false false
               Fixture.fresh).2 in
  convert_all_dual_wavelength_sessions Fixture.standard Fixture.data_table_path
    Fixture.folder_path Fixture.nwbfile_folder_path ["UG27"%string] false false
    Fixture.fresh = (Return (), w') ∧
  ∃ desc evs,
    new_calls Fixture.fresh w' = Tqdm_init desc 1 :: evs ∧ ticks evs = 1%nat.
Proof.
  intros w'.
  assert (convert_all_dual_wavelength_sessions Fixture.standard
            Fixture.data_table_path Fixture.folder_path Fixture.nwbfile_folder_path
            ["UG27"%string] false false Fixture.fresh = (Return (), w')) as Hrun
    by (apply (run_Return
                 (convert_all_dual_wavelength_sessions Fixture.standard
                    Fixture.data_table_path Fixture.folder_path
                    Fixture.nwbfile_folder_path ["UG27"%string] false false)
                 Fixture.fresh ());
        vm_compute; reflexivity).
  split; [exact Hrun|].
  destruct (one_progress_update_per_session_group Fixture.standard
              Fixture.data_table_path Fixture.folder_path Fixture.nwbfile_folder_path
              ["UG27"%string] false false Fixture.fresh w' Hrun)
    as (sessions & mice & desc & total & evs & Hread & Hcalls & Htotal & Hticks).
  injection Hread as <- <-.
  exists desc, evs.
  assert (total = 1%nat) as -> by (rewrite Htotal; vm_compute; reflexivity).
  split; [exact Hcalls | exact Hticks].
Defined.

(** X14 on the fixture session: the eighth call of the run writes the
    converted file, the tenth saves the report. *)
Lemma batch_writes_only_session_outputs_and_reports_witness :
  let batch := convert_all_dual_wavelength_sessions Fixture.standard
                 Fixture.data_table_path Fixture.folder_path
                 Fixture.nwbfile_folder_path ["UG27"%string] false false
                 Fixture.fresh in
  let nwbfile := match new_calls Fixture.fresh batch.2 !! 7%nat with
                 | Some (Call_configure_and_write_nwbfile nwbfile _) => nwbfile
                 | _ => []
                 end in
  new_calls Fixture.fresh batch.2 !! 7%nat
    = Some (Call_configure_and_write_nwbfile nwbfile
              ["D:"; "NWB"; "UG27_240214.nwb"]%string) ∧
  new_calls Fixture.fresh batch.2 !! 9%nat
    = Some (Call_save_report
              ["D:"; "NWB"; "UG27-240214_nwbinspector_result.txt"]%string []) ∧
  ∃ row,
    row ∈ [Fixture.UG27_240214] ∧
    ["D:"; "NWB"; "UG27_240214.nwb"]%string =
      session_nwbfile_path Fixture.nwbfile_folder_path false
        (str_remove_char "-"%char (str_of_cell (Mouse row)))
        (Experiment_Directory row).
Proof.
  intros batch nwbfile.
  assert (new_calls Fixture.fresh batch.2 !! 7%nat
            = Some (Call_configure_and_write_nwbfile nwbfile
                      ["D:"; "NWB"; "UG27_240214.nwb"]%string)) as Hwrite
    by (vm_compute; reflexivity).
  split; [exact Hwrite|]. split; [vm_compute; reflexivity|].
  destruct (batch_writes_only_session_outputs_and_reports Fixture.standard
              Fixture.data_table_path Fixture.folder_path Fixture.nwbfile_folder_path
              ["UG27"%string] false false Fixture.fresh 7
              (Call_configure_and_write_nwbfile nwbfile
                 ["D:"; "NWB"; "UG27_240214.nwb"]%string)
              ["D:"; "NWB"; "UG27_240214.nwb"]%string Hwrite eq_refl)
    as (sessions & mice & row & Hread & Hrow & _ & Hpath).
  injection Hread as <- <-.
  exists row. split; [exact Hrow | exact Hpath].
Defined.

(** X17 on a disk where the output of the fixture session exists with
    other content: a run with [overwrite] on replaces it. *)
Lemma returned_batch_has_converted_every_session_group_witness :
  let group := ((CStr "UG27", "240214"%string), [Fixture.UG27_240214]) in
  let w' := (convert_all_dual_wavelength_sessions Fixture.standard
               Fixture.data_table_path Fixture.folder_path
               Fixture.nwbfile_folder_path ["UG27"%string] false true
               Fixture.converted).2 in
  files Fixture.converted !! ["D:"; "NWB"; "UG27_240214.nwb"]%string
    = Some (OtherContent "nwb") ∧
  convert_all_dual_wavelength_sessions Fixture.standard Fixture.data_table_path
    Fixture.folder_path Fixture.nwbfile_folder_path ["UG27"%string] false true
    Fixture.converted = (Return (), w') ∧
  group ∈ groupby (filter_by_subject ["UG27"%string] [Fixture.UG27_240214]) ∧
  holds_two_stream_sets
    (files w' !! group_nwbfile_path Fixture.nwbfile_folder_path false group).
Proof.
  intros group w'.
  assert (convert_all_dual_wavelength_sessions Fixture.standard
            Fixture.data_table_path Fixture.folder_path Fixture.nwbfile_folder_path
            ["UG27"%string] false true Fixture.converted = (Return (), w')) as Hrun
    by (apply (run_Return
                 (convert_all_dual_wavelength_sessions Fixture.standard
                    Fixture.data_table_path Fixture.folder_path
                    Fixture.nwbfile_folder_path ["UG27"%string] false true)
                 Fixture.converted ());
        vm_compute; reflexivity).
  assert (group ∈ groupby (filter_by_subject ["UG27"%string] [Fixture.UG27_240214]))
    as Hgroup by (by left).
  split; [vm_compute; reflexivity|]. split; [exact Hrun|]. split; [exact Hgroup|].
  exact (proj2 (returned_batch_has_converted_every_session_group
                  Fixture.standard Fixture.folder_path Fixture.nwbfile_folder_path
                  false Fixture.data_table_path ["UG27"%string] true
                  Fixture.converted w' [Fixture.UG27_240214] Fixture.mice
                  group eq_refl Hrun Hgroup) eq_refl).
Defined.

(** X18 on the fixture call, with a base class that accepts anything. *)
Lemma segmentation_configuration_fits_the_interface_witness :
  let r := unwrap (∅, ∅) (single_source_data Fixture.standard Fixture.single_args) in
  single_source_data Fixture.standard Fixture.single_args = Return r ∧
  ∃ config accepted_list,
    r.1 !! "Segmentation" = Some config ∧
    BouabidVu2026SegmentationInterface_init (λ _, Return ()) config =
      Return {| seg_file_path := PStr "D:/UG27/240214/UG27_240214.mat";
                seg_data_field := PStr "ACh";
                seg_sampling_frequency := PInt 18;
                seg_accepted_list := accepted_list;
                seg_verbose := PBool true |}.
Proof.
  intros r.
  assert (single_source_data Fixture.standard Fixture.single_args = Return r) as H
    by (apply unwrap_Return; vm_compute; reflexivity).
  split; [exact H|].
  destruct (segmentation_configuration_fits_the_interface Fixture.standard
              Fixture.single_args r (λ _, Return ()) H)
    as (config & accepted_list & Hconfig & _ & Hinit).
  exists config, accepted_list. split; [exact Hconfig | exact Hinit].
Defined.

(** X19 on base metadata with two devices. *)
Lemma get_metadata_renames_only_the_first_device_witness :
  let camera : gmap string pyval :=
    {[ "name" := PStr "Microscope"; "description" := PStr "camera" ]} in
  let devices := [PDict {[ "name" := PStr "Laser" ]}] in
  let ophys : gmap string pyval := {[ "Device" := PList (PDict camera :: devices) ]} in
  let metadata : gmap string pyval := {[ "Ophys" := PDict ophys ]} in
  let result : gmap string pyval :=
    <["Ophys" :=
        PDict (<["Device" :=
                   PList (PDict (<["name" := PStr "HamamatsuMicroscope"]> camera)
                            :: devices)]> ophys)]> metadata in
  metadata !! "Ophys" = Some (PDict ophys) ∧
  ophys !! "Device" = Some (PList (PDict camera :: devices)) ∧
  BouabidVu2026SegmentationInterface_get_metadata (Return metadata) = Return result ∧
  BouabidVu2026SegmentationInterface_get_metadata (Return result) = Return result.
Proof.
  intros camera devices ophys metadata result.
  assert (metadata !! "Ophys" = Some (PDict ophys)) as Hophys
    by (vm_compute; reflexivity).
  assert (ophys !! "Device" = Some (PList (PDict camera :: devices))) as Hdevices
    by (vm_compute; reflexivity).
  split; [exact Hophys|]. split; [exact Hdevices|].
  exact (get_metadata_renames_only_the_first_device metadata ophys camera devices
           Hophys Hdevices).
Defined.
